(** * Telegram survey: the intake form and the results dashboard

    A shallow embedding of [src/pages/Survey.tsx] and
    [src/pages/Dashboard.tsx], and the properties of the specification
    stated over it.

    Conventions of the embedding.
    - A JavaScript string is the sequence of its UTF-16 code units.
    - A JavaScript number that the pages compute with is a page index, an
      offset or a count: an integer far below 2^53, held as a [Z].
    - An object used as a frequency table is the list of its own properties in
      creation order, read through [Object.prototype] as the language does.
    - A handler is a computation over the component state, the notices shown,
      the queries sent and the state of the record store behind the client.
    - A call of [fetchResponses] that has not returned is kept with what it
      waits for; clicks, answers of the service and arrivals of replies are
      events that happen one at a time, in any order. *)

From Stdlib Require Import String Ascii DecimalString QArith Qround.
From Stdlib Require Import List ZArith NArith Lia Bool Permutation Sorted.
Import ListNotations.
Close Scope Q_scope.

Set Implicit Arguments.

(* ================================================================== *)
(** * The fragment of JavaScript the two pages use *)
(* ================================================================== *)

Module Js.

(** Strings, as sequences of UTF-16 code units. *)
Definition JsString := list N.

(** A literal written in ASCII. *)
Definition js (s : string) : JsString :=
  map N_of_ascii (list_ascii_of_string s).

(** The surrogate pair of a code point above U+FFFF. *)
Definition astral (cp : N) : JsString :=
  [ 0xd800 + (cp - 0x10000) / 0x400; 0xdc00 + (cp - 0x10000) mod 0x400 ]%N.

(** U+2013, the dash of the option labels. *)
Definition en_dash : JsString := [0x2013%N].

(** [a === b] on strings. *)
Fixpoint eqb (a b : JsString) : bool :=
  match a, b with
  | [], [] => true
  | x :: a', y :: b' => N.eqb x y && eqb a' b'
  | _, _ => false
  end.

(** A string in a condition: every string but the empty one passes. *)
Definition truthy (s : JsString) : bool :=
  match s with [] => false | _ :: _ => true end.

(** [s || null] *)
Definition or_null (s : JsString) : option JsString :=
  if truthy s then Some s else None.

(** [xs.includes(x)] *)
Definition includes (xs : list JsString) (x : JsString) : bool :=
  existsb (eqb x) xs.

(** What a slot of a frequency table can hold: a number, or the text that
    [+ 1] builds once its left operand is not a number.  The text always
    starts with the source of a native function, so it never reads as a
    number; its characters are not tracked. *)
Inductive JsValue :=
| Num (n : Z)
| Text.

(** An object literal [{}] and what is assigned into it: the own properties,
    oldest first. *)
Definition JsObject := list (JsString * JsValue).

Fixpoint own (o : JsObject) (k : JsString) : option JsValue :=
  match o with
  | [] => None
  | (k', v) :: o' => if eqb k k' then Some v else own o' k
  end.

Fixpoint set_own (o : JsObject) (k : JsString) (v : JsValue) : JsObject :=
  match o with
  | [] => [(k, v)]
  | (k', v') :: o' =>
      if eqb k k' then (k', v) :: o' else (k', v') :: set_own o' k v
  end.

(** The function-valued properties every object inherits from
    [Object.prototype], as browsers have it. *)
Definition Object_prototype_methods : list JsString :=
  [ js "constructor"; js "hasOwnProperty"; js "isPrototypeOf";
    js "propertyIsEnumerable"; js "toLocaleString"; js "toString";
    js "valueOf"; js "__defineGetter__"; js "__defineSetter__";
    js "__lookupGetter__"; js "__lookupSetter__" ].

(** The accessor property of [Object.prototype]. *)
Definition proto : JsString := js "__proto__".

(** The outcome of reading [o[k]]. *)
Inductive Looked :=
| Undefined
| Value (v : JsValue)
| Function
| Prototype.

Definition get (o : JsObject) (k : JsString) : Looked :=
  match own o k with
  | Some v => Value v
  | None =>
      if eqb k proto then Prototype
      else if includes Object_prototype_methods k then Function
      else Undefined
  end.

(** [(x || 0) + 1] *)
Definition or_zero_plus_one (x : Looked) : JsValue :=
  match x with
  | Undefined => Num (0 + 1)
  | Value (Num n) => Num ((if Z.eqb n 0 then 0 else n) + 1)
  | Value Text => Text
  | Function => Text
  | Prototype => Text
  end.

(** [o[k] = v] for a [v] that is not an object: the setter of [__proto__]
    ignores it, any other key becomes or stays an own property. *)
Definition put (o : JsObject) (k : JsString) (v : JsValue) : JsObject :=
  if eqb k proto then o else set_own o k v.

(** [acc[k] = (acc[k] || 0) + 1] *)
Definition increment (acc : JsObject) (k : JsString) : JsObject :=
  put acc k (or_zero_plus_one (get acc k)).

(** ** The order of [Object.entries] *)

Definition digit (u : N) : option N :=
  if (48 <=? u)%N && (u <=? 57)%N then Some (u - 48)%N else None.

Fixpoint decimal (s : JsString) (acc : N) : option N :=
  match s with
  | [] => Some acc
  | u :: s' =>
      match digit u with
      | Some d => decimal s' (10 * acc + d)%N
      | None => None
      end
  end.

(** A key is an array index when it is the canonical decimal form of an
    integer from 0 to 2^32 - 2. *)
Definition array_index (k : JsString) : option N :=
  match k with
  | [] => None
  | u :: k' =>
      if N.eqb u 48 then
        match k' with [] => Some 0%N | _ :: _ => None end
      else
        match decimal k 0 with
        | Some n => if (n <? 2 ^ 32 - 1)%N then Some n else None
        | None => None
        end
  end.

Definition is_index (p : JsString * JsValue) : bool :=
  match array_index (fst p) with Some _ => true | None => false end.

Fixpoint insert_by_index (i : N) (p : JsString * JsValue)
    (l : list (N * (JsString * JsValue))) : list (N * (JsString * JsValue)) :=
  match l with
  | [] => [(i, p)]
  | (j, q) :: l' =>
      if (i <? j)%N then (i, p) :: l else (j, q) :: insert_by_index i p l'
  end.

(** The own properties whose key is an array index, by ascending index. *)
Definition integer_keyed (o : JsObject) : list (JsString * JsValue) :=
  map snd
    (fold_right
       (fun p acc =>
          match array_index (fst p) with
          | Some i => insert_by_index i p acc
          | None => acc
          end)
       [] o).

(** The other own properties, in creation order. *)
Definition string_keyed (o : JsObject) : list (JsString * JsValue) :=
  filter (fun p => negb (is_index p)) o.

(** [Object.entries(o)] *)
Definition Object_entries (o : JsObject) : list (JsString * JsValue) :=
  integer_keyed o ++ string_keyed o.

(** ** [Array.prototype.sort] with a comparison function

    The sort is stable.  An element goes in front of the first element of
    the sorted rest that the comparison does not put before it.  When the
    comparison orders the elements consistently, a stable sort has one
    result only and this is it; when it does not, the language leaves the
    order to the implementation and this is one of the orders allowed. *)
Section Sort.
Variable A : Type.
Variable compareFn : A -> A -> Z.

Fixpoint insert_sorted (x : A) (l : list A) : list A :=
  match l with
  | [] => [x]
  | y :: l' =>
      if (compareFn x y <=? 0)%Z then x :: l else y :: insert_sorted x l'
  end.

Definition sort (l : list A) : list A := fold_right insert_sorted [] l.
End Sort.

(** [xs.slice(0, n)] *)
Definition slice0 (A : Type) (n : nat) (xs : list A) : list A := firstn n xs.

(** ** The regular expression [/^[^\s]+ /]

    [\s] matches the white space and line terminator code units. *)
Definition white_space : list N :=
  [ 9; 10; 11; 12; 13; 32; 160; 0x1680;
    0x2000; 0x2001; 0x2002; 0x2003; 0x2004; 0x2005; 0x2006; 0x2007;
    0x2008; 0x2009; 0x200a; 0x2028; 0x2029; 0x202f; 0x205f; 0x3000;
    0xfeff ]%N.

Definition is_white_space (u : N) : bool := existsb (N.eqb u) white_space.

(** What is left of [s] after its longest prefix free of white space. *)
Fixpoint skip_non_space (s : JsString) : JsString :=
  match s with
  | [] => []
  | u :: s' => if is_white_space u then s else skip_non_space s'
  end.

(** [s.replace(/^[^\s]+ /, '')]: the pattern matches at the start only, needs
    one code unit that is not white space at least, takes as many as there
    are, and then needs a space (U+0020).  A shorter run cannot match, since
    the code unit after it is not white space. *)
Definition replace_leading_token (s : JsString) : JsString :=
  match s with
  | [] => s
  | u :: s' =>
      if is_white_space u then s
      else
        match skip_non_space s' with
        | v :: rest => if N.eqb v 32 then rest else s
        | [] => s
        end
  end.

End Js.

Import Js.

(* ================================================================== *)
(** * The survey table and the client of the record store *)
(* ================================================================== *)

(** A row of [telegram_survey] as the dashboard reads it
    ([interface SurveyResponse]). *)
Module SurveyResponse.
Record t := {
  id : JsString;
  name : option JsString;
  age_group : JsString;
  usage_duration : JsString;
  usage_reason : list JsString;
  content_preference : list JsString;
  regular_bots_or_channels : option JsString;
  recommend_telegram : JsString;
  improvement_suggestions : option JsString;
  submitted_at : JsString
}.
End SurveyResponse.

(** The object the form passes to [insert]. *)
Module Row.
Record t := {
  name : option JsString;
  age_group : JsString;
  usage_duration : JsString;
  usage_reason : list JsString;
  content_preference : list JsString;
  regular_bots_or_channels : option JsString;
  recommend_telegram : JsString;
  improvement_suggestions : option JsString
}.
End Row.

Module Supabase.

(** The queries the pages build on [supabase.from(table)]. *)
Inductive Query :=
| SelectCount (table : JsString)
    (* .select('*', { count: 'exact', head: true }) *)
| SelectRange (table : JsString) (column : JsString) (ascending : bool)
    (from to : Z)
    (* .select('*').order(column, { ascending }).range(from, to) *)
| Insert (table : JsString) (row : Row.t).
    (* .insert(row) *)

Record PostgrestError := { message : JsString }.

(** What awaiting a query gives.  A failure is reported in [error]; the
    promise itself is fulfilled. *)
Record Reply := {
  data : option (list SurveyResponse.t);
  error : option PostgrestError;
  count : option Z
}.

(** The client, over whatever state [W] the service behind it keeps. *)
Definition Client (W : Type) := Query -> W -> Reply * W.

End Supabase.

Import Supabase.

(** A notice shown through [toast]. *)
Record Toast := {
  title : JsString;
  description : JsString;
  variant : option JsString
}.

Definition telegram_survey : JsString := js "telegram_survey".

(* ================================================================== *)
(** * Handlers as computations *)
(* ================================================================== *)

Module Eff.
Section Eff.
Variables S W : Type.
Variable supabase : Client W.

(** What a handler can read and change: the state of its component, the
    notices shown so far, the queries sent so far and the store. *)
Record Env := {
  state : S;
  toasts : list Toast;
  sent : list Query;
  world : W
}.

(** A block ends normally or by [throw]. *)
Inductive Completion (A : Type) :=
| Normal (a : A)
| Throw (e : PostgrestError).

Definition M (A : Type) := Env -> Completion A * Env.

Definition ret (A : Type) (a : A) : M A := fun env => (Normal a, env).

Definition bind (A B : Type) (m : M A) (k : A -> M B) : M B :=
  fun env =>
    match m env with
    | (Normal a, env') => k a env'
    | (Throw _ e, env') => (Throw _ e, env')
    end.

Definition throw (A : Type) (e : PostgrestError) : M A :=
  fun env => (Throw _ e, env).

(** [try { body } catch (e) { handler }] *)
Definition try_catch (A : Type) (body : M A)
    (handler : PostgrestError -> M A) : M A :=
  fun env =>
    match body env with
    | (Normal a, env') => (Normal a, env')
    | (Throw _ e, env') => handler e env'
    end.

(** [try { body } finally { final }] *)
Definition try_finally (A : Type) (body : M A) (final : M unit) : M A :=
  fun env =>
    match body env with
    | (c, env') =>
        match final env' with
        | (Normal _, env'') => (c, env'')
        | (Throw _ e, env'') => (Throw _ e, env'')
        end
    end.

(** The state as the handler's closure sees it. *)
Definition read (A : Type) (f : S -> A) : M A :=
  fun env => (Normal (f (state env)), env).

(** A state setter of the component. *)
Definition update (f : S -> S) : M unit :=
  fun env =>
    (Normal tt,
     {| state := f (state env); toasts := toasts env;
        sent := sent env; world := world env |}).

Definition toast (t : Toast) : M unit :=
  fun env =>
    (Normal tt,
     {| state := state env; toasts := toasts env ++ [t];
        sent := sent env; world := world env |}).

(** [await q] *)
Definition await (q : Query) : M Reply :=
  fun env =>
    let (reply, w) := supabase q (world env) in
    (Normal reply,
     {| state := state env; toasts := toasts env;
        sent := sent env ++ [q]; world := w |}).

End Eff.

Arguments ret {S W A} a.
Arguments bind {S W A B} m k.
Arguments throw {S W A} e.
Arguments try_catch {S W A} body handler.
Arguments try_finally {S W A} body final.
Arguments read {S W A} f.
Arguments update {S W} f.
Arguments toast {S W} t.
Arguments await {S W} supabase q.
End Eff.

Import Eff.

Declare Scope eff_scope.
Delimit Scope eff_scope with eff.
Notation "x <- m ;; k" := (bind m (fun x => k))
  (at level 61, m at next level, right associativity) : eff_scope.
Notation "m ;; k" := (bind m (fun _ => k))
  (at level 61, right associativity) : eff_scope.

(* ================================================================== *)
(** * The intake form ([Survey.tsx]) *)
(* ================================================================== *)

Module FormData.
Record t := {
  name : JsString;
  age_group : JsString;
  usage_duration : JsString;
  usage_reason : list JsString;
  content_preference : list JsString;
  regular_bots_or_channels : JsString;
  recommend_telegram : JsString;
  improvement_suggestions : JsString;
  other_usage_reason : JsString
}.
End FormData.

Module Survey.

Record State := {
  formData : FormData.t;
  isSubmitting : bool
}.

(** The initial value of [formData], also the one it is reset to. *)
Definition blank : FormData.t :=
  {| FormData.name := [];
     FormData.age_group := [];
     FormData.usage_duration := [];
     FormData.usage_reason := [];
     FormData.content_preference := [];
     FormData.regular_bots_or_channels := [];
     FormData.recommend_telegram := [];
     FormData.improvement_suggestions := [];
     FormData.other_usage_reason := [] |}.

Definition Other : JsString := js "Other".

Definition ageGroups : list JsString :=
  [ js "Under 18";
    js "18" ++ en_dash ++ js "24";
    js "25" ++ en_dash ++ js "34";
    js "35" ++ en_dash ++ js "44";
    js "45+" ].

Definition usageDurations : list JsString :=
  [ js "Less than 6 months";
    js "6 months " ++ en_dash ++ js " 1 year";
    js "1" ++ en_dash ++ js "3 years";
    js "More than 3 years" ].

Definition usageReasons : list JsString :=
  [ js "To join groups and channels";
    js "For privacy and security";
    js "For cloud-based messaging";
    js "To download movies, web series, or books";
    js "For business/marketing purposes";
    js "To chat with friends";
    js "For bots and automation";
    Other ].

Definition contentPreferences : list JsString :=
  [ astral 0x1f4fd ++ js " Movies & Web Series";
    astral 0x1f4da ++ js " E-books & Study Material";
    astral 0x1f393 ++ js " Educational Content";
    astral 0x1f4f0 ++ js " News & Updates";
    astral 0x1f4b8 ++ js " Job Alerts";
    astral 0x1f3ae ++ js " Gaming Tips";
    astral 0x1f4ac ++ js " Motivational Quotes";
    astral 0x1f916 ++ js " Useful Bots";
    astral 0x1f4f1 ++ js " Tech Updates";
    astral 0x1f3a7 ++ js " Music & Podcasts" ].

Definition recommendOptions : list JsString := [js "Yes"; js "No"; js "Maybe"].

Definition setFormData (f : FormData.t) (s : State) : State :=
  {| formData := f; isSubmitting := isSubmitting s |}.

Definition setIsSubmitting (b : bool) (s : State) : State :=
  {| formData := formData s; isSubmitting := b |}.

Inductive Field := usage_reason | content_preference.

(** [prev[field].includes(value) ? prev[field].filter(item => item !== value)
    : [...prev[field], value]] *)
Definition toggle (value : JsString) (xs : list JsString) : list JsString :=
  if includes xs value then filter (fun item => negb (eqb item value)) xs
  else xs ++ [value].

Definition handleMultipleChoice (value : JsString) (field : Field)
    (prev : FormData.t) : FormData.t :=
  {| FormData.name := FormData.name prev;
     FormData.age_group := FormData.age_group prev;
     FormData.usage_duration := FormData.usage_duration prev;
     FormData.usage_reason :=
       match field with
       | usage_reason => toggle value (FormData.usage_reason prev)
       | content_preference => FormData.usage_reason prev
       end;
     FormData.content_preference :=
       match field with
       | usage_reason => FormData.content_preference prev
       | content_preference => toggle value (FormData.content_preference prev)
       end;
     FormData.regular_bots_or_channels := FormData.regular_bots_or_channels prev;
     FormData.recommend_telegram := FormData.recommend_telegram prev;
     FormData.improvement_suggestions := FormData.improvement_suggestions prev;
     FormData.other_usage_reason := FormData.other_usage_reason prev |}.

(** The two guards at the head of [handleSubmit]. *)
Definition missing_fields (f : FormData.t) : bool :=
  negb (truthy (FormData.age_group f))
  || negb (truthy (FormData.usage_duration f))
  || negb (truthy (FormData.recommend_telegram f)).

Definition missing_selections (f : FormData.t) : bool :=
  (length (FormData.usage_reason f) =? 0)%nat
  || (length (FormData.content_preference f) =? 0)%nat.

Definition finalUsageReasons (f : FormData.t) : list JsString :=
  if includes (FormData.usage_reason f) Other
     && truthy (FormData.other_usage_reason f)
  then filter (fun r => negb (eqb r Other)) (FormData.usage_reason f)
       ++ [FormData.other_usage_reason f]
  else FormData.usage_reason f.

(** The argument of [insert]. *)
Definition row (f : FormData.t) : Row.t :=
  {| Row.name := or_null (FormData.name f);
     Row.age_group := FormData.age_group f;
     Row.usage_duration := FormData.usage_duration f;
     Row.usage_reason := finalUsageReasons f;
     Row.content_preference := FormData.content_preference f;
     Row.regular_bots_or_channels :=
       or_null (FormData.regular_bots_or_channels f);
     Row.recommend_telegram := FormData.recommend_telegram f;
     Row.improvement_suggestions :=
       or_null (FormData.improvement_suggestions f) |}.

Definition destructive : option JsString := Some (js "destructive").

Definition missing_fields_toast : Toast :=
  {| title := js "Missing fields";
     description := js "Please fill in all required fields.";
     variant := destructive |}.

Definition missing_selections_toast : Toast :=
  {| title := js "Missing selections";
     description :=
       js "Please select at least one option for usage reason and content preference.";
     variant := destructive |}.

Definition thank_you_toast : Toast :=
  {| title := js "Thank you for submitting the survey!";
     description := js "Your response has been recorded successfully.";
     variant := None |}.

Definition submission_failed_toast : Toast :=
  {| title := js "Submission failed";
     description :=
       js "There was an error submitting your response. Please try again.";
     variant := destructive |}.

(** ** The controls of the form *)

(** What the user can do to the draft: type into an input, choose a radio
    button, tick or untick a checkbox. *)
Inductive Event :=
| NameChange (value : JsString)
| AgeGroupChange (value : JsString)
| UsageDurationChange (value : JsString)
| CheckedChange (value : JsString) (field : Field)
| OtherReasonChange (value : JsString)
| BotsChange (value : JsString)
| RecommendChange (value : JsString)
| SuggestionsChange (value : JsString).

(** The updater each control passes to [setFormData]:
    [prev => ({ ...prev, field: value })], and [handleMultipleChoice] for
    the checkboxes. *)
Definition handle (e : Event) (prev : FormData.t) : FormData.t :=
  match e with
  | CheckedChange value field => handleMultipleChoice value field prev
  | _ =>
      {| FormData.name :=
           match e with NameChange v => v | _ => FormData.name prev end;
         FormData.age_group :=
           match e with
           | AgeGroupChange v => v
           | _ => FormData.age_group prev
           end;
         FormData.usage_duration :=
           match e with
           | UsageDurationChange v => v
           | _ => FormData.usage_duration prev
           end;
         FormData.usage_reason := FormData.usage_reason prev;
         FormData.content_preference := FormData.content_preference prev;
         FormData.regular_bots_or_channels :=
           match e with
           | BotsChange v => v
           | _ => FormData.regular_bots_or_channels prev
           end;
         FormData.recommend_telegram :=
           match e with
           | RecommendChange v => v
           | _ => FormData.recommend_telegram prev
           end;
         FormData.improvement_suggestions :=
           match e with
           | SuggestionsChange v => v
           | _ => FormData.improvement_suggestions prev
           end;
         FormData.other_usage_reason :=
           match e with
           | OtherReasonChange v => v
           | _ => FormData.other_usage_reason prev
           end |}
  end.

(** [formData[field]] *)
Definition selected (f : FormData.t) (field : Field) : list JsString :=
  match field with
  | usage_reason => FormData.usage_reason f
  | content_preference => FormData.content_preference f
  end.

(** [checked={formData[field].includes(value)}] *)
Definition checked (f : FormData.t) (field : Field) (value : JsString)
    : bool :=
  match field with
  | usage_reason => includes (FormData.usage_reason f) value
  | content_preference => includes (FormData.content_preference f) value
  end.

(** The controls that the form renders for a draft: a radio button per
    option of [ageGroups], [usageDurations] and [recommendOptions], a
    checkbox per option of [usageReasons] and [contentPreferences], the text
    inputs, and the input for the other reason while "Other" is ticked. *)
Definition offered (f : FormData.t) (e : Event) : bool :=
  match e with
  | AgeGroupChange v => includes ageGroups v
  | UsageDurationChange v => includes usageDurations v
  | RecommendChange v => includes recommendOptions v
  | CheckedChange v usage_reason => includes usageReasons v
  | CheckedChange v content_preference => includes contentPreferences v
  | OtherReasonChange _ => includes (FormData.usage_reason f) Other
  | NameChange _ | BotsChange _ | SuggestionsChange _ => true
  end.

(** The drafts a user can bring about, starting from the blank form. *)
Inductive reachable : FormData.t -> Prop :=
| reachable_blank : reachable blank
| reachable_step (f : FormData.t) (e : Event) :
    reachable f -> offered f e = true -> reachable (handle e f).

Section Handlers.
Variable W : Type.
Variable supabase : Client W.

Local Open Scope eff_scope.

(** [handleSubmit].  [e.preventDefault()] and [console.error] touch
    neither the component nor the store and are left out. *)
Definition handleSubmit : M State W unit :=
  f <- read formData ;;
  if missing_fields f then toast missing_fields_toast
  else if missing_selections f then toast missing_selections_toast
  else
    update (setIsSubmitting true) ;;
    try_finally
      (try_catch
         (reply <- await supabase (Insert telegram_survey (row f)) ;;
          match error reply with
          | Some e => throw e
          | None => ret tt
          end ;;
          toast thank_you_toast ;;
          update (setFormData blank))
         (fun _ => toast submission_failed_toast))
      (update (setIsSubmitting false)).

End Handlers.
End Survey.

(* ================================================================== *)
(** * The results dashboard ([Dashboard.tsx]) *)
(* ================================================================== *)

(** A point of a chart series: [{ name, value }]. *)
Module Datum.
Record t := { name : JsString; value : JsValue }.
End Datum.

Module Dashboard.

Local Open Scope Z_scope.

Record State := {
  responses : list SurveyResponse.t;
  currentPage : Z;
  totalResponses : Z;
  loading : bool
}.

(** The state at mount. *)
Definition initial : State :=
  {| responses := []; currentPage := 1; totalResponses := 0; loading := true |}.

Definition setResponses (r : list SurveyResponse.t) (s : State) : State :=
  {| responses := r; currentPage := currentPage s;
     totalResponses := totalResponses s; loading := loading s |}.

Definition setCurrentPage (f : Z -> Z) (s : State) : State :=
  {| responses := responses s; currentPage := f (currentPage s);
     totalResponses := totalResponses s; loading := loading s |}.

Definition setTotalResponses (n : Z) (s : State) : State :=
  {| responses := responses s; currentPage := currentPage s;
     totalResponses := n; loading := loading s |}.

Definition setLoading (b : bool) (s : State) : State :=
  {| responses := responses s; currentPage := currentPage s;
     totalResponses := totalResponses s; loading := b |}.

Definition responsesPerPage : Z := 10.

Definition submitted_at : JsString := js "submitted_at".

(** [count || 0] *)
Definition or_zero (count : option Z) : Z :=
  match count with
  | Some n => if Z.eqb n 0 then 0 else n
  | None => 0
  end.

(** [data || []] *)
Definition or_empty (data : option (list SurveyResponse.t))
    : list SurveyResponse.t :=
  match data with
  | Some rows => rows
  | None => []
  end.

Definition error_loading_toast : Toast :=
  {| title := js "Error loading data";
     description := js "Failed to load survey responses. Please try again.";
     variant := Some (js "destructive") |}.

(** The argument of [.range] for a page. *)
Definition range_from (page : Z) : Z := (page - 1) * responsesPerPage.
Definition range_to (page : Z) : Z := page * responsesPerPage - 1.

Definition page_query (page : Z) : Query :=
  SelectRange telegram_survey submitted_at false
    (range_from page) (range_to page).

Section Handlers.
Variable W : Type.
Variable supabase : Client W.

Local Open Scope eff_scope.

(** [fetchResponses], with [currentPage] as the closure holds it.
    [console.error] is left out. *)
Definition fetchResponses : M State W unit :=
  page <- read currentPage ;;
  try_finally
    (try_catch
       (update (setLoading true) ;;
        counted <- await supabase (SelectCount telegram_survey) ;;
        update (setTotalResponses (or_zero (count counted))) ;;
        selected <- await supabase (page_query page) ;;
        match error selected with
        | Some e => throw e
        | None => ret tt
        end ;;
        update (setResponses (or_empty (data selected))))
       (fun _ => toast error_loading_toast))
    (update (setLoading false)).

End Handlers.

(** ** The chart series *)

Definition datum (entry : JsString * JsValue) : Datum.t :=
  let (name, value) := entry in {| Datum.name := name; Datum.value := value |}.

Definition getAgeGroupData (responses : list SurveyResponse.t) : list Datum.t :=
  let ageGroups :=
    fold_left
      (fun acc response => increment acc (SurveyResponse.age_group response))
      responses [] in
  map datum (Object_entries ageGroups).

Definition getRecommendationData (responses : list SurveyResponse.t)
    : list Datum.t :=
  let recommendations :=
    fold_left
      (fun acc response =>
         increment acc (SurveyResponse.recommend_telegram response))
      responses [] in
  map datum (Object_entries recommendations).

Definition getUsageDurationData (responses : list SurveyResponse.t)
    : list Datum.t :=
  let durations :=
    fold_left
      (fun acc response =>
         increment acc (SurveyResponse.usage_duration response))
      responses [] in
  map datum (Object_entries durations).

(** [x - y]; [None] stands for NaN. *)
Definition minus (x y : JsValue) : option Z :=
  match x, y with
  | Num a, Num b => Some (a - b)
  | _, _ => None
  end.

(** [(a, b) => b.value - a.value], as [sort] reads it: NaN counts as 0.
    Between values that are not all numbers the comparison is not
    consistent, and the language leaves the resulting order to the
    implementation; nothing below depends on it. *)
Definition by_value_descending (a b : Datum.t) : Z :=
  match minus (Datum.value b) (Datum.value a) with
  | Some d => d
  | None => 0
  end.

Definition strip_name (entry : JsString * JsValue) : Datum.t :=
  let (name, value) := entry in
  {| Datum.name := replace_leading_token name; Datum.value := value |}.

Definition getContentPreferenceData (responses : list SurveyResponse.t)
    : list Datum.t :=
  let contentCounts :=
    fold_left
      (fun acc response =>
         fold_left increment (SurveyResponse.content_preference response) acc)
      responses [] in
  slice0 10
    (sort by_value_descending (map strip_name (Object_entries contentCounts))).

(** ** Pagination *)

(** [Math.ceil(totalResponses / responsesPerPage)] *)
Definition totalPages (s : State) : Z :=
  Qceiling (inject_Z (totalResponses s) / inject_Z responsesPerPage).

(** [Array.from({ length: totalPages }, (_, i) => i + 1)] *)
Definition page_numbers (s : State) : list Z :=
  map (fun i => Z.of_nat i + 1) (seq 0 (Z.to_nat (totalPages s))).

Inductive Click :=
| Previous
| Link (page : Z)
| Next.

(** The controls on screen: none on the empty view, none for a single
    page. *)
Definition controls (s : State) : list Click :=
  if (length (responses s) =? 0)%nat then []
  else if (1 <? totalPages s) then
    Previous :: map Link (page_numbers s) ++ [Next]
  else [].

Definition onClick (c : Click) (s : State) : State :=
  match c with
  | Previous => setCurrentPage (fun prev => Z.max (prev - 1) 1) s
  | Link page => setCurrentPage (fun _ => page) s
  | Next => setCurrentPage (fun prev => Z.min (prev + 1) (totalPages s)) s
  end.

(** ** What the component renders *)

Definition COLORS : list JsString :=
  [ js "#0088FE"; js "#00C49F"; js "#FFBB28"; js "#FF8042"; js "#8884D8";
    js "#82CA9D"; js "#FFC658"; js "#FF7C7C"; js "#8DD1E1"; js "#D084D0" ].

(** [COLORS[index % COLORS.length]]; [None] stands for [undefined]. *)
Definition fill (index : nat) : option JsString :=
  nth_error COLORS (index mod length COLORS).

(** [data.map((entry, index) => <Cell fill={...} />)] *)
Definition cells (series : list Datum.t) : list (option JsString) :=
  map fill (seq 0 (length series)).

(** [text || fallback] *)
Definition or_text (text : option JsString) (fallback : JsString)
    : JsString :=
  match text with
  | Some s => if truthy s then s else fallback
  | None => fallback
  end.

(** [text && <div>...text...</div>]: the block, when there is one. *)
Definition and_block (text : option JsString) : option JsString :=
  match text with
  | Some s => if truthy s then Some s else None
  | None => None
  end.

(** An entry of the list of responses, but for its date, which [date-fns]
    formats: see [submitted_cells]. *)
Record Card := {
  key : JsString;
  shown_name : JsString;
  shown_age_group : JsString;
  shown_usage_duration : JsString;
  shown_recommendation : JsString;
  shown_bots : JsString;
  shown_suggestions : option JsString
}.

Definition card (response : SurveyResponse.t) : Card :=
  {| key := SurveyResponse.id response;
     shown_name := or_text (SurveyResponse.name response) (js "Anonymous");
     shown_age_group := SurveyResponse.age_group response;
     shown_usage_duration := SurveyResponse.usage_duration response;
     shown_recommendation := SurveyResponse.recommend_telegram response;
     shown_bots :=
       or_text (SurveyResponse.regular_bots_or_channels response)
         (js "None specified");
     shown_suggestions :=
       and_block (SurveyResponse.improvement_suggestions response) |}.

(** An item of the pagination bar, with what its [className] or [isActive]
    says about it. *)
Inductive Item :=
| PreviousItem (dimmed : bool)
| LinkItem (page : Z) (isActive : bool)
| NextItem (dimmed : bool).

Definition pagination (s : State) : list Item :=
  if (1 <? totalPages s) then
    PreviousItem (currentPage s =? 1)
    :: map (fun page => LinkItem page (currentPage s =? page))
         (page_numbers s)
    ++ [NextItem (currentPage s =? totalPages s)]
  else [].

(** The click an item answers. *)
Definition item_click (i : Item) : Click :=
  match i with
  | PreviousItem _ => Previous
  | LinkItem page _ => Link page
  | NextItem _ => Next
  end.

(** Whether an item is shown as the current page. *)
Definition active_item (i : Item) : bool :=
  match i with
  | LinkItem _ a => a
  | _ => false
  end.

(** Whether an item is shown as out of use. *)
Definition dimmed_item (i : Item) : bool :=
  match i with
  | PreviousItem d => d
  | LinkItem _ _ => false
  | NextItem d => d
  end.

Record Report := {
  ageGroupPie : list Datum.t;
  ageGroupCells : list (option JsString);
  recommendationPie : list Datum.t;
  recommendationCells : list (option JsString);
  usageDurationBars : list Datum.t;
  contentPreferenceBars : list Datum.t;
  cards : list Card;
  submitted : list JsString;
  paginationBar : list Item
}.

Inductive View :=
| LoadingScreen
| NoResponsesYet (total : Z)
| Results (total : Z) (report : Report).

Section Rendering.

(** [format(new Date(text), 'MMM dd, yyyy HH:mm')], the function of
    [date-fns] over the engine's [Date]: the date as a text, or [None]
    when [text] does not read as a date, in which case [format] throws a
    [RangeError]. *)
Variable format : JsString -> option JsString.

(** The "Submitted" cells of the list of responses, in order; [None] when
    one of them throws. *)
Fixpoint submitted_cells (shown : list SurveyResponse.t)
    : option (list JsString) :=
  match shown with
  | [] => Some []
  | response :: shown' =>
      match format (SurveyResponse.submitted_at response) with
      | None => None
      | Some date =>
          match submitted_cells shown' with
          | None => None
          | Some dates => Some (date :: dates)
          end
      end
  end.

(** The returned element, by its three shapes; [None] when rendering
    throws, which it does when the list holds a record whose
    [submitted_at] does not read as a date. *)
Definition render (s : State) : option View :=
  if loading s && (length (responses s) =? 0)%nat then Some LoadingScreen
  else if (length (responses s) =? 0)%nat then
    Some (NoResponsesYet (totalResponses s))
  else
    match submitted_cells (responses s) with
    | None => None
    | Some dates =>
        Some
          (Results (totalResponses s)
             {| ageGroupPie := getAgeGroupData (responses s);
                ageGroupCells := cells (getAgeGroupData (responses s));
                recommendationPie := getRecommendationData (responses s);
                recommendationCells :=
                  cells (getRecommendationData (responses s));
                usageDurationBars := getUsageDurationData (responses s);
                contentPreferenceBars :=
                  getContentPreferenceData (responses s);
                cards := map card (responses s);
                submitted := dates;
                paginationBar := pagination s |})
    end.

End Rendering.

Section Effects.
Variable W : Type.
Variable supabase : Client W.

Local Open Scope eff_scope.

(** A click followed by the render it causes:
    [useEffect(() => { fetchResponses(); }, [currentPage])] runs the
    fetch when the page index has changed, and only then.  The fetch is
    taken as a whole, as it goes when nothing else happens before its two
    replies have arrived; [fire] below takes it reply by reply. *)
Definition click (c : Click) : M State W unit :=
  before <- read currentPage ;;
  update (onClick c) ;;
  after <- read currentPage ;;
  if Z.eqb before after then ret tt else fetchResponses supabase.

End Effects.
(** ** Sessions *)

(** A call of [fetchResponses] that has not returned waits for the reply
    to its count query or to its page query. *)
Inductive Awaited := CountReply | PageReply.

(** Such a call: the page index its closure holds, the reply it waits for,
    and that reply once the service has given it. *)
Record Call := {
  closure_page : Z;
  awaited : Awaited;
  reply : option Reply
}.

Definition awaited_query (c : Call) : Query :=
  match awaited c with
  | CountReply => SelectCount telegram_survey
  | PageReply => page_query (closure_page c)
  end.

Definition same_click (a b : Click) : bool :=
  match a, b with
  | Previous, Previous => true
  | Link p, Link q => Z.eqb p q
  | Next, Next => true
  | _, _ => false
  end.

Definition on_screen (c : Click) (s : State) : bool :=
  existsb (same_click c) (controls s).

(** What can happen to the mounted component: the user clicks a control
    that is on screen; the service answers the query of the call in
    progress number [i]; that call receives its reply and goes on. *)
Inductive Event :=
| Clicks (c : Click)
| Answers (i : nat)
| Resumes (i : nat).

Section Sessions.
Variable W : Type.
Variable supabase : Client W.

(** The component once mounted: the effect has run the first fetch. *)
Definition mounted (w : W) : Env State W :=
  snd (fetchResponses supabase
         {| state := initial; toasts := []; sent := []; world := w |}).

(** The component while it lives: what its handlers have made of the
    state, the notices, the queries and the store so far, and the calls
    of [fetchResponses] that have not returned, oldest first. *)
Record Live := {
  live : Env State W;
  in_progress : list Call
}.

(** A query leaves. *)
Definition send (q : Query) (env : Env State W) : Env State W :=
  {| state := state env; toasts := toasts env;
     sent := sent env ++ [q]; world := world env |}.

(** [fetchResponses] from its call to its first [await]. *)
Definition start (l : Live) : Live :=
  {| live :=
       send (SelectCount telegram_survey)
         (snd (update (setLoading true) (live l)));
     in_progress :=
       in_progress l
       ++ [ {| closure_page := currentPage (state (live l));
               awaited := CountReply;
               reply := None |} ] |}.

(** The service answers the query of a call. *)
Definition answer (c : Call) (env : Env State W) : Call * Env State W :=
  let (r, w) := supabase (awaited_query c) (world env) in
  ({| closure_page := closure_page c; awaited := awaited c;
      reply := Some r |},
   {| state := state env; toasts := toasts env; sent := sent env;
      world := w |}).

(** [fetchResponses] from the reply it waited for to its next [await],
    or to its end. *)
Definition resume (c : Call) (r : Reply) (env : Env State W)
    : option Call * Env State W :=
  match awaited c with
  | CountReply =>
      (Some {| closure_page := closure_page c; awaited := PageReply;
               reply := None |},
       send (page_query (closure_page c))
         (snd (update (setTotalResponses (or_zero (count r))) env)))
  | PageReply =>
      (None,
       snd (update (setLoading false)
              (match error r with
               | Some _ => snd (toast error_loading_toast env)
               | None =>
                   snd (update (setResponses (or_empty (data r))) env)
               end)))
  end.

(** One event; [None] when it cannot happen.  A click and the effect it
    causes are one event: the effects of a click are run before the
    click returns. *)
Definition fire (e : Event) (l : Live) : option Live :=
  match e with
  | Clicks c =>
      if on_screen c (state (live l)) then
        let clicked :=
          {| live := snd (update (onClick c) (live l));
             in_progress := in_progress l |} in
        if Z.eqb (currentPage (state (live l)))
             (currentPage (state (live clicked)))
        then Some clicked
        else Some (start clicked)
      else None
  | Answers i =>
      match nth_error (in_progress l) i with
      | Some c =>
          match reply c with
          | None =>
              let (c', env) := answer c (live l) in
              Some {| live := env;
                      in_progress :=
                        firstn i (in_progress l)
                        ++ c' :: skipn (S i) (in_progress l) |}
          | Some _ => None
          end
      | None => None
      end
  | Resumes i =>
      match nth_error (in_progress l) i with
      | Some c =>
          match reply c with
          | Some r =>
              let (next, env) := resume c r (live l) in
              Some {| live := env;
                      in_progress :=
                        firstn i (in_progress l)
                        ++ match next with
                           | Some c' => [c']
                           | None => []
                           end
                        ++ skipn (S i) (in_progress l) |}
          | None => None
          end
      | None => None
      end
  end.

(** A sequence of events, one after the other. *)
Fixpoint play (events : list Event) (l : Live) : option Live :=
  match events with
  | [] => Some l
  | e :: events' =>
      match fire e l with
      | Some l' => play events' l'
      | None => None
      end
  end.

(** The component at mount: the effect has made the first call. *)
Definition launched (w : W) : Live :=
  start {| live := {| state := initial; toasts := []; sent := [];
                      world := w |};
           in_progress := [] |}.

(** Whether every click of a sequence of events is made with no call in
    progress. *)
Fixpoint waits (events : list Event) (l : Live) : bool :=
  match events with
  | [] => true
  | e :: events' =>
      match e with
      | Clicks _ =>
          match in_progress l with [] => true | _ :: _ => false end
      | _ => true
      end
      && match fire e l with
         | Some l' => waits events' l'
         | None => true
         end
  end.

End Sessions.
End Dashboard.

(* ================================================================== *)
(** * The record store *)
(* ================================================================== *)

Module Store.

(** Modelled from the spec: the hosted record store of section 6, which the
    repository reaches through a generated client and does not implement.
    It holds the rows of the one table, most recently submitted first;
    [count] gives their number, a range select gives the rows of an
    inclusive zero-based range of the ordered table, and [insert] adds a row
    with an identifier and a time of the store's own. *)
Record t := {
  rows : list SurveyResponse.t;
  clock : N
}.

(** Modelled from the spec: identifiers and times are assigned by the
    store; here both are the decimal form of its clock. *)
Definition stamp (n : N) : JsString :=
  js (NilEmpty.string_of_uint (N.to_uint n)).

(** Modelled from the spec: the record kept for an inserted row. *)
Definition stored (w : t) (r : Row.t) : SurveyResponse.t :=
  {| SurveyResponse.id := stamp (clock w);
     SurveyResponse.name := Row.name r;
     SurveyResponse.age_group := Row.age_group r;
     SurveyResponse.usage_duration := Row.usage_duration r;
     SurveyResponse.usage_reason := Row.usage_reason r;
     SurveyResponse.content_preference := Row.content_preference r;
     SurveyResponse.regular_bots_or_channels := Row.regular_bots_or_channels r;
     SurveyResponse.recommend_telegram := Row.recommend_telegram r;
     SurveyResponse.improvement_suggestions := Row.improvement_suggestions r;
     SurveyResponse.submitted_at := stamp (clock w) |}.

(** Modelled from the spec: the reply to a query the store cannot serve. *)
Definition failure : Reply :=
  {| data := None;
     error := Some {| message := js "relation does not exist" |};
     count := None |}.

(** Modelled from the spec: the rows at the offsets [from] to [to], both
    included, counted from zero. *)
Definition slice (from to : Z) (l : list SurveyResponse.t)
    : list SurveyResponse.t :=
  firstn (Z.to_nat (to - from + 1)) (skipn (Z.to_nat from) l).

(** Modelled from the spec: the three operations of the store, as the
    answers of the client. *)
Definition client : Client t :=
  fun q w =>
    match q with
    | SelectCount table =>
        if eqb table telegram_survey then
          ({| data := None; error := None;
              count := Some (Z.of_nat (length (rows w))) |}, w)
        else (failure, w)
    | SelectRange table column ascending from to =>
        if eqb table telegram_survey && eqb column Dashboard.submitted_at then
          ({| data :=
                Some (slice from to (if ascending then rev (rows w) else rows w));
              error := None; count := None |}, w)
        else (failure, w)
    | Insert table r =>
        if eqb table telegram_survey then
          ({| data := None; error := None; count := None |},
           {| rows := stored w r :: rows w; clock := N.succ (clock w) |})
        else (failure, w)
    end.

(** Modelled from the spec: the store when the service cannot be reached,
    every query fails. *)
Definition offline : Client t := fun _ w => (failure, w).

(** Modelled from the spec: the store when only the count is served. *)
Definition count_only : Client t :=
  fun q w =>
    match q with
    | SelectCount _ => client q w
    | _ => (failure, w)
    end.

(** Modelled from the spec: the store when the count is not served but
    pages are. *)
Definition pages_only : Client t :=
  fun q w =>
    match q with
    | SelectCount _ => (failure, w)
    | _ => client q w
    end.

End Store.

(* ================================================================== *)
(** * The specification's vocabulary *)
(* ================================================================== *)

Module Spec.

Local Open Scope Z_scope.

(** Keys that an object literal does not hold as plain entries: the names it
    inherits from [Object.prototype]. *)
Definition inherited (k : JsString) : bool :=
  eqb k proto || includes Object_prototype_methods k.

(** Keys that [Object.entries] moves to the front. *)
Definition indexed (k : JsString) : bool :=
  match array_index k with Some _ => true | None => false end.

(** The distinct values of a sequence, each at its first occurrence. *)
Fixpoint first_seen (l : list JsString) : list JsString :=
  match l with
  | [] => []
  | k :: l' => k :: filter (fun k' => negb (eqb k' k)) (first_seen l')
  end.

(** How many times [k] occurs in [l]. *)
Definition occurrences (k : JsString) (l : list JsString) : Z :=
  Z.of_nat (length (filter (eqb k) l)).

(** The frequency mapping of a sequence of values, in first-seen order. *)
Definition frequencies (l : list JsString) : list Datum.t :=
  map (fun k => {| Datum.name := k; Datum.value := Num (occurrences k l) |})
    (first_seen l).

(** The same mapping as the object that holds it. *)
Definition table (l : list JsString) : JsObject :=
  map (fun k => (k, Num (occurrences k l))) (first_seen l).

(** Keys that a frequency table holds and lists as the specification
    describes. *)
Definition plain (k : JsString) : bool :=
  negb (inherited k) && negb (indexed k).

(** [d] carries the count [n]. *)
Definition counts (d : Datum.t) (n : Z) : Prop := Datum.value d = Num n.

(** [d] carries a number. *)
Definition numeric (d : Datum.t) : Prop := exists n, counts d n.

Definition has_count (n : Z) (d : Datum.t) : bool :=
  match Datum.value d with
  | Num m => Z.eqb m n
  | Text => false
  end.

(** The sum of the counts of a series. *)
Fixpoint total (series : list Datum.t) : Z :=
  match series with
  | [] => 0
  | d :: series' =>
      match Datum.value d with
      | Num n => n + total series'
      | Text => total series'
      end
  end.

(** A distribution over [n] records: distinct labels, counts of one at
    least, [n] in all. *)
Definition distribution_of (n : nat) (series : list Datum.t) : Prop :=
  NoDup (map Datum.name series)
  /\ Forall (fun d => exists c, counts d c /\ 1 <= c) series
  /\ total series = Z.of_nat n.

(** [label] starts with a run of code units that are not white space,
    followed by a space. *)
Definition token_then_space (label token rest : JsString) : Prop :=
  token <> []
  /\ Forall (fun u => is_white_space u = false) token
  /\ label = token ++ 32%N :: rest.

(** [stripped] is [label] without its leading token and the one space after
    it, or [label] itself when it does not start that way. *)
Definition stripped_of (label stripped : JsString) : Prop :=
  (exists token, token_then_space label token stripped)
  \/ ((forall token rest, ~ token_then_space label token rest)
      /\ stripped = label).

(** No entry is followed by one with a greater count. *)
Definition descending (series : list Datum.t) : Prop :=
  StronglySorted
    (fun a b => exists x y, counts a x /\ counts b y /\ y <= x)
    series.

(** [output] is [input] sorted by count, greatest first, entries of equal
    count staying in the order they had. *)
Definition stably_sorted (input output : list Datum.t) : Prop :=
  Permutation input output
  /\ descending output
  /\ forall n, filter (has_count n) output = filter (has_count n) input.

(** Every element of every record's [content_preference], in order. *)
Definition flattened (responses : list SurveyResponse.t) : list JsString :=
  flat_map SurveyResponse.content_preference responses.

(** The content-preference series in the specification's words: count every
    element of the flattened lists, which gives one pair per distinct
    element, in the order in which the elements first occur; strip the
    labels; sort by count with a stable sort; keep ten entries at most. *)
Definition content_series (responses : list SurveyResponse.t)
    (series : list Datum.t) : Prop :=
  exists (unsorted sorted : list Datum.t),
    Forall2
      (fun k d =>
         stripped_of k (Datum.name d)
         /\ counts d (occurrences k (flattened responses)))
      (first_seen (flattened responses)) unsorted
    /\ stably_sorted unsorted sorted
    /\ series = firstn 10 sorted.

(** ceil(n / d) for a positive [d]: the least [p] with [n <= p * d]. *)
Definition is_ceiling (n d p : Z) : Prop :=
  n <= p * d /\ (p - 1) * d < n.

(** ** Vocabulary of the further properties *)

(** The names of the methods of [Object.prototype]. *)
Definition is_method (k : JsString) : bool :=
  includes Object_prototype_methods k.

(** The object that counting the keys of [l] builds, whatever the keys
    are: one property per distinct key other than "__proto__", in
    first-seen order, holding the number of occurrences, or a text when the
    key names an inherited method. *)
Definition tally (l : list JsString) : JsObject :=
  map (fun k => (k, if is_method k then Text else Num (occurrences k l)))
    (filter (fun k => negb (eqb k proto)) (first_seen l)).

(** Keys that read as array indices, by ascending index. *)
Definition ascending (ks : list JsString) : Prop :=
  StronglySorted
    (fun a b =>
       exists i j,
         array_index a = Some i /\ array_index b = Some j /\ (i < j)%N)
    ks.

(** A draft as the controls of the form can make it: in each radio group
    nothing or one of its options, in each group of checkboxes some of its
    options, none of them twice. *)
Definition made_of_options (f : FormData.t) : Prop :=
  (FormData.age_group f = [] \/ In (FormData.age_group f) Survey.ageGroups)
  /\ (FormData.usage_duration f = []
      \/ In (FormData.usage_duration f) Survey.usageDurations)
  /\ (FormData.recommend_telegram f = []
      \/ In (FormData.recommend_telegram f) Survey.recommendOptions)
  /\ NoDup (FormData.usage_reason f)
  /\ incl (FormData.usage_reason f) Survey.usageReasons
  /\ NoDup (FormData.content_preference f)
  /\ incl (FormData.content_preference f) Survey.contentPreferences.

(** A row that satisfies what the table asks of a record: the three
    required answers and the two required selections are there, and an
    optional answer is a text or absent, never an empty text. *)
Definition complete_row (r : Row.t) : Prop :=
  Row.age_group r <> [] /\ Row.usage_duration r <> []
  /\ Row.recommend_telegram r <> []
  /\ Row.usage_reason r <> [] /\ Row.content_preference r <> []
  /\ Row.name r <> Some [] /\ Row.regular_bots_or_channels r <> Some []
  /\ Row.improvement_suggestions r <> Some [].

(** ** Vocabulary of browsing *)

(** The number of pages of a table. *)
Definition pages (w : Store.t) : Z :=
  - (- Z.of_nat (length (Store.rows w)) / 10).

(** The rows of page [q] of a table, newest first as the table keeps
    them. *)
Definition page_rows (w : Store.t) (q : Z) : list SurveyResponse.t :=
  Store.slice (Dashboard.range_from q) (Dashboard.range_to q) (Store.rows w).

(** A query that leaves the table as it is. *)
Definition reads (q : Query) : Prop :=
  match q with
  | Insert _ _ => False
  | _ => True
  end.

(** A call in progress over the table [w]: it is for the first page or for
    a page of the table, and the reply it holds, if any, is the one the
    store gives to its query. *)
Definition fitting_call (w : Store.t) (c : Dashboard.Call) : Prop :=
  (Dashboard.closure_page c = 1
   \/ 1 <= Dashboard.closure_page c <= pages w)
  /\ forall r,
       Dashboard.reply c = Some r ->
       r = fst (Store.client (Dashboard.awaited_query c) w).

(** What clicks and replies, in whatever order they come, keep true of the
    dashboard over a table [w] that stays as it is. *)
Definition browsing (w : Store.t) (l : Dashboard.Live Store.t) : Prop :=
  let s := state (Dashboard.live l) in
  world (Dashboard.live l) = w
  /\ toasts (Dashboard.live l) = []
  /\ Forall reads (sent (Dashboard.live l))
  /\ Forall (fitting_call w) (Dashboard.in_progress l)
  /\ (Dashboard.currentPage s = 1
      \/ 1 <= Dashboard.currentPage s <= pages w)
  /\ ((Dashboard.totalResponses s = Z.of_nat (length (Store.rows w))
       /\ (Dashboard.responses s = []
           \/ exists q,
                1 <= q <= pages w
                /\ Dashboard.responses s = page_rows w q))
      \/ (Dashboard.totalResponses s = 0
          /\ Dashboard.responses s = []
          /\ Dashboard.currentPage s = 1
          /\ Dashboard.in_progress l <> []
          /\ Forall (fun c => Dashboard.awaited c = Dashboard.CountReply)
               (Dashboard.in_progress l)))
  /\ (Dashboard.in_progress l = [] -> Dashboard.loading s = false).

(** What is true besides when no click is made while a call is in
    progress: nothing is in progress and the current page is on display, or
    one call is, for the current page. *)
Definition in_turn (w : Store.t) (l : Dashboard.Live Store.t) : Prop :=
  let s := state (Dashboard.live l) in
  (Dashboard.in_progress l = []
   /\ Dashboard.responses s = page_rows w (Dashboard.currentPage s))
  \/ (exists c,
         Dashboard.in_progress l = [c]
         /\ Dashboard.closure_page c = Dashboard.currentPage s).

(** The three derivations over a single-valued field, each with its
    field. *)
Definition single_valued
    : list ((SurveyResponse.t -> JsString)
            * (list SurveyResponse.t -> list Datum.t)) :=
  [ (SurveyResponse.age_group, Dashboard.getAgeGroupData);
    (SurveyResponse.recommend_telegram, Dashboard.getRecommendationData);
    (SurveyResponse.usage_duration, Dashboard.getUsageDurationData) ].

End Spec.

(* ================================================================== *)
(** * Sample data *)
(* ================================================================== *)

Module Sample.

Definition answer (age duration recommend : JsString)
    (content : list JsString) : SurveyResponse.t :=
  {| SurveyResponse.id := [];
     SurveyResponse.name := None;
     SurveyResponse.age_group := age;
     SurveyResponse.usage_duration := duration;
     SurveyResponse.usage_reason := [js "To chat with friends"];
     SurveyResponse.content_preference := content;
     SurveyResponse.regular_bots_or_channels := None;
     SurveyResponse.recommend_telegram := recommend;
     SurveyResponse.improvement_suggestions := None;
     SurveyResponse.submitted_at := [] |}.

Definition movies : JsString := astral 0x1f4fd ++ js " Movies & Web Series".
Definition ebooks : JsString := astral 0x1f4da ++ js " E-books & Study Material".
Definition educational : JsString := astral 0x1f393 ++ js " Educational Content".

(** A page of five answers given through the form: movies and e-books are
    chosen five times each, educational content three times. *)
Definition page : list SurveyResponse.t :=
  [ answer (js "45+") (js "More than 3 years") (js "Yes")
      [movies; ebooks; educational];
    answer (js "Under 18") (js "Less than 6 months") (js "Maybe")
      [movies; ebooks];
    answer (js "45+") (js "More than 3 years") (js "Yes")
      [ebooks; movies; educational];
    answer (js "45+") (js "Less than 6 months") (js "No")
      [movies; ebooks; educational];
    answer (js "Under 18") (js "More than 3 years") (js "Yes")
      [ebooks; movies] ].

(** Two rows whose age group reads as an array index. *)
Definition numbered : list SurveyResponse.t :=
  [ answer (js "2") (js "More than 3 years") (js "Yes") [movies];
    answer (js "1") (js "More than 3 years") (js "Yes") [movies] ].

(** Rows that carry a name inherited from [Object.prototype]. *)
Definition shadowed : list SurveyResponse.t :=
  [ answer (js "45+") (js "More than 3 years") (js "Yes") [movies];
    answer proto proto proto [proto] ].

(** A store of [n] rows. *)
Definition store (n : nat) : Store.t :=
  {| Store.rows :=
       repeat (answer (js "45+") (js "More than 3 years") (js "Yes") [movies]) n;
     Store.clock := N.of_nat n |}.

(** The dashboard showing page [p] of a table that had [n] rows when the
    page was fetched. *)
Definition showing (p n : Z) : Dashboard.State :=
  {| Dashboard.responses := Store.slice (Dashboard.range_from p)
                              (Dashboard.range_to p)
                              (Store.rows (store (Z.to_nat n)));
     Dashboard.currentPage := p;
     Dashboard.totalResponses := n;
     Dashboard.loading := false |}.

Definition dashboard (p n : Z) (rows : nat)
    : Env Dashboard.State Store.t :=
  {| state := showing p n; toasts := []; sent := []; world := store rows |}.

(** A draft that passes the checks of the form, for given usage reasons and
    a given text of the "other" input. *)
Definition draft (reasons : list JsString) (other : JsString) : FormData.t :=
  {| FormData.name := [];
     FormData.age_group := js "45+";
     FormData.usage_duration := js "More than 3 years";
     FormData.usage_reason := reasons;
     FormData.content_preference := [movies];
     FormData.regular_bots_or_channels := [];
     FormData.recommend_telegram := js "Yes";
     FormData.improvement_suggestions := [];
     FormData.other_usage_reason := other |}.

Definition survey (f : FormData.t) : Env Survey.State Store.t :=
  {| state := {| Survey.formData := f; Survey.isSubmitting := false |};
     toasts := []; sent := []; world := store 3 |}.

(** An answer with the time at which it was submitted. *)
Definition submitted_on (at_time : JsString) : SurveyResponse.t :=
  {| SurveyResponse.id := at_time;
     SurveyResponse.name := Some (js "Asha");
     SurveyResponse.age_group := js "45+";
     SurveyResponse.usage_duration := js "More than 3 years";
     SurveyResponse.usage_reason := [js "To chat with friends"];
     SurveyResponse.content_preference := [movies];
     SurveyResponse.regular_bots_or_channels := None;
     SurveyResponse.recommend_telegram := js "Yes";
     SurveyResponse.improvement_suggestions := None;
     SurveyResponse.submitted_at := at_time |}.

(** A store of two answers with their times. *)
Definition dated : Store.t :=
  {| Store.rows := [ submitted_on (js "2025-06-02T09:30:00Z");
                     submitted_on (js "2025-06-01T18:05:00Z") ];
     Store.clock := 2 |}.

(** The replies to one call of [fetchResponses], the call being number
    [i] of those in progress: its count is answered and received, then its
    page. *)
Definition replies (i : nat) : list Dashboard.Event :=
  [ Dashboard.Answers i; Dashboard.Resumes i;
    Dashboard.Answers i; Dashboard.Resumes i ].

(** The first fetch ends; the user goes to page 3 and waits for it. *)
Definition one_at_a_time : list Dashboard.Event :=
  replies 0 ++ [Dashboard.Clicks (Dashboard.Link 3)] ++ replies 0.

(** The first fetch ends; the user clicks page 2 and at once page 3; the
    replies for page 3 come first, those for page 2 after them. *)
Definition overtaken : list Dashboard.Event :=
  replies 0
  ++ [Dashboard.Clicks (Dashboard.Link 2);
      Dashboard.Clicks (Dashboard.Link 3)]
  ++ replies 1 ++ replies 0.

(** A formatter of dates for the examples: a text that starts with a digit
    is shown as it is, any other text is no date. *)
Definition shown_date (text : JsString) : option JsString :=
  match text with
  | u :: _ => if (48 <=? u)%N && (u <=? 57)%N then Some text else None
  | [] => None
  end.

End Sample.

Unset Implicit Arguments.

(* ================================================================== *)
(** * Properties *)
(* ================================================================== *)

Import Spec.

(* ================================================================== *)
(** * Strings and keys *)
(* ================================================================== *)

Lemma eqb_eq (a b : JsString) : eqb a b = true <-> a = b.
Proof.
  revert b; induction a as [|x a IH]; destruct b as [|y b]; simpl;
    try (split; [discriminate | discriminate]); try tauto.
  rewrite andb_true_iff, N.eqb_eq, IH.
  split; [intros [-> ->]; reflexivity | intros E; inversion E; auto].
Qed.

Lemma eqb_refl (a : JsString) : eqb a a = true.
Proof. apply eqb_eq; reflexivity. Qed.

Lemma eqb_neq (a b : JsString) : eqb a b = false <-> a <> b.
Proof.
  rewrite <- eqb_eq. destruct (eqb a b); split; congruence.
Qed.

Lemma eqb_sym (a b : JsString) : eqb a b = eqb b a.
Proof.
  destruct (eqb a b) eqn:E.
  - apply eqb_eq in E; subst; symmetry; apply eqb_refl.
  - apply eqb_neq in E. symmetry; apply eqb_neq; congruence.
Qed.

Lemma includes_In (xs : list JsString) (x : JsString) :
  includes xs x = true <-> In x xs.
Proof.
  unfold includes. rewrite existsb_exists. split.
  - intros [y [Hy E]]. apply eqb_eq in E; subst; assumption.
  - intros H. exists x. split; [assumption | apply eqb_refl].
Qed.

Lemma incl_computed (l all : list JsString) :
  forallb (includes all) l = true -> incl l all.
Proof.
  intros H k Hk. rewrite forallb_forall in H. apply includes_In, H, Hk.
Qed.

Lemma includes_not_In (xs : list JsString) (x : JsString) :
  includes xs x = false <-> ~ In x xs.
Proof.
  rewrite <- includes_In. destruct (includes xs x); split; congruence.
Qed.

Lemma truthy_nonempty (s : JsString) : truthy s = true <-> s <> [].
Proof. destruct s; simpl; split; congruence. Qed.

Lemma filter_neq_In (xs : list JsString) (x y : JsString) :
  In y (filter (fun r => negb (eqb r x)) xs) <-> In y xs /\ y <> x.
Proof.
  rewrite filter_In, negb_true_iff, eqb_neq. tauto.
Qed.

(* ================================================================== *)
(** * First-seen order and occurrence counts *)
(* ================================================================== *)


Lemma first_seen_In (l : list JsString) (k : JsString) :
  In k (first_seen l) <-> In k l.
Proof.
  induction l as [|a l IH]; simpl; [tauto|].
  rewrite filter_neq_In, IH.
  destruct (eqb k a) eqn:E.
  - apply eqb_eq in E; subst. tauto.
  - apply eqb_neq in E. split; [intros [H|H]; [left; auto | tauto] |].
    intros [H|H]; [left; auto | right; tauto].
Qed.

Lemma NoDup_filter (A : Type) (f : A -> bool) (l : list A) :
  NoDup l -> NoDup (filter f l).
Proof.
  induction 1 as [|x l Hx Hl IH]; simpl; [constructor|].
  destruct (f x); [constructor; [rewrite filter_In; tauto | assumption] | assumption].
Qed.

Lemma first_seen_NoDup (l : list JsString) : NoDup (first_seen l).
Proof.
  induction l as [|a l IH]; simpl; constructor.
  - rewrite filter_neq_In. tauto.
  - apply NoDup_filter; assumption.
Qed.

Lemma first_seen_snoc (l : list JsString) (x : JsString) :
  first_seen (l ++ [x]) =
  if includes l x then first_seen l else first_seen l ++ [x].
Proof.
  induction l as [|a l IH]; simpl; [reflexivity|].
  rewrite IH. destruct (eqb x a) eqn:E; simpl.
  - destruct (includes l x); [reflexivity|].
    rewrite filter_app; simpl. rewrite E; simpl. rewrite app_nil_r; reflexivity.
  - destruct (includes l x); [reflexivity|].
    rewrite filter_app; simpl. rewrite E; simpl. reflexivity.
Qed.

Lemma occurrences_snoc (k x : JsString) (l : list JsString) :
  occurrences k (l ++ [x]) =
  (occurrences k l + if eqb k x then 1 else 0)%Z.
Proof.
  unfold occurrences. rewrite filter_app, length_app; simpl.
  destruct (eqb k x); simpl; lia.
Qed.

Lemma occurrences_In (k : JsString) (l : list JsString) :
  In k l -> (1 <= occurrences k l)%Z.
Proof.
  unfold occurrences. induction l as [|a l IH]; simpl; [tauto|].
  intros [->|H].
  - rewrite eqb_refl; simpl; lia.
  - specialize (IH H). destruct (eqb k a); simpl; lia.
Qed.

Lemma occurrences_not_In (k : JsString) (l : list JsString) :
  ~ In k l -> occurrences k l = 0%Z.
Proof.
  unfold occurrences. induction l as [|a l IH]; simpl; [reflexivity|].
  intros H. destruct (eqb k a) eqn:E.
  - apply eqb_eq in E; subst. tauto.
  - apply IH. tauto.
Qed.

(* ================================================================== *)
(** * Frequency tables *)
(* ================================================================== *)

Lemma set_own_fresh (o : JsObject) (x : JsString) (v : JsValue) :
  ~ In x (map fst o) -> set_own o x v = o ++ [(x, v)].
Proof.
  induction o as [|[a w] o IH]; simpl; intros H; [reflexivity|].
  destruct (eqb x a) eqn:E.
  - apply eqb_eq in E; subst. tauto.
  - rewrite IH; [reflexivity | tauto].
Qed.

Section Tables.
Variable f : JsString -> JsValue.

Lemma own_map (ks : list JsString) (x : JsString) :
  own (map (fun k => (k, f k)) ks) x =
  if includes ks x then Some (f x) else None.
Proof.
  induction ks as [|a ks IH]; simpl; [reflexivity|].
  destruct (eqb x a) eqn:E; simpl; [|exact IH].
  apply eqb_eq in E; subst; reflexivity.
Qed.

Lemma set_own_map (ks : list JsString) (x : JsString) (v : JsValue) :
  NoDup ks -> In x ks ->
  set_own (map (fun k => (k, f k)) ks) x v =
  map (fun k => (k, if eqb k x then v else f k)) ks.
Proof.
  induction 1 as [|a ks Ha Hks IH]; simpl; [tauto|].
  intros Hx. destruct (eqb x a) eqn:E.
  - apply eqb_eq in E; subst. rewrite eqb_refl. f_equal.
    apply map_ext_in. intros k Hk.
    assert (eqb k a = false) as -> by (apply eqb_neq; congruence).
    reflexivity.
  - rewrite (eqb_sym a x), E. f_equal.
    apply IH. destruct Hx as [->|Hx]; [|assumption].
    rewrite eqb_refl in E; discriminate.
Qed.
End Tables.

Lemma map_fst_entries (f : JsString -> JsValue) (ks : list JsString) :
  map fst (map (fun k => (k, f k)) ks) = ks.
Proof. rewrite map_map; simpl. apply map_id. Qed.

Lemma inherited_false (k : JsString) :
  inherited k = false ->
  eqb k proto = false /\ includes Object_prototype_methods k = false.
Proof. unfold inherited. apply orb_false_iff. Qed.

Lemma increment_table (l : list JsString) (x : JsString) :
  inherited x = false ->
  increment (table l) x = table (l ++ [x]).
Proof.
  intros Hx. apply inherited_false in Hx. destruct Hx as [Hp Hm].
  unfold increment, put, get, table. rewrite Hp.
  rewrite (own_map (fun k => Num (occurrences k l))).
  rewrite first_seen_snoc.
  destruct (includes l x) eqn:Hin.
  - assert (includes (first_seen l) x = true) as ->.
    { apply includes_In, first_seen_In, includes_In; assumption. }
    simpl or_zero_plus_one.
    rewrite (set_own_map (fun k => Num (occurrences k l))).
    + apply map_ext. intros k. rewrite occurrences_snoc.
      destruct (eqb k x) eqn:E.
      * apply eqb_eq in E; subst.
        destruct (Z.eqb_spec (occurrences x l) 0) as [->|_]; reflexivity.
      * rewrite Z.add_0_r; reflexivity.
    + apply first_seen_NoDup.
    + apply first_seen_In, includes_In; assumption.
  - assert (includes (first_seen l) x = false) as Hfs.
    { apply includes_not_In. rewrite first_seen_In.
      apply includes_not_In; assumption. }
    rewrite Hfs, Hm. simpl or_zero_plus_one.
    rewrite set_own_fresh.
    + rewrite map_app; simpl. f_equal.
      * apply map_ext_in. intros k Hk. rewrite occurrences_snoc.
        assert (eqb k x = false) as ->.
        { apply eqb_neq. intros ->. apply includes_not_In in Hfs. tauto. }
        rewrite Z.add_0_r; reflexivity.
      * rewrite occurrences_snoc, eqb_refl, occurrences_not_In;
          [reflexivity | apply includes_not_In; assumption].
    + rewrite (map_fst_entries (fun k => Num (occurrences k l))).
      apply includes_not_In; assumption.
Qed.

Lemma fold_increment_table (l : list JsString) :
  Forall (fun k => inherited k = false) l ->
  fold_left increment l [] = table l.
Proof.
  induction l as [|x l IH] using rev_ind; intros H; [reflexivity|].
  apply Forall_app in H. destruct H as [Hl Hx]. inversion Hx; subst.
  rewrite fold_left_app; simpl. rewrite IH by assumption.
  apply increment_table; assumption.
Qed.

Lemma fold_left_through (A : Type) (g : A -> JsString) (rs : list A)
    (acc : JsObject) :
  fold_left (fun acc r => increment acc (g r)) rs acc =
  fold_left increment (map g rs) acc.
Proof.
  revert acc; induction rs as [|r rs IH]; simpl; intros acc; [reflexivity|].
  apply IH.
Qed.

Lemma fold_left_flattened (rs : list SurveyResponse.t) (acc : JsObject) :
  fold_left
    (fun acc r => fold_left increment (SurveyResponse.content_preference r) acc)
    rs acc =
  fold_left increment (flattened rs) acc.
Proof.
  revert acc; induction rs as [|r rs IH]; simpl; intros acc; [reflexivity|].
  unfold flattened in *; simpl. rewrite fold_left_app. apply IH.
Qed.

(* ================================================================== *)
(** * The order of [Object.entries] *)
(* ================================================================== *)

Lemma insert_by_index_perm (i : N) (p : JsString * JsValue)
    (l : list (N * (JsString * JsValue))) :
  Permutation (map snd (insert_by_index i p l)) (p :: map snd l).
Proof.
  induction l as [|[j q] l IH]; simpl; [reflexivity|].
  destruct (i <? j)%N; simpl; [reflexivity|].
  rewrite IH. apply perm_swap.
Qed.

Lemma integer_keyed_perm (o : JsObject) :
  Permutation (integer_keyed o) (filter is_index o).
Proof.
  unfold integer_keyed. induction o as [|p o IH]; simpl; [reflexivity|].
  unfold is_index at 1. destruct (array_index (fst p)); [|exact IH].
  rewrite insert_by_index_perm. constructor. exact IH.
Qed.

Lemma filter_split_perm (A : Type) (g : A -> bool) (l : list A) :
  Permutation (filter g l ++ filter (fun x => negb (g x)) l) l.
Proof.
  induction l as [|x l IH]; simpl; [reflexivity|].
  destruct (g x); simpl.
  - constructor; exact IH.
  - symmetry. apply Permutation_cons_app. symmetry; exact IH.
Qed.

Lemma Object_entries_perm (o : JsObject) : Permutation (Object_entries o) o.
Proof.
  unfold Object_entries, string_keyed.
  rewrite integer_keyed_perm. apply filter_split_perm.
Qed.

Lemma integer_keyed_plain (o : JsObject) :
  Forall (fun k => indexed k = false) (map fst o) -> integer_keyed o = [].
Proof.
  unfold integer_keyed, indexed.
  induction o as [|p o IH]; simpl; intros H; [reflexivity|].
  inversion H as [|? ? Hp Ho]; subst.
  destruct (array_index (fst p)); [discriminate | auto].
Qed.

Lemma string_keyed_plain (o : JsObject) :
  Forall (fun k => indexed k = false) (map fst o) -> string_keyed o = o.
Proof.
  unfold string_keyed, is_index, indexed.
  induction o as [|p o IH]; simpl; intros H; [reflexivity|].
  inversion H as [|? ? Hp Ho]; subst.
  destruct (array_index (fst p)); [discriminate|]. simpl. f_equal; auto.
Qed.

Lemma Object_entries_plain (o : JsObject) :
  Forall (fun k => indexed k = false) (map fst o) -> Object_entries o = o.
Proof.
  intros H. unfold Object_entries.
  rewrite integer_keyed_plain, string_keyed_plain by assumption. reflexivity.
Qed.

(* ================================================================== *)
(** * The three distributions of single-valued fields *)
(* ================================================================== *)

Lemma datum_table (l : list JsString) :
  map Dashboard.datum (table l) = frequencies l.
Proof. unfold table, frequencies. rewrite map_map. reflexivity. Qed.

Lemma plain_split (k : JsString) :
  plain k = true -> inherited k = false /\ indexed k = false.
Proof.
  unfold plain. rewrite andb_true_iff, !negb_true_iff. tauto.
Qed.

Lemma table_keys (l : list JsString) : map fst (table l) = first_seen l.
Proof. unfold table. rewrite map_map; simpl. apply map_id. Qed.

(** Counting plain keys and listing the entries gives the frequency mapping in
    first-seen order. *)
Lemma entries_of_plain_keys (l : list JsString) :
  Forall (fun k => plain k = true) l ->
  map Dashboard.datum (Object_entries (fold_left increment l [])) =
  frequencies l.
Proof.
  intros H.
  rewrite fold_increment_table.
  - rewrite Object_entries_plain; [apply datum_table|].
    rewrite table_keys. apply Forall_forall. intros k Hk.
    apply (proj1 (first_seen_In _ _)) in Hk.
    rewrite Forall_forall in H. apply (plain_split k (H k Hk)).
  - eapply Forall_impl; [|exact H]. intros k Hk. apply (plain_split k Hk).
Qed.

(** Whatever the keys read as, the entries are the frequency mapping up to
    order, as long as no key is inherited. *)
Lemma entries_of_own_keys (l : list JsString) :
  Forall (fun k => inherited k = false) l ->
  Permutation
    (map Dashboard.datum (Object_entries (fold_left increment l [])))
    (frequencies l).
Proof.
  intros H. rewrite fold_increment_table by assumption.
  rewrite <- datum_table. apply Permutation_map, Object_entries_perm.
Qed.

Lemma total_perm (a b : list Datum.t) :
  Permutation a b -> total a = total b.
Proof.
  induction 1 as [|d a b _ IH|d e a|a b c _ IH1 _ IH2]; simpl.
  - reflexivity.
  - rewrite IH; reflexivity.
  - destruct (Datum.value d), (Datum.value e); lia.
  - congruence.
Qed.

Lemma distribution_of_perm (n : nat) (a b : list Datum.t) :
  Permutation a b -> distribution_of n a -> distribution_of n b.
Proof.
  intros P (Hd & Hc & Ht). repeat split.
  - eapply Permutation_NoDup; [apply Permutation_map; exact P | exact Hd].
  - eapply Permutation_Forall; eassumption.
  - rewrite <- (total_perm _ _ P). exact Ht.
Qed.

Lemma filter_includes_split (a : JsString) (ks l : list JsString) :
  ~ In a ks ->
  length (filter (includes (a :: ks)) l) =
  (length (filter (eqb a) l) + length (filter (includes ks) l))%nat.
Proof.
  intros Ha. induction l as [|y l IH]; simpl; [reflexivity|].
  rewrite (eqb_sym a y).
  destruct (eqb y a) eqn:E; simpl.
  - apply eqb_eq in E; subst.
    assert (includes ks a = false) as -> by (apply includes_not_In; assumption).
    simpl. lia.
  - destruct (includes ks y); simpl; lia.
Qed.

Lemma total_counts (ks l : list JsString) :
  NoDup ks ->
  total (map (fun k => {| Datum.name := k;
                          Datum.value := Num (occurrences k l) |}) ks) =
  Z.of_nat (length (filter (includes ks) l)).
Proof.
  induction 1 as [|a ks Ha Hks IH]; simpl.
  - induction l; simpl; auto.
  - rewrite IH, (@filter_includes_split a ks l Ha). unfold occurrences. lia.
Qed.

Lemma filter_all (A : Type) (g : A -> bool) (l : list A) :
  Forall (fun x => g x = true) l -> filter g l = l.
Proof.
  induction 1 as [|x l Hx _ IH]; simpl; [reflexivity|].
  rewrite Hx, IH; reflexivity.
Qed.

Lemma frequencies_distribution (l : list JsString) :
  distribution_of (length l) (frequencies l).
Proof.
  unfold frequencies. repeat split.
  - rewrite map_map; simpl. rewrite map_id. apply first_seen_NoDup.
  - apply Forall_forall. intros d Hd. apply in_map_iff in Hd.
    destruct Hd as [k [<- Hk]]. exists (occurrences k l). split.
    + reflexivity.
    + apply occurrences_In, first_seen_In; assumption.
  - rewrite total_counts by apply first_seen_NoDup.
    rewrite filter_all; [reflexivity|].
    apply Forall_forall. intros k Hk.
    apply includes_In, first_seen_In; assumption.
Qed.

Lemma counted_distribution (l : list JsString) :
  Forall (fun k => inherited k = false) l ->
  distribution_of (length l)
    (map Dashboard.datum (Object_entries (fold_left increment l []))).
Proof.
  intros H. eapply distribution_of_perm.
  - symmetry. apply entries_of_own_keys; assumption.
  - apply frequencies_distribution.
Qed.

(** The values the form can store in the charted fields are plain keys. *)
Lemma form_values_plain :
  forallb plain
    (Survey.ageGroups ++ Survey.usageDurations ++ Survey.recommendOptions
     ++ Survey.contentPreferences) = true.
Proof. vm_compute. reflexivity. Qed.

Lemma listed_option_plain (options : list JsString) (k : JsString) :
  forallb plain options = true -> In k options -> plain k = true.
Proof.
  intros H Hk. rewrite forallb_forall in H. apply H. exact Hk.
Qed.

Lemma age_groups_plain : forallb plain Survey.ageGroups = true.
Proof. vm_compute. reflexivity. Qed.

Lemma recommend_options_plain : forallb plain Survey.recommendOptions = true.
Proof. vm_compute. reflexivity. Qed.

Lemma usage_durations_plain : forallb plain Survey.usageDurations = true.
Proof. vm_compute. reflexivity. Qed.

Lemma content_preferences_plain :
  forallb plain Survey.contentPreferences = true.
Proof. vm_compute. reflexivity. Qed.

(** The field [g] of a page whose records hold one of [options] there, when
    these are plain keys. *)
Lemma field_of_options (g : SurveyResponse.t -> JsString)
    (options : list JsString) (responses : list SurveyResponse.t) :
  forallb plain options = true ->
  Forall (fun r => In (g r) options) responses ->
  Forall (fun k => plain k = true) (map g responses).
Proof.
  intros Ho H. apply Forall_map. eapply Forall_impl; [|exact H].
  intros r Hr. apply (listed_option_plain options _ Ho Hr).
Qed.

(** C7.  For every page of records whose [age_group], [recommend_telegram]
    and [usage_duration] are values of the data model (one of the five age
    groups, of the three recommendations, of the four usage durations), the
    series derived from each of the three fields is the sequence of
    (label, count) pairs keyed by the literal field value, in the order in
    which the values first occur in the page, unsorted. *)
Theorem distributions_in_first_seen_order (responses : list SurveyResponse.t) :
  (Forall (fun r => In (SurveyResponse.age_group r) Survey.ageGroups)
     responses ->
   Dashboard.getAgeGroupData responses =
   frequencies (map SurveyResponse.age_group responses))
  /\ (Forall (fun r => In (SurveyResponse.recommend_telegram r)
                         Survey.recommendOptions) responses ->
      Dashboard.getRecommendationData responses =
      frequencies (map SurveyResponse.recommend_telegram responses))
  /\ (Forall (fun r => In (SurveyResponse.usage_duration r)
                         Survey.usageDurations) responses ->
      Dashboard.getUsageDurationData responses =
      frequencies (map SurveyResponse.usage_duration responses)).
Proof.
  unfold Dashboard.getAgeGroupData, Dashboard.getRecommendationData,
    Dashboard.getUsageDurationData.
  rewrite (fold_left_through _ SurveyResponse.age_group),
    (fold_left_through _ SurveyResponse.recommend_telegram),
    (fold_left_through _ SurveyResponse.usage_duration).
  split; [|split]; intros H; apply entries_of_plain_keys.
  - exact (field_of_options _ _ _ age_groups_plain H).
  - exact (field_of_options _ _ _ recommend_options_plain H).
  - exact (field_of_options _ _ _ usage_durations_plain H).
Qed.

Lemma distributions_in_first_seen_order_witness :
  Dashboard.getAgeGroupData Sample.page =
    [ {| Datum.name := js "45+"; Datum.value := Num 3 |};
      {| Datum.name := js "Under 18"; Datum.value := Num 2 |} ]
  /\ Dashboard.getRecommendationData Sample.page =
       [ {| Datum.name := js "Yes"; Datum.value := Num 3 |};
         {| Datum.name := js "Maybe"; Datum.value := Num 1 |};
         {| Datum.name := js "No"; Datum.value := Num 1 |} ]
  /\ Dashboard.getUsageDurationData Sample.page =
       [ {| Datum.name := js "More than 3 years"; Datum.value := Num 3 |};
         {| Datum.name := js "Less than 6 months"; Datum.value := Num 2 |} ].
Proof.
  destruct (distributions_in_first_seen_order Sample.page) as (Ha & Hr & Hd).
  split; [apply Ha | split; [apply Hr | apply Hd]].
  all: repeat (apply Forall_cons;
               [apply includes_In; vm_compute; reflexivity|]).
  all: apply Forall_nil.
Defined.

(** C10.  For every page of records whose [age_group], [recommend_telegram]
    and [usage_duration] are values of the data model, the series derived
    from each of the three fields has distinct labels, counts of one at
    least, and counts that add up to the number of records of the page. *)
Theorem distributions_partition_the_page (responses : list SurveyResponse.t) :
  (Forall (fun r => In (SurveyResponse.age_group r) Survey.ageGroups)
     responses ->
   distribution_of (length responses) (Dashboard.getAgeGroupData responses))
  /\ (Forall (fun r => In (SurveyResponse.recommend_telegram r)
                         Survey.recommendOptions) responses ->
      distribution_of (length responses)
        (Dashboard.getRecommendationData responses))
  /\ (Forall (fun r => In (SurveyResponse.usage_duration r)
                         Survey.usageDurations) responses ->
      distribution_of (length responses)
        (Dashboard.getUsageDurationData responses)).
Proof.
  unfold Dashboard.getAgeGroupData, Dashboard.getRecommendationData,
    Dashboard.getUsageDurationData.
  rewrite (fold_left_through _ SurveyResponse.age_group),
    (fold_left_through _ SurveyResponse.recommend_telegram),
    (fold_left_through _ SurveyResponse.usage_duration).
  assert (forall l, Forall (fun k => plain k = true) l ->
                    Forall (fun k => inherited k = false) l) as Hown.
  { intros l Hl. eapply Forall_impl; [|exact Hl].
    intros k Hk. apply (plain_split k Hk). }
  split; [|split]; intros H.
  all: match goal with
       | |- distribution_of _ (map _ (Object_entries
                                        (fold_left _ (map ?g _) _))) =>
           rewrite <- (length_map g responses)
       end.
  all: apply counted_distribution, Hown.
  - exact (field_of_options _ _ _ age_groups_plain H).
  - exact (field_of_options _ _ _ recommend_options_plain H).
  - exact (field_of_options _ _ _ usage_durations_plain H).
Qed.

Lemma distributions_partition_the_page_witness :
  distribution_of 5 (Dashboard.getAgeGroupData Sample.page)
  /\ distribution_of 5 (Dashboard.getRecommendationData Sample.page)
  /\ distribution_of 5 (Dashboard.getUsageDurationData Sample.page).
Proof.
  destruct (distributions_partition_the_page Sample.page) as (Ha & Hr & Hd).
  split; [apply Ha | split; [apply Hr | apply Hd]].
  all: repeat (apply Forall_cons;
               [apply includes_In; vm_compute; reflexivity|]).
  all: apply Forall_nil.
Defined.

(* ================================================================== *)
(** * Sorting by count *)
(* ================================================================== *)

Lemma insert_sorted_perm (A : Type) (cmp : A -> A -> Z) (x : A) (l : list A) :
  Permutation (x :: l) (insert_sorted cmp x l).
Proof.
  induction l as [|y l IH]; simpl; [reflexivity|].
  destruct (cmp x y <=? 0)%Z; [reflexivity|].
  rewrite perm_swap. constructor. exact IH.
Qed.

Lemma sort_perm (A : Type) (cmp : A -> A -> Z) (l : list A) :
  Permutation l (sort cmp l).
Proof.
  induction l as [|x l IH]; simpl; [reflexivity|].
  rewrite <- insert_sorted_perm. constructor. exact IH.
Qed.

Lemma by_value_descending_le (a b : Datum.t) (x y : Z) :
  counts a x -> counts b y ->
  Dashboard.by_value_descending a b = (y - x)%Z.
Proof.
  unfold counts, Dashboard.by_value_descending. intros -> ->. reflexivity.
Qed.

Lemma insert_sorted_descending (x : Datum.t) (l : list Datum.t) :
  numeric x -> Forall numeric l -> descending l ->
  descending (insert_sorted Dashboard.by_value_descending x l).
Proof.
  intros [cx Hx] Hl Hs. unfold descending in *.
  induction Hs as [|y l Hs IH Hy]; simpl.
  - repeat constructor.
  - inversion Hl as [|? ? [cy Hcy] Hl']; subst.
    rewrite (by_value_descending_le _ _ _ _ Hx Hcy).
    destruct (Z.leb_spec (cy - cx) 0).
    + constructor; [constructor; assumption|].
      constructor.
      * exists cx, cy. repeat split; try assumption; lia.
      * eapply Forall_impl; [|exact Hy]. simpl.
        intros z (a & b & Ha & Hb & Hab).
        unfold counts in Ha, Hcy. rewrite Hcy in Ha. inversion Ha; subst.
        exists cx, b. repeat split; try assumption; lia.
    + constructor; [apply IH; assumption|].
      eapply Permutation_Forall; [apply insert_sorted_perm|].
      constructor; [|assumption].
      exists cy, cx. repeat split; try assumption; lia.
Qed.

Lemma sort_numeric (l : list Datum.t) :
  Forall numeric l -> Forall numeric (sort Dashboard.by_value_descending l).
Proof. apply Permutation_Forall, sort_perm. Qed.

Lemma sort_descending (l : list Datum.t) :
  Forall numeric l -> descending (sort Dashboard.by_value_descending l).
Proof.
  induction 1 as [|x l Hx Hl IH]; simpl; [constructor|].
  apply insert_sorted_descending; [assumption | apply sort_numeric; assumption
                                  | assumption].
Qed.

Lemma insert_sorted_stable (n : Z) (x : Datum.t) (l : list Datum.t) :
  filter (has_count n) (insert_sorted Dashboard.by_value_descending x l) =
  filter (has_count n) (x :: l).
Proof.
  induction l as [|y l IH]; [reflexivity|].
  simpl insert_sorted.
  destruct (Z.leb_spec (Dashboard.by_value_descending x y) 0) as [_|Hgt];
    [reflexivity|].
  change (filter (has_count n) (y :: insert_sorted Dashboard.by_value_descending x l))
    with (if has_count n y
          then y :: filter (has_count n)
                      (insert_sorted Dashboard.by_value_descending x l)
          else filter (has_count n)
                 (insert_sorted Dashboard.by_value_descending x l)).
  rewrite IH. simpl.
  unfold Dashboard.by_value_descending, Dashboard.minus in Hgt.
  unfold has_count.
  destruct (Datum.value x) as [cx|], (Datum.value y) as [cy|];
    try reflexivity; try lia.
  destruct (Z.eqb_spec cx n), (Z.eqb_spec cy n); try reflexivity; lia.
Qed.

Lemma sort_stable (n : Z) (l : list Datum.t) :
  filter (has_count n) (sort Dashboard.by_value_descending l) =
  filter (has_count n) l.
Proof.
  induction l as [|x l IH]; [reflexivity|].
  simpl sort. rewrite insert_sorted_stable. simpl. rewrite IH. reflexivity.
Qed.

Lemma sort_stably_sorted (l : list Datum.t) :
  Forall numeric l ->
  stably_sorted l (sort Dashboard.by_value_descending l).
Proof.
  intros H. repeat split.
  - apply sort_perm.
  - apply sort_descending; assumption.
  - intros n. apply sort_stable.
Qed.

(* ================================================================== *)
(** * The leading token of a label *)
(* ================================================================== *)

Lemma skip_non_space_token (token rest : JsString) (w : N) :
  Forall (fun u => is_white_space u = false) token ->
  is_white_space w = true ->
  skip_non_space (token ++ w :: rest) = w :: rest.
Proof.
  intros Ht Hw. induction Ht as [|u token Hu _ IH]; simpl.
  - rewrite Hw; reflexivity.
  - rewrite Hu. exact IH.
Qed.

Lemma skip_non_space_split (s : JsString) :
  exists token,
    Forall (fun u => is_white_space u = false) token
    /\ s = token ++ skip_non_space s.
Proof.
  induction s as [|u s [token [Ht Hs]]]; simpl.
  - exists []. split; [constructor | reflexivity].
  - destruct (is_white_space u) eqn:E.
    + exists []. split; [constructor | reflexivity].
    + exists (u :: token). split; [constructor; assumption|].
      simpl. f_equal. exact Hs.
Qed.

Lemma space_is_white : is_white_space 32 = true.
Proof. reflexivity. Qed.

Lemma replace_leading_token_spec (label : JsString) :
  stripped_of label (replace_leading_token label).
Proof.
  unfold stripped_of, token_then_space.
  destruct label as [|u s]; simpl.
  - right. split; [|reflexivity].
    intros token rest (_ & _ & E). destruct token; discriminate.
  - destruct (is_white_space u) eqn:Hu.
    + right. split; [|reflexivity].
      intros token rest (Hne & Hws & E).
      destruct token as [|t token]; [congruence|].
      inversion E; subst. inversion Hws; subst. congruence.
    + destruct (skip_non_space_split s) as [token [Ht Hs]].
      assert (forall tk rest,
                 tk <> [] -> Forall (fun u => is_white_space u = false) tk ->
                 u :: s = tk ++ 32%N :: rest ->
                 skip_non_space s = 32%N :: rest) as Hform.
      { intros tk rest Hne Hws E.
        destruct tk as [|t tk]; [congruence|].
        inversion E; subst. inversion Hws; subst.
        apply skip_non_space_token; [assumption | apply space_is_white]. }
      destruct (skip_non_space s) as [|v rest] eqn:Hskip.
      * right. split; [|reflexivity].
        intros tk rest (Hne & Hws & E).
        specialize (Hform tk rest Hne Hws E). discriminate.
      * destruct (N.eqb_spec v 32) as [->|Hv].
        -- left. exists (u :: token). repeat split.
           ++ discriminate.
           ++ constructor; assumption.
           ++ simpl. f_equal. exact Hs.
        -- right. split; [|reflexivity].
           intros tk rest' (Hne & Hws & E).
           specialize (Hform tk rest' Hne Hws E). congruence.
Qed.

(* ================================================================== *)
(** * The content-preference series *)
(* ================================================================== *)

Lemma table_entry (l : list JsString) (k : JsString) (v : JsValue) :
  In (k, v) (table l) -> v = Num (occurrences k l).
Proof.
  unfold table. rewrite in_map_iff. intros [k' [E _]]. inversion E; subst.
  reflexivity.
Qed.

Lemma stripped_entries (l : list JsString) (es : list (JsString * JsValue)) :
  Forall (fun e => snd e = Num (occurrences (fst e) l)) es ->
  Forall2
    (fun k d => stripped_of k (Datum.name d) /\ counts d (occurrences k l))
    (map fst es) (map Dashboard.strip_name es).
Proof.
  induction 1 as [|[k v] es He _ IH]; simpl; constructor.
  - simpl in He. subst. split; [apply replace_leading_token_spec | reflexivity].
  - exact IH.
Qed.

Lemma content_series_length (responses : list SurveyResponse.t)
    (series : list Datum.t) :
  content_series responses series ->
  length series = Nat.min 10 (length (first_seen (flattened responses))).
Proof.
  intros (unsorted & sorted & Hu & (Hp & _ & _) & ->).
  rewrite length_firstn.
  rewrite <- (Permutation_length Hp), <- (Forall2_length Hu).
  reflexivity.
Qed.

(** ** The specification's words determine the series *)

Lemma token_unique (t1 t2 r1 r2 : JsString) :
  Forall (fun u => is_white_space u = false) t1 ->
  Forall (fun u => is_white_space u = false) t2 ->
  t1 ++ 32%N :: r1 = t2 ++ 32%N :: r2 ->
  r1 = r2.
Proof.
  intros H1. revert t2.
  induction H1 as [|u t1 Hu _ IH]; intros t2 H2 E.
  - destruct t2 as [|v t2]; simpl in E.
    + congruence.
    + inversion E; subst. inversion H2; subst.
      rewrite space_is_white in *. discriminate.
  - destruct t2 as [|v t2]; simpl in E.
    + inversion E; subst. rewrite space_is_white in Hu. discriminate.
    + inversion E; subst. inversion H2; subst. eapply IH; eassumption.
Qed.

Lemma stripped_of_unique (label s1 s2 : JsString) :
  stripped_of label s1 -> stripped_of label s2 -> s1 = s2.
Proof.
  intros [[t1 T1]|[N1 E1]] [[t2 T2]|[N2 E2]].
  - destruct T1 as (_ & H1 & L1), T2 as (_ & H2 & L2).
    rewrite L1 in L2. exact (token_unique _ _ _ _ H1 H2 L2).
  - exfalso. exact (N2 t1 s1 T1).
  - exfalso. exact (N1 t2 s2 T2).
  - congruence.
Qed.

Lemma counts_unique (d : Datum.t) (x y : Z) : counts d x -> counts d y -> x = y.
Proof. unfold counts. congruence. Qed.

Lemma stripped_entries_unique (l : list JsString) (ks : list JsString)
    (u1 u2 : list Datum.t) :
  Forall2 (fun k d => stripped_of k (Datum.name d) /\ counts d (occurrences k l))
    ks u1 ->
  Forall2 (fun k d => stripped_of k (Datum.name d) /\ counts d (occurrences k l))
    ks u2 ->
  u1 = u2.
Proof.
  intros H1. revert u2.
  induction H1 as [|k d ks u1 [Hs Hc] _ IH]; intros u2 H2; inversion H2; subst.
  - reflexivity.
  - f_equal; [|apply IH; assumption].
    match goal with H : _ /\ _ |- _ => destruct H as [Hs' Hc'] end.
    destruct d as [n v], y as [n' v']. unfold counts in *. simpl in *.
    f_equal; [exact (stripped_of_unique _ _ _ Hs Hs') | congruence].
Qed.

Lemma has_count_counts (n : Z) (d : Datum.t) :
  has_count n d = true <-> counts d n.
Proof.
  unfold has_count, counts. destruct (Datum.value d) as [m|].
  - rewrite Z.eqb_eq. split; congruence.
  - split; discriminate.
Qed.

Lemma descending_head (a : Datum.t) (l : list Datum.t) (b : Datum.t)
    (x y : Z) :
  descending (a :: l) -> In b (a :: l) -> counts a x -> counts b y ->
  (y <= x)%Z.
Proof.
  intros H Hin Hx Hy. inversion H as [|? ? _ Hall]; subst.
  destruct Hin as [->|Hin].
  - rewrite (counts_unique _ _ _ Hx Hy). lia.
  - rewrite Forall_forall in Hall.
    destruct (Hall b Hin) as (x' & y' & Hx' & Hy' & Hle).
    rewrite (counts_unique _ _ _ Hx Hx'), (counts_unique _ _ _ Hy Hy').
    exact Hle.
Qed.

(** A list sorted by descending count is determined by its entries of each
    count, taken in order. *)
Lemma descending_unique (l1 l2 : list Datum.t) :
  Forall numeric l1 -> Forall numeric l2 ->
  descending l1 -> descending l2 ->
  (forall n, filter (has_count n) l1 = filter (has_count n) l2) ->
  l1 = l2.
Proof.
  revert l2. induction l1 as [|a l1 IH]; intros l2 N1 N2 D1 D2 F.
  - destruct l2 as [|b l2]; [reflexivity|].
    inversion N2 as [|? ? [cb Hb] _]; subst.
    specialize (F cb). simpl in F.
    rewrite (proj2 (has_count_counts cb b) Hb) in F. discriminate.
  - inversion N1 as [|? ? [ca Ha] N1']; subst.
    destruct l2 as [|b l2].
    + specialize (F ca). simpl in F.
      rewrite (proj2 (has_count_counts ca a) Ha) in F. discriminate.
    + inversion N2 as [|? ? [cb Hb] N2']; subst.
      assert (In a (b :: l2)) as Ina.
      { pose proof (F ca) as Fa. simpl filter at 1 in Fa.
        rewrite (proj2 (has_count_counts ca a) Ha) in Fa.
        assert (In a (filter (has_count ca) (b :: l2))) as I
            by (rewrite <- Fa; left; reflexivity).
        apply filter_In in I. apply I. }
      assert (In b (a :: l1)) as Inb.
      { pose proof (F cb) as Fb. simpl filter at 2 in Fb.
        rewrite (proj2 (has_count_counts cb b) Hb) in Fb.
        assert (In b (filter (has_count cb) (a :: l1))) as I
            by (rewrite Fb; left; reflexivity).
        apply filter_In in I. apply I. }
      pose proof (descending_head _ _ _ _ _ D2 Ina Hb Ha) as L1.
      pose proof (descending_head _ _ _ _ _ D1 Inb Ha Hb) as L2.
      assert (ca = cb) by lia. subst cb.
      pose proof (F ca) as Fa. simpl in Fa.
      rewrite (proj2 (has_count_counts ca a) Ha),
        (proj2 (has_count_counts ca b) Hb) in Fa.
      inversion Fa as [[Eab Etl]]. subst b. f_equal.
      apply IH; try assumption.
      * inversion D1; assumption.
      * inversion D2; assumption.
      * intros n. specialize (F n). simpl in F.
        destruct (has_count n a); [inversion F; reflexivity | exact F].
Qed.

Lemma stably_sorted_unique (input s1 s2 : list Datum.t) :
  Forall numeric input ->
  stably_sorted input s1 -> stably_sorted input s2 -> s1 = s2.
Proof.
  intros N (P1 & D1 & F1) (P2 & D2 & F2).
  apply descending_unique; try assumption.
  - eapply Permutation_Forall; eassumption.
  - eapply Permutation_Forall; eassumption.
  - intros n. rewrite F1, F2. reflexivity.
Qed.

(** Two series that both answer the description of a page are the same. *)
Lemma content_series_unique (responses : list SurveyResponse.t)
    (s1 s2 : list Datum.t) :
  content_series responses s1 -> content_series responses s2 -> s1 = s2.
Proof.
  intros (u1 & o1 & U1 & S1 & ->) (u2 & o2 & U2 & S2 & ->).
  pose proof (stripped_entries_unique _ _ _ _ U1 U2) as E. subst u2.
  f_equal. apply (stably_sorted_unique u1); try assumption.
  clear - U1. induction U1 as [|k d ks u [_ Hc] _ IH]; constructor.
  - eexists; exact Hc.
  - exact IH.
Qed.

(** The series that the code computes for a page of plain labels. *)
Lemma content_series_computed (responses : list SurveyResponse.t) :
  Forall (fun k => plain k = true) (flattened responses) ->
  content_series responses (Dashboard.getContentPreferenceData responses).
Proof.
  intros H.
  assert (Forall (fun k => inherited k = false /\ indexed k = false)
            (flattened responses)) as Hs.
  { eapply Forall_impl; [|exact H]. intros k Hk. apply (plain_split k Hk). }
  unfold Dashboard.getContentPreferenceData, slice0.
  rewrite fold_left_flattened, fold_increment_table.
  2:{ eapply Forall_impl; [|exact Hs]. intros k Hk; apply Hk. }
  rewrite Object_entries_plain.
  2:{ rewrite table_keys. apply Forall_forall. intros k Hk.
      apply (proj1 (first_seen_In _ _)) in Hk.
      rewrite Forall_forall in Hs. apply (Hs k Hk). }
  set (entries := table (flattened responses)).
  assert (Forall
            (fun e => snd e = Num (occurrences (fst e) (flattened responses)))
            entries) as He.
  { apply Forall_forall. intros [k v] Hin. simpl.
    apply table_entry. exact Hin. }
  exists (map Dashboard.strip_name entries),
    (sort Dashboard.by_value_descending (map Dashboard.strip_name entries)).
  split; [|split].
  - rewrite <- table_keys. apply stripped_entries. exact He.
  - apply sort_stably_sorted, Forall_map.
    eapply Forall_impl; [|exact He].
    intros [k v]; simpl; intros ->. eexists; reflexivity.
  - reflexivity.
Qed.

Lemma options_flattened (responses : list SurveyResponse.t) :
  Forall (fun r => incl (SurveyResponse.content_preference r)
                     Survey.contentPreferences) responses ->
  Forall (fun k => plain k = true) (flattened responses).
Proof.
  intros H. apply Forall_forall. intros k Hk.
  unfold flattened in Hk. apply in_flat_map in Hk.
  destruct Hk as (r & Hr & Hk). rewrite Forall_forall in H.
  apply (listed_option_plain _ _ content_preferences_plain (H r Hr k Hk)).
Qed.

(** C3.  The content-preference series counts the occurrences of every
    element of every record's [content_preference] list, strips from each
    label its leading run of code units that are not white space together
    with the one space after it, sorts the pairs by descending count with a
    stable sort (pairs of equal count stay in the order in which their labels
    first occur), and keeps the first ten at most; no other series answers
    this description.  This holds for every page whose content preferences
    are options of the form, and more generally for every page none of whose
    labels reads as an array index or names a member of
    [Object.prototype]. *)
Theorem content_preference_series (responses : list SurveyResponse.t) :
  (Forall (fun r => incl (SurveyResponse.content_preference r)
                      Survey.contentPreferences) responses
   \/ Forall (fun k => plain k = true) (flattened responses)) ->
  content_series responses (Dashboard.getContentPreferenceData responses)
  /\ (forall series,
        content_series responses series ->
        series = Dashboard.getContentPreferenceData responses)
  /\ (length (Dashboard.getContentPreferenceData responses) <= 10)%nat.
Proof.
  intros H.
  assert (content_series responses
            (Dashboard.getContentPreferenceData responses)) as Hc.
  { apply content_series_computed.
    destruct H as [H|H]; [apply options_flattened|]; exact H. }
  split; [exact Hc|split].
  - intros series Hs. exact (content_series_unique _ _ _ Hs Hc).
  - rewrite (content_series_length _ _ Hc). apply Nat.le_min_l.
Qed.

Lemma content_preference_series_witness :
  Dashboard.getContentPreferenceData Sample.page =
    [ {| Datum.name := js "Movies & Web Series"; Datum.value := Num 5 |};
      {| Datum.name := js "E-books & Study Material"; Datum.value := Num 5 |};
      {| Datum.name := js "Educational Content"; Datum.value := Num 3 |} ]
  /\ content_series Sample.page
       (Dashboard.getContentPreferenceData Sample.page).
Proof.
  split; [reflexivity|].
  apply (content_preference_series Sample.page).
  left.
  repeat (apply Forall_cons; [apply incl_computed; vm_compute; reflexivity|]).
  apply Forall_nil.
Defined.

(* ================================================================== *)
(** * The submit handler of the form *)
(* ================================================================== *)

Ltac run_handler :=
  unfold Survey.handleSubmit, Dashboard.click, Dashboard.fetchResponses,
    bind, read, update, toast, await, try_finally, try_catch, throw, ret;
  simpl.

Section Submit.
Variable W : Type.
Variable supabase : Client W.
Variable env : Env Survey.State W.

(** What the handler leaves behind when a check of the form fails. *)
Lemma handleSubmit_missing_fields :
  Survey.missing_fields (Survey.formData (state env)) = true ->
  Survey.handleSubmit supabase env =
  (Normal tt,
   {| state := state env;
      toasts := toasts env ++ [Survey.missing_fields_toast];
      sent := sent env; world := world env |}).
Proof.
  intros H. run_handler. rewrite H. reflexivity.
Qed.

Lemma handleSubmit_missing_selections :
  Survey.missing_fields (Survey.formData (state env)) = false ->
  Survey.missing_selections (Survey.formData (state env)) = true ->
  Survey.handleSubmit supabase env =
  (Normal tt,
   {| state := state env;
      toasts := toasts env ++ [Survey.missing_selections_toast];
      sent := sent env; world := world env |}).
Proof.
  intros H1 H2. run_handler. rewrite H1, H2. reflexivity.
Qed.

(** What it leaves behind when the draft passes both checks. *)
Lemma handleSubmit_complete :
  Survey.missing_fields (Survey.formData (state env)) = false ->
  Survey.missing_selections (Survey.formData (state env)) = false ->
  Survey.handleSubmit supabase env =
  (Normal tt,
   let f := Survey.formData (state env) in
   let (reply, w) :=
     supabase (Insert telegram_survey (Survey.row f)) (world env) in
   {| state :=
        {| Survey.formData :=
             match error reply with
             | None => Survey.blank
             | Some _ => f
             end;
           Survey.isSubmitting := false |};
      toasts :=
        toasts env ++
        [match error reply with
         | None => Survey.thank_you_toast
         | Some _ => Survey.submission_failed_toast
         end];
      sent := sent env ++ [Insert telegram_survey (Survey.row f)];
      world := w |}).
Proof.
  intros H1 H2. run_handler. rewrite H1, H2. simpl.
  destruct (supabase _ _) as [reply w]. simpl.
  destruct (error reply); reflexivity.
Qed.
End Submit.

(** Ticking and unticking options keeps a selection free of repetitions. *)
Lemma toggle_NoDup (value : JsString) (xs : list JsString) :
  NoDup xs -> NoDup (Survey.toggle value xs).
Proof.
  intros H. unfold Survey.toggle.
  destruct (includes xs value) eqn:E.
  - apply NoDup_filter; assumption.
  - apply NoDup_app; [assumption | repeat constructor; intros [] |].
    intros x Hx [<-|[]]. apply includes_not_In in E. contradiction.
Qed.

Lemma missing_fields_iff (f : FormData.t) :
  Survey.missing_fields f = true <->
  FormData.age_group f = [] \/ FormData.usage_duration f = []
  \/ FormData.recommend_telegram f = [].
Proof.
  unfold Survey.missing_fields. rewrite !orb_true_iff, !negb_true_iff.
  destruct (FormData.age_group f), (FormData.usage_duration f),
    (FormData.recommend_telegram f); simpl; intuition congruence.
Qed.

Lemma missing_selections_iff (f : FormData.t) :
  Survey.missing_selections f = true <->
  FormData.usage_reason f = [] \/ FormData.content_preference f = [].
Proof.
  unfold Survey.missing_selections. rewrite orb_true_iff.
  destruct (FormData.usage_reason f), (FormData.content_preference f); simpl;
    intuition congruence.
Qed.

(** C4.  When [age_group], [usage_duration] or [recommend_telegram] is empty,
    or [usage_reason] or [content_preference] is the empty list, the submit
    handler sends no query, leaves the store and the draft as they were, and
    reports one notice, a destructive one that names what is missing. *)
Theorem incomplete_draft_is_not_submitted
    (W : Type) (supabase : Client W) (env : Env Survey.State W) :
  let f := Survey.formData (state env) in
  FormData.age_group f = [] \/ FormData.usage_duration f = []
  \/ FormData.recommend_telegram f = []
  \/ FormData.usage_reason f = [] \/ FormData.content_preference f = [] ->
  exists notice,
    Survey.handleSubmit supabase env =
      (Normal tt,
       {| state := state env; toasts := toasts env ++ [notice];
          sent := sent env; world := world env |})
    /\ (notice = Survey.missing_fields_toast
        \/ notice = Survey.missing_selections_toast)
    /\ variant notice = Some (js "destructive").
Proof.
  intros f H.
  destruct (Survey.missing_fields f) eqn:Hf.
  - exists Survey.missing_fields_toast. split; [|split; [left|]; reflexivity].
    apply handleSubmit_missing_fields; assumption.
  - exists Survey.missing_selections_toast.
    split; [|split; [right|]; reflexivity].
    apply handleSubmit_missing_selections; [assumption|].
    apply missing_selections_iff.
    assert (~ (FormData.age_group f = [] \/ FormData.usage_duration f = []
               \/ FormData.recommend_telegram f = [])) as Hn.
    { rewrite <- missing_fields_iff. congruence. }
    tauto.
Qed.

Lemma incomplete_draft_is_not_submitted_witness :
  exists notice,
    Survey.handleSubmit Store.client (Sample.survey (Sample.draft [] [])) =
      (Normal tt,
       {| state := state (Sample.survey (Sample.draft [] []));
          toasts := [notice]; sent := []; world := Sample.store 3 |})
    /\ (notice = Survey.missing_fields_toast
        \/ notice = Survey.missing_selections_toast)
    /\ variant notice = Some (js "destructive").
Proof.
  apply (incomplete_draft_is_not_submitted _ Store.client
           (Sample.survey (Sample.draft [] []))).
  right; right; right; left. reflexivity.
Defined.

(** C2.  When [usage_reason] contains "Other" and the text of the "other"
    input is not empty, the list passed to [insert] is the reasons other than
    "Other", in their order, followed by that text.  The handler sends no
    other query, and sends this one whenever the draft passes the checks. *)
Theorem other_reason_replaces_the_sentinel
    (W : Type) (supabase : Client W) (env : Env Survey.State W) :
  let f := Survey.formData (state env) in
  let submitted :=
    filter (fun r => negb (eqb r Survey.Other)) (FormData.usage_reason f)
    ++ [FormData.other_usage_reason f] in
  In Survey.Other (FormData.usage_reason f) ->
  FormData.other_usage_reason f <> [] ->
  Survey.finalUsageReasons f = submitted
  /\ Row.usage_reason (Survey.row f) = submitted
  /\ (exists new,
        sent (snd (Survey.handleSubmit supabase env)) = sent env ++ new
        /\ (new = [] \/ new = [Insert telegram_survey (Survey.row f)])
        /\ (Survey.missing_fields f = false ->
            FormData.content_preference f <> [] ->
            new = [Insert telegram_survey (Survey.row f)])).
Proof.
  intros f submitted Hin Hne.
  assert (Survey.finalUsageReasons f = submitted) as E.
  { unfold Survey.finalUsageReasons.
    apply includes_In in Hin. apply truthy_nonempty in Hne.
    fold f. rewrite Hin, Hne. reflexivity. }
  split; [exact E|]. split; [exact E|].
  destruct (Survey.missing_fields f) eqn:H1.
  - exists []. rewrite handleSubmit_missing_fields by assumption. simpl.
    rewrite app_nil_r. repeat split; [left; reflexivity | discriminate].
  - destruct (Survey.missing_selections f) eqn:H2.
    + exists []. rewrite handleSubmit_missing_selections by assumption. simpl.
      rewrite app_nil_r. repeat split; [left; reflexivity|].
      intros _ Hc. apply missing_selections_iff in H2.
      destruct H2 as [H2|H2]; [|contradiction].
      fold f in Hin. rewrite H2 in Hin. destruct Hin.
    + exists [Insert telegram_survey (Survey.row f)].
      rewrite handleSubmit_complete by assumption. simpl.
      destruct (supabase _ _) as [reply w]. simpl.
      split; [reflexivity|]. split; [right; reflexivity|].
      intros _ _. reflexivity.
Qed.

Lemma other_reason_replaces_the_sentinel_witness :
  Survey.finalUsageReasons (Sample.draft [js "Other"] (js "Custom X")) =
    [js "Custom X"]
  /\ Row.usage_reason
       (Survey.row (Sample.draft [js "Other"] (js "Custom X"))) =
     [js "Custom X"]
  /\ (exists new,
        sent (snd (Survey.handleSubmit Store.client
                     (Sample.survey
                        (Sample.draft [js "Other"] (js "Custom X"))))) =
          [] ++ new
        /\ (new = []
            \/ new = [Insert telegram_survey
                        (Survey.row
                           (Sample.draft [js "Other"] (js "Custom X")))])
        /\ (Survey.missing_fields
              (Sample.draft [js "Other"] (js "Custom X")) = false ->
            [Sample.movies] <> [] ->
            new = [Insert telegram_survey
                     (Survey.row
                        (Sample.draft [js "Other"] (js "Custom X")))])).
Proof.
  apply (other_reason_replaces_the_sentinel _ Store.client
           (Sample.survey (Sample.draft [js "Other"] (js "Custom X")))).
  - left; reflexivity.
  - discriminate.
Defined.

(** C9.  When [usage_reason] contains "Other" and the text of the "other"
    input is empty, the list passed to [insert] is [usage_reason] itself, so
    that "Other" is among the submitted reasons; against the record store the
    row that is added carries that list. *)
Theorem sentinel_is_kept_without_text :
  (forall (W : Type) (supabase : Client W) (env : Env Survey.State W),
      let f := Survey.formData (state env) in
      In Survey.Other (FormData.usage_reason f) ->
      FormData.other_usage_reason f = [] ->
      Survey.finalUsageReasons f = FormData.usage_reason f
      /\ Row.usage_reason (Survey.row f) = FormData.usage_reason f
      /\ In (js "Other") (Row.usage_reason (Survey.row f))
      /\ (Survey.missing_fields f = false ->
          FormData.content_preference f <> [] ->
          sent (snd (Survey.handleSubmit supabase env)) =
          sent env ++ [Insert telegram_survey (Survey.row f)]))
  /\ (forall env : Env Survey.State Store.t,
         let f := Survey.formData (state env) in
         In Survey.Other (FormData.usage_reason f) ->
         FormData.other_usage_reason f = [] ->
         Survey.missing_fields f = false ->
         FormData.content_preference f <> [] ->
         exists record,
           Store.rows (world (snd (Survey.handleSubmit Store.client env))) =
             record :: Store.rows (world env)
           /\ SurveyResponse.usage_reason record = FormData.usage_reason f
           /\ In (js "Other") (SurveyResponse.usage_reason record)).
Proof.
  assert (forall f,
             FormData.other_usage_reason f = [] ->
             Survey.finalUsageReasons f = FormData.usage_reason f) as E.
  { intros f H. unfold Survey.finalUsageReasons. rewrite H; simpl.
    rewrite andb_false_r. reflexivity. }
  assert (forall f,
             In Survey.Other (FormData.usage_reason f) ->
             FormData.content_preference f <> [] ->
             Survey.missing_selections f = false) as S.
  { intros f Hin Hc. destruct (Survey.missing_selections f) eqn:M;
      [|reflexivity].
    apply missing_selections_iff in M. destruct M as [M|M]; [|contradiction].
    rewrite M in Hin. destruct Hin. }
  split.
  - intros W supabase env f Hin Hempty.
    split; [apply E; assumption|]. split; [apply E; assumption|].
    split; [simpl; rewrite E by assumption; exact Hin|].
    intros H1 Hc. rewrite handleSubmit_complete; auto.
    simpl. destruct (supabase _ _) as [reply w]. reflexivity.
  - intros env f Hin Hempty H1 Hc.
    exists (Store.stored (world env) (Survey.row f)).
    rewrite handleSubmit_complete; auto.
    simpl. rewrite E by assumption. auto.
Qed.

Lemma sentinel_is_kept_without_text_witness :
  Row.usage_reason
    (Survey.row (Sample.draft [js "For privacy and security"; js "Other"] [])) =
    [js "For privacy and security"; js "Other"]
  /\ exists record,
       Store.rows
         (world
            (snd (Survey.handleSubmit Store.client
                    (Sample.survey
                       (Sample.draft
                          [js "For privacy and security"; js "Other"] []))))) =
         record :: Store.rows (Sample.store 3)
       /\ SurveyResponse.usage_reason record =
            [js "For privacy and security"; js "Other"]
       /\ In (js "Other") (SurveyResponse.usage_reason record).
Proof.
  split.
  - apply (proj1 sentinel_is_kept_without_text _ Store.client
             (Sample.survey
                (Sample.draft [js "For privacy and security"; js "Other"] []))).
    + right; left; reflexivity.
    + reflexivity.
  - apply (proj2 sentinel_is_kept_without_text
             (Sample.survey
                (Sample.draft [js "For privacy and security"; js "Other"] []))).
    + right; left; reflexivity.
    + reflexivity.
    + reflexivity.
    + discriminate.
Defined.

(** C6.  After a submit that the store accepts, every field of the draft,
    the text of the "other" input included, is empty again; after a submit
    that the store rejects, the draft is what it was before. *)
Theorem draft_after_submit
    (W : Type) (supabase : Client W) (env : Env Survey.State W) :
  let f := Survey.formData (state env) in
  let reply :=
    fst (supabase (Insert telegram_survey (Survey.row f)) (world env)) in
  let after := snd (Survey.handleSubmit supabase env) in
  Survey.missing_fields f = false ->
  Survey.missing_selections f = false ->
  sent after = sent env ++ [Insert telegram_survey (Survey.row f)]
  /\ (error reply = None ->
      Survey.formData (state after) = Survey.blank
      /\ toasts after = toasts env ++ [Survey.thank_you_toast])
  /\ (error reply <> None ->
      Survey.formData (state after) = f
      /\ toasts after = toasts env ++ [Survey.submission_failed_toast]).
Proof.
  intros f reply after H1 H2. subst reply after.
  rewrite handleSubmit_complete by assumption. simpl. fold f.
  destruct (supabase _ _) as [reply w]. simpl.
  split; [reflexivity|].
  destruct (error reply); split; intros H; try congruence; split; reflexivity.
Qed.

Lemma draft_after_submit_witness :
  Survey.formData
    (state (snd (Survey.handleSubmit Store.client
                   (Sample.survey (Sample.draft [js "Other"] (js "Custom X"))))))
    = Survey.blank
  /\ Survey.formData
       (state (snd (Survey.handleSubmit Store.offline
                      (Sample.survey
                         (Sample.draft [js "Other"] (js "Custom X"))))))
     = Sample.draft [js "Other"] (js "Custom X").
Proof.
  split.
  - apply (draft_after_submit _ Store.client
             (Sample.survey (Sample.draft [js "Other"] (js "Custom X"))));
      reflexivity.
  - apply (draft_after_submit _ Store.offline
             (Sample.survey (Sample.draft [js "Other"] (js "Custom X"))));
      [reflexivity | reflexivity | discriminate].
Defined.

(* ================================================================== *)
(** * The fetch cycle of the dashboard *)
(* ================================================================== *)

Section Fetch.
Variable W : Type.
Variable supabase : Client W.
Variable env : Env Dashboard.State W.

(** A fetch cycle, step by step: the count, then the page. *)
Lemma fetchResponses_run :
  Dashboard.fetchResponses supabase env =
  (Normal tt,
   let p := Dashboard.currentPage (state env) in
   let (counted, w1) := supabase (SelectCount telegram_survey) (world env) in
   let (selected, w2) := supabase (Dashboard.page_query p) w1 in
   {| state :=
        {| Dashboard.responses :=
             match error selected with
             | None => Dashboard.or_empty (data selected)
             | Some _ => Dashboard.responses (state env)
             end;
           Dashboard.currentPage := p;
           Dashboard.totalResponses := Dashboard.or_zero (count counted);
           Dashboard.loading := false |};
      toasts :=
        match error selected with
        | None => toasts env
        | Some _ => toasts env ++ [Dashboard.error_loading_toast]
        end;
      sent :=
        sent env ++ [SelectCount telegram_survey; Dashboard.page_query p];
      world := w2 |}).
Proof.
  run_handler.
  destruct (supabase (SelectCount telegram_survey) (world env))
    as [counted w1]. simpl.
  destruct (supabase _ w1) as [selected w2]. simpl.
  rewrite <- app_assoc. simpl.
  destruct (error selected); reflexivity.
Qed.
End Fetch.

Lemma slice_last_rows (l : list SurveyResponse.t) :
  length l = 15%nat ->
  Store.slice 10 19 l = skipn 10 l /\ length (skipn 10 l) = 5%nat.
Proof.
  intros H. unfold Store.slice.
  assert (length (skipn 10 l) = 5%nat) as E by (rewrite length_skipn; lia).
  split; [|exact E].
  change (Z.to_nat (19 - 10 + 1)) with 10%nat.
  change (Z.to_nat 10) with 10%nat.
  apply firstn_all2. lia.
Qed.

(** C1, as amended.  For every page index [p >= 1] the fetch sends, after the
    count query, a single range query over the table ordered by
    [submitted_at] descending, with the zero-based inclusive offsets
    [(p - 1) * 10] and [p * 10 - 1]; for page 2 of a table of 15 records the
    offsets are 10 and 19, and the query yields the 5 records from offset 10
    on. *)
Theorem page_fetch_range :
  (forall (W : Type) (supabase : Client W) (env : Env Dashboard.State W),
      let p := Dashboard.currentPage (state env) in
      1 <= p ->
      sent (snd (Dashboard.fetchResponses supabase env)) =
        sent env ++
        [ SelectCount telegram_survey;
          SelectRange telegram_survey (js "submitted_at") false
            ((p - 1) * 10) (p * 10 - 1) ]
      /\ 0 <= (p - 1) * 10 <= p * 10 - 1)%Z
  /\ (forall env : Env Dashboard.State Store.t,
         Dashboard.currentPage (state env) = 2%Z ->
         length (Store.rows (world env)) = 15%nat ->
         let after := snd (Dashboard.fetchResponses Store.client env) in
         sent after =
           sent env ++
           [ SelectCount telegram_survey;
             SelectRange telegram_survey (js "submitted_at") false 10 19 ]
         /\ Dashboard.totalResponses (state after) = 15%Z
         /\ Dashboard.responses (state after) =
              skipn 10 (Store.rows (world env))
         /\ length (Dashboard.responses (state after)) = 5%nat).
Proof.
  split.
  - intros W supabase env p Hp. rewrite fetchResponses_run. simpl.
    destruct (supabase _ _) as [counted w1].
    destruct (supabase _ _) as [selected w2]. simpl.
    split; [reflexivity | lia].
  - intros env Hp Hn after. subst after.
    rewrite fetchResponses_run. rewrite Hp. simpl. rewrite Hn. simpl.
    destruct (slice_last_rows _ Hn) as [Hs Hl].
    change (Dashboard.range_from 2) with 10%Z.
    change (Dashboard.range_to 2) with 19%Z.
    rewrite Hs. auto.
Qed.

Lemma page_fetch_range_witness :
  sent (snd (Dashboard.fetchResponses Store.client (Sample.dashboard 3 25 25)))
    = [] ++ [ SelectCount telegram_survey;
              SelectRange telegram_survey (js "submitted_at") false
                ((3 - 1) * 10) (3 * 10 - 1) ]
  /\ length
       (Dashboard.responses
          (state (snd (Dashboard.fetchResponses Store.client
                         (Sample.dashboard 2 15 15))))) = 5%nat.
Proof.
  split.
  - apply (proj1 page_fetch_range _ Store.client (Sample.dashboard 3 25 25)).
    simpl. lia.
  - apply (proj2 page_fetch_range (Sample.dashboard 2 15 15));
      reflexivity.
Defined.

(** For page 2 of a table of 15 records the range query carries the offsets
    10 and 19; no query with the offsets 10 and 14 is sent. *)
Lemma page_two_asks_up_to_offset_19 :
  let after :=
    snd (Dashboard.fetchResponses Store.client (Sample.dashboard 2 15 15)) in
  In (SelectRange telegram_survey (js "submitted_at") false 10 19) (sent after)
  /\ ~ In (SelectRange telegram_survey (js "submitted_at") false 10 14)
         (sent after).
Proof.
  split.
  - right; left; reflexivity.
  - intros [H|[H|[]]]; discriminate.
Qed.

(** C5, as amended.  In every fetch cycle the count query is sent first and
    the page query is sent whatever the count query returned, with offsets
    that depend on the page index alone, and the loading indicator is cleared
    at the end.  When the page query fails, one error notice is reported and
    the page of records on display stays as it was, while the total is the
    one the count query has just returned.  When both succeed, no notice is
    reported and both the total and the page are replaced. *)
Theorem fetch_cycle
    (W : Type) (supabase : Client W) (env : Env Dashboard.State W) :
  let p := Dashboard.currentPage (state env) in
  let first := supabase (SelectCount telegram_survey) (world env) in
  let counted := fst first in
  let selected := fst (supabase (Dashboard.page_query p) (snd first)) in
  let after := snd (Dashboard.fetchResponses supabase env) in
  sent after =
    sent env ++ [SelectCount telegram_survey; Dashboard.page_query p]
  /\ Dashboard.loading (state after) = false
  /\ (error selected <> None ->
      toasts after = toasts env ++ [Dashboard.error_loading_toast]
      /\ Dashboard.responses (state after) = Dashboard.responses (state env)
      /\ (error counted = None ->
          Dashboard.totalResponses (state after) =
          Dashboard.or_zero (count counted)))
  /\ (error counted = None ->
      error selected = None ->
      toasts after = toasts env
      /\ Dashboard.responses (state after) = Dashboard.or_empty (data selected)
      /\ Dashboard.totalResponses (state after) =
         Dashboard.or_zero (count counted)).
Proof.
  intros p first counted selected after. subst after selected counted first.
  rewrite fetchResponses_run. fold p. simpl.
  destruct (supabase (SelectCount telegram_survey) (world env))
    as [counted w1]. simpl.
  destruct (supabase (Dashboard.page_query p) w1) as [selected w2]. simpl.
  split; [reflexivity|]. split; [reflexivity|].
  destruct (error selected); split; intros; try congruence; auto.
Qed.

Lemma fetch_cycle_witness :
  toasts (snd (Dashboard.fetchResponses Store.count_only
                 (Sample.dashboard 1 25 15))) =
    [Dashboard.error_loading_toast]
  /\ Dashboard.responses
       (state (snd (Dashboard.fetchResponses Store.count_only
                      (Sample.dashboard 1 25 15)))) =
     Dashboard.responses (Sample.showing 1 25)
  /\ Dashboard.totalResponses
       (state (snd (Dashboard.fetchResponses Store.client
                      (Sample.dashboard 2 15 15)))) = 15%Z.
Proof.
  destruct (fetch_cycle _ Store.count_only (Sample.dashboard 1 25 15))
    as (_ & _ & Hfail & _).
  destruct Hfail as (Ht & Hr & _); [discriminate|].
  destruct (fetch_cycle _ Store.client (Sample.dashboard 2 15 15))
    as (_ & _ & _ & Hok).
  destruct Hok as (_ & _ & Hn); [reflexivity | reflexivity |].
  split; [exact Ht|]. split; [exact Hr | exact Hn].
Defined.

(** The dashboard shows a total of 25; the count query gives 15 and the page
    query fails.  An error notice is reported and the total on display is now
    15. *)
Lemma total_changes_when_page_query_fails :
  let before := Sample.dashboard 1 25 15 in
  let after := snd (Dashboard.fetchResponses Store.count_only before) in
  toasts after = [Dashboard.error_loading_toast]
  /\ Dashboard.responses (state after) = Dashboard.responses (state before)
  /\ Dashboard.totalResponses (state before) = 25%Z
  /\ Dashboard.totalResponses (state after) = 15%Z
  /\ ~ (Dashboard.totalResponses (state after) =
        Dashboard.totalResponses (state before)
        /\ Dashboard.responses (state after) =
           Dashboard.responses (state before)).
Proof.
  repeat split. intros [H _]. discriminate.
Qed.

(* ================================================================== *)
(** * Pagination *)
(* ================================================================== *)

Lemma totalPages_div (s : Dashboard.State) :
  Dashboard.totalPages s = (- (- Dashboard.totalResponses s / 10))%Z.
Proof.
  unfold Dashboard.totalPages, Qceiling, Qfloor. simpl.
  rewrite Z.mul_1_r. reflexivity.
Qed.

Lemma totalPages_ceiling (s : Dashboard.State) :
  is_ceiling (Dashboard.totalResponses s) 10 (Dashboard.totalPages s).
Proof.
  rewrite totalPages_div. unfold is_ceiling.
  pose proof (Z.div_mod (- Dashboard.totalResponses s) 10 ltac:(lia)).
  pose proof (Z.mod_pos_bound (- Dashboard.totalResponses s) 10 ltac:(lia)).
  lia.
Qed.

Lemma page_numbers_range (s : Dashboard.State) (p : Z) :
  In p (Dashboard.page_numbers s) <-> (1 <= p <= Dashboard.totalPages s)%Z.
Proof.
  unfold Dashboard.page_numbers. rewrite in_map_iff. split.
  - intros [i [<- Hi]]. apply in_seq in Hi. lia.
  - intros H. exists (Z.to_nat (p - 1)). split; [lia|].
    apply in_seq. lia.
Qed.

Lemma controls_shown (s : Dashboard.State) (c : Dashboard.Click) :
  In c (Dashboard.controls s) ->
  (1 < Dashboard.totalPages s)%Z
  /\ match c with
     | Dashboard.Link p => (1 <= p <= Dashboard.totalPages s)%Z
     | _ => True
     end.
Proof.
  unfold Dashboard.controls.
  destruct (length (Dashboard.responses s) =? 0)%nat; [intros []|].
  destruct (Z.ltb_spec 1 (Dashboard.totalPages s)) as [Hlt|Hge];
    [|intros []].
  intros H. split; [assumption|].
  destruct c; try exact I.
  destruct H as [H|H]; [discriminate|].
  apply in_app_or in H. destruct H as [H|[H|[]]]; [|discriminate].
  apply in_map_iff in H. destruct H as [q [E Hq]]. inversion E; subst.
  apply page_numbers_range; assumption.
Qed.

Lemma click_run (W : Type) (supabase : Client W)
    (env : Env Dashboard.State W) (c : Dashboard.Click) :
  let s := state env in
  let target := Dashboard.currentPage (Dashboard.onClick c s) in
  Dashboard.click supabase c env =
  if Z.eqb (Dashboard.currentPage s) target
  then (Normal tt,
        {| state := Dashboard.onClick c s; toasts := toasts env;
           sent := sent env; world := world env |})
  else Dashboard.fetchResponses supabase
         {| state := Dashboard.onClick c s; toasts := toasts env;
            sent := sent env; world := world env |}.
Proof.
  unfold Dashboard.click, bind, read, update, ret. simpl.
  destruct (Z.eqb _ _); reflexivity.
Qed.

Lemma onClick_same_page (s : Dashboard.State) (c : Dashboard.Click) :
  Dashboard.currentPage (Dashboard.onClick c s) = Dashboard.currentPage s ->
  Dashboard.onClick c s = s.
Proof.
  destruct s as [r p t l].
  destruct c; unfold Dashboard.onClick, Dashboard.setCurrentPage;
    cbn [Dashboard.currentPage Dashboard.responses Dashboard.totalResponses
         Dashboard.loading];
    intros H; rewrite H; reflexivity.
Qed.

(** C8.  The number of pages is the ceiling of the total count over 10.  A
    click on a control of the pagination bar takes a page index within
    [1, totalPages] to a page index within [1, totalPages].  "Previous" on
    page 1 and "Next" on the last page change nothing and send nothing.  A
    click that changes the page index sends the count query and one range
    query, whose first offset lies within the table. *)
Theorem pagination_stays_in_range :
  (forall s : Dashboard.State,
      is_ceiling (Dashboard.totalResponses s) 10 (Dashboard.totalPages s))
  /\ (forall (W : Type) (supabase : Client W) (env : Env Dashboard.State W)
        (c : Dashboard.Click),
         let s := state env in
         let target := Dashboard.currentPage (Dashboard.onClick c s) in
         let after := snd (Dashboard.click supabase c env) in
         In c (Dashboard.controls s) ->
         (1 <= Dashboard.currentPage s <= Dashboard.totalPages s)%Z ->
         (1 <= target <= Dashboard.totalPages s)%Z
         /\ Dashboard.currentPage (state after) = target
         /\ (c = Dashboard.Previous -> Dashboard.currentPage s = 1%Z ->
             Dashboard.click supabase c env = (Normal tt, env))
         /\ (c = Dashboard.Next ->
             Dashboard.currentPage s = Dashboard.totalPages s ->
             Dashboard.click supabase c env = (Normal tt, env))
         /\ (sent after = sent env
             \/ sent after =
                  sent env ++
                  [SelectCount telegram_survey; Dashboard.page_query target]
                /\ (0 <= Dashboard.range_from target
                    < Dashboard.totalResponses s)%Z)).
Proof.
  split; [apply totalPages_ceiling|].
  intros W supabase env c s target after Hc Hp.
  destruct (controls_shown _ _ Hc) as [Htp Hlink].
  pose proof (totalPages_ceiling s) as [_ Hceil].
  assert (1 <= target <= Dashboard.totalPages s)%Z as Ht.
  { subst target. destruct c; simpl; lia. }
  assert (Dashboard.currentPage s = target ->
          {| state := Dashboard.onClick c s; toasts := toasts env;
             sent := sent env; world := world env |} = env) as Hsame.
  { intros E. rewrite onClick_same_page by (subst target; congruence).
    subst s. destruct env; reflexivity. }
  split; [exact Ht|].
  subst after. rewrite click_run. fold s. fold target.
  destruct (Z.eqb_spec (Dashboard.currentPage s) target) as [E|E].
  - simpl. split; [reflexivity|].
    split; [intros; rewrite Hsame by assumption; reflexivity|].
    split; [intros; rewrite Hsame by assumption; reflexivity|].
    left; reflexivity.
  - rewrite fetchResponses_run. simpl. fold target.
    destruct (supabase _ _) as [counted w1].
    destruct (supabase _ _) as [selected w2]. simpl.
    split; [reflexivity|].
    split; [intros -> H1; exfalso; apply E; subst target; simpl; lia|].
    split; [intros -> H1; exfalso; apply E; subst target; simpl; lia|].
    right. split; [reflexivity|].
    unfold Dashboard.range_from, Dashboard.responsesPerPage. lia.
Qed.

Lemma pagination_stays_in_range_witness :
  (1 <= Dashboard.currentPage
          (Dashboard.onClick Dashboard.Next (Sample.showing 3 25)) <= 3)%Z
  /\ Dashboard.click Store.client Dashboard.Next (Sample.dashboard 3 25 25) =
       (Normal tt, Sample.dashboard 3 25 25)
  /\ Dashboard.click Store.client Dashboard.Previous
       (Sample.dashboard 1 25 25) = (Normal tt, Sample.dashboard 1 25 25).
Proof.
  destruct (proj2 pagination_stays_in_range _ Store.client
              (Sample.dashboard 3 25 25) Dashboard.Next)
    as (Hr & _ & _ & Hn & _).
  { right. apply in_or_app. right. left. reflexivity. }
  { simpl. vm_compute. split; discriminate. }
  destruct (proj2 pagination_stays_in_range _ Store.client
              (Sample.dashboard 1 25 25) Dashboard.Previous)
    as (_ & _ & Hp & _).
  { left. reflexivity. }
  { simpl. vm_compute. split; discriminate. }
  split; [exact Hr|]. split; [apply Hn | apply Hp]; reflexivity.
Defined.

(* ================================================================== *)
(** * Frequency tables over arbitrary keys *)
(* ================================================================== *)

Lemma is_method_not_proto (k : JsString) : is_method k = true -> eqb k proto = false.
Proof.
  intros H. apply eqb_neq. intros ->. vm_compute in H. discriminate.
Qed.

Lemma tally_keys (l : list JsString) :
  map fst (tally l) = filter (fun k => negb (eqb k proto)) (first_seen l).
Proof. unfold tally. rewrite map_map; simpl. apply map_id. Qed.

Lemma tally_keys_NoDup (l : list JsString) : NoDup (map fst (tally l)).
Proof. rewrite tally_keys. apply NoDup_filter, first_seen_NoDup. Qed.

Lemma tally_key_In (l : list JsString) (k : JsString) :
  In k (map fst (tally l)) <-> In k l /\ k <> proto.
Proof. rewrite tally_keys, filter_neq_In, first_seen_In. tauto. Qed.

Lemma increment_tally (l : list JsString) (x : JsString) :
  increment (tally l) x = tally (l ++ [x]).
Proof.
  set (f := fun l k => if is_method k then Text else Num (occurrences k l)).
  assert (forall l, tally l =
                    map (fun k => (k, f l k))
                      (filter (fun k => negb (eqb k proto)) (first_seen l)))
    as Ht by reflexivity.
  set (keys := filter (fun k => negb (eqb k proto)) (first_seen l)).
  assert (forall k, In k keys <-> In k l /\ k <> proto) as Hkeys.
  { intros k. unfold keys. rewrite filter_neq_In, first_seen_In. tauto. }
  assert (NoDup keys) as Hnd by apply NoDup_filter, first_seen_NoDup.
  assert (filter (fun k => negb (eqb k proto)) (first_seen (l ++ [x])) =
          if includes l x || eqb x proto then keys else keys ++ [x]) as Hsnoc.
  { rewrite first_seen_snoc. destruct (includes l x); [reflexivity|]. simpl.
    rewrite filter_app. simpl. destruct (eqb x proto); simpl.
    - apply app_nil_r.
    - reflexivity. }
  assert (forall k, k <> x -> f (l ++ [x]) k = f l k) as Hother.
  { intros k Hk. unfold f. rewrite occurrences_snoc.
    assert (eqb k x = false) as -> by (apply eqb_neq; assumption).
    rewrite Z.add_0_r. reflexivity. }
  unfold increment, put, get.
  rewrite !Ht, Hsnoc. fold keys. rewrite (own_map (f l)).
  destruct (eqb x proto) eqn:Hp.
  - (* "__proto__": the assignment is lost *)
    rewrite orb_true_r. apply map_ext_in. intros k Hk.
    rewrite Hother; [reflexivity|].
    intros ->. apply Hkeys in Hk. apply eqb_eq in Hp. tauto.
  - rewrite orb_false_r.
    assert (includes keys x = includes l x) as ->.
    { destruct (includes l x) eqn:E.
      - apply includes_In, Hkeys. split; [apply includes_In; assumption|].
        apply eqb_neq; assumption.
      - apply includes_not_In. rewrite Hkeys.
        apply includes_not_In in E. tauto. }
    destruct (includes l x) eqn:Hin.
    + (* a key seen before *)
      rewrite (set_own_map (f l)).
      * apply map_ext. intros k. destruct (eqb k x) eqn:E.
        -- apply eqb_eq in E; subst. unfold f. rewrite occurrences_snoc, eqb_refl.
           destruct (is_method x); [reflexivity|]. simpl.
           destruct (Z.eqb_spec (occurrences x l) 0) as [->|_]; reflexivity.
        -- f_equal. symmetry. apply Hother. apply eqb_neq; assumption.
      * assumption.
      * apply Hkeys. split; [apply includes_In; assumption|].
        apply eqb_neq; assumption.
    + (* a new key *)
      rewrite set_own_fresh.
      * rewrite map_app. cbn [map]. f_equal.
        -- apply map_ext_in. intros k Hk. rewrite Hother; [reflexivity|].
           intros ->. apply Hkeys in Hk. apply includes_not_In in Hin. tauto.
        -- unfold f, is_method. rewrite occurrences_snoc, eqb_refl.
           rewrite occurrences_not_In by (apply includes_not_In; assumption).
           destruct (includes Object_prototype_methods x); reflexivity.
      * rewrite (map_fst_entries (f l)). rewrite Hkeys.
        apply includes_not_In in Hin. tauto.
Qed.

(** Counting keys into an object literal, for any keys at all. *)
Lemma fold_increment_tally (l : list JsString) :
  fold_left increment l [] = tally l.
Proof.
  induction l as [|x l IH] using rev_ind; [reflexivity|].
  rewrite fold_left_app; simpl. rewrite IH. apply increment_tally.
Qed.

(* ================================================================== *)
(** * Array indices *)
(* ================================================================== *)

Lemma digit_bound (u d : N) : digit u = Some d -> (d <= 9 /\ u = d + 48)%N.
Proof.
  unfold digit. destruct (N.leb_spec 48 u), (N.leb_spec u 57); simpl;
    intros E; inversion E; lia.
Qed.

Lemma decimal_bounds (s : JsString) (acc v : N) :
  decimal s acc = Some v ->
  (acc * 10 ^ N.of_nat (length s) <= v
   < (acc + 1) * 10 ^ N.of_nat (length s))%N.
Proof.
  revert acc. induction s as [|u s IH]; intros acc; cbn [decimal].
  - intros E; inversion E; subst. simpl. lia.
  - destruct (digit u) as [d|] eqn:Hd; [|discriminate].
    intros E. apply IH in E. apply digit_bound in Hd.
    replace (N.of_nat (length (u :: s))) with (N.succ (N.of_nat (length s)))
      by (simpl length; lia).
    rewrite N.pow_succ_r'.
    set (P := (10 ^ N.of_nat (length s))%N) in *.
    destruct Hd as [Hd _].
    pose proof (N.mul_le_mono_r d 9 P Hd).
    replace ((10 * acc + d) * P)%N with (10 * (acc * P) + d * P)%N in E by ring.
    replace ((10 * acc + d + 1) * P)%N
      with (10 * (acc * P) + d * P + P)%N in E by ring.
    replace (acc * (10 * P))%N with (10 * (acc * P))%N by ring.
    replace ((acc + 1) * (10 * P))%N with (10 * (acc * P) + 10 * P)%N by ring.
    lia.
Qed.

Lemma decimal_inj (s t : JsString) (acc v : N) :
  length s = length t ->
  decimal s acc = Some v -> decimal t acc = Some v -> s = t.
Proof.
  revert t acc. induction s as [|u s IH]; intros [|w t] acc; simpl length;
    try discriminate; [reflexivity|].
  intros Hlen. injection Hlen as Hlen. cbn [decimal].
  destruct (digit u) as [d|] eqn:Hd; [|discriminate].
  destruct (digit w) as [e|] eqn:He; [|discriminate].
  intros Es Et.
  pose proof (decimal_bounds _ _ _ Es) as Bs.
  pose proof (decimal_bounds _ _ _ Et) as Bt.
  rewrite <- Hlen in Bt.
  assert (0 < 10 ^ N.of_nat (length s))%N as Hpos
    by (apply N.neq_0_lt_0, N.pow_nonzero; lia).
  assert (d = e) by nia. subst e.
  apply digit_bound in Hd, He. f_equal; [lia|].
  apply (IH t (10 * acc + d)%N); assumption.
Qed.

Lemma pow10_lt (a b : nat) :
  (10 ^ N.of_nat a < 10 ^ N.of_nat (S b))%N -> (a <= b)%nat.
Proof.
  intros H. destruct (Nat.le_gt_cases a b) as [|Hgt]; [assumption|].
  exfalso.
  assert (10 ^ N.of_nat (S b) <= 10 ^ N.of_nat a)%N
    by (apply N.pow_le_mono_r; lia).
  lia.
Qed.

(** A number has one canonical decimal form. *)
Lemma array_index_inj (a b : JsString) (n : N) :
  array_index a = Some n -> array_index b = Some n -> a = b.
Proof.
  assert (forall k v,
             array_index k = Some v ->
             k = [48%N] /\ v = 0%N
             \/ (exists u k' d,
                    k = u :: k' /\ digit u = Some d /\ (1 <= d)%N
                    /\ decimal k' d = Some v)) as Hshape.
  { intros [|u k'] v; unfold array_index; [discriminate|].
    destruct (N.eqb_spec u 48) as [->|Hu].
    - destruct k'; intros E; inversion E. left; auto.
    - cbn [decimal].
      destruct (digit u) as [d|] eqn:Hd; [|discriminate].
      replace (10 * 0 + d)%N with d by lia.
      destruct (decimal k' d) as [w|] eqn:Hw; [|discriminate].
      destruct (w <? 2 ^ 32 - 1)%N; [|discriminate].
      intros E; inversion E; subst. right. exists u, k', d.
      repeat split; try assumption.
      apply digit_bound in Hd. lia. }
  intros Ha Hb.
  destruct (Hshape _ _ Ha) as [[-> ->]|(u & a' & d & -> & Hd & Hd1 & Hva)];
    destruct (Hshape _ _ Hb) as [[Eb En]|(w & b' & e & -> & He & He1 & Hvb)].
  - congruence.
  - apply decimal_bounds in Hvb.
    assert (0 < 10 ^ N.of_nat (length b'))%N
      by (apply N.neq_0_lt_0, N.pow_nonzero; lia).
    nia.
  - subst n. apply decimal_bounds in Hva.
    assert (0 < 10 ^ N.of_nat (length a'))%N
      by (apply N.neq_0_lt_0, N.pow_nonzero; lia).
    nia.
  - pose proof (decimal_bounds _ _ _ Hva) as Ba.
    pose proof (decimal_bounds _ _ _ Hvb) as Bb.
    pose proof (digit_bound _ _ Hd) as [Hd9 Hu].
    pose proof (digit_bound _ _ He) as [He9 Hw].
    assert (length a' = length b') as Hlen.
    { apply Nat.le_antisymm; apply pow10_lt;
        rewrite Nat2N.inj_succ, N.pow_succ_r'; nia. }
    rewrite <- Hlen in Bb.
    assert (0 < 10 ^ N.of_nat (length a'))%N
      by (apply N.neq_0_lt_0, N.pow_nonzero; lia).
    assert (d = e) by nia. subst e.
    f_equal; [lia|]. eapply decimal_inj; eassumption.
Qed.

Lemma insert_by_index_In (i : N) (p : JsString * JsValue)
    (l : list (N * (JsString * JsValue))) (e : N * (JsString * JsValue)) :
  In e (insert_by_index i p l) <-> e = (i, p) \/ In e l.
Proof.
  induction l as [|[j q] l IH]; simpl; [intuition|].
  destruct (i <? j)%N; simpl; [intuition|].
  rewrite IH. intuition.
Qed.

Lemma insert_by_index_sorted (i : N) (p : JsString * JsValue)
    (l : list (N * (JsString * JsValue))) :
  StronglySorted (fun a b => (fst a <= fst b)%N) l ->
  StronglySorted (fun a b => (fst a <= fst b)%N) (insert_by_index i p l).
Proof.
  induction 1 as [|[j q] l Hs IH Hj]; simpl.
  - repeat constructor.
  - destruct (N.ltb_spec i j).
    + constructor; [constructor; assumption|].
      constructor; [simpl; lia|].
      eapply Forall_impl; [|exact Hj]. simpl. intros; lia.
    + constructor; [exact IH|].
      apply Forall_forall. intros e He. apply insert_by_index_In in He.
      destruct He as [->|He]; [simpl; lia|].
      rewrite Forall_forall in Hj. apply Hj; assumption.
Qed.

Lemma indexed_entries (o : JsObject) :
  let l :=
    fold_right
      (fun p acc =>
         match array_index (fst p) with
         | Some i => insert_by_index i p acc
         | None => acc
         end)
      [] o in
  StronglySorted (fun a b => (fst a <= fst b)%N) l
  /\ Forall (fun e => array_index (fst (snd e)) = Some (fst e)) l.
Proof.
  induction o as [|p o [IHs IHf]]; simpl.
  - split; constructor.
  - destruct (array_index (fst p)) as [i|] eqn:E; [|split; assumption].
    split; [apply insert_by_index_sorted; assumption|].
    apply Forall_forall. intros e He. apply insert_by_index_In in He.
    destruct He as [->|He]; [exact E|].
    rewrite Forall_forall in IHf. apply IHf; assumption.
Qed.

Lemma StronglySorted_map (A B : Type) (g : A -> B) (R : B -> B -> Prop)
    (l : list A) :
  StronglySorted (fun a b => R (g a) (g b)) l -> StronglySorted R (map g l).
Proof.
  induction 1 as [|a l Hs IH Ha]; simpl; constructor; [assumption|].
  apply Forall_map. exact Ha.
Qed.

Lemma StronglySorted_strengthen (A : Type) (R Q : A -> A -> Prop)
    (l : list A) :
  NoDup l ->
  (forall a b, In a l -> In b l -> a <> b -> R a b -> Q a b) ->
  StronglySorted R l -> StronglySorted Q l.
Proof.
  intros Hnd Himp Hs. induction Hs as [|a l Hs IH Ha]; [constructor|].
  inversion Hnd as [|? ? Hnotin Hnd']; subst.
  constructor.
  - apply IH; [assumption|].
    intros x y Hx Hy. apply Himp; right; assumption.
  - apply Forall_forall. intros b Hb. rewrite Forall_forall in Ha.
    apply Himp; [left; reflexivity | right; assumption | | apply Ha; assumption].
    intros ->. contradiction.
Qed.

Lemma filter_indexed_fst (o : JsObject) :
  map fst (filter is_index o) = filter indexed (map fst o)
  /\ map fst (filter (fun p => negb (is_index p)) o) =
     filter (fun k => negb (indexed k)) (map fst o).
Proof.
  induction o as [|p o [IH1 IH2]]; simpl; [split; reflexivity|].
  assert (is_index p = indexed (fst p)) as E by reflexivity.
  rewrite E. destruct (indexed (fst p)); simpl; rewrite IH1, IH2;
    split; reflexivity.
Qed.

(** The keys of [Object.entries]: the array indices by ascending index, then
    the other keys in creation order. *)
Lemma Object_entries_keys (o : JsObject) :
  NoDup (map fst o) ->
  exists ixs,
    Permutation ixs (filter indexed (map fst o))
    /\ ascending ixs
    /\ map fst (Object_entries o) =
       ixs ++ filter (fun k => negb (indexed k)) (map fst o).
Proof.
  intros Hnd. exists (map fst (integer_keyed o)).
  assert (Permutation (map fst (integer_keyed o))
            (filter indexed (map fst o))) as Hp.
  { rewrite <- (proj1 (filter_indexed_fst o)).
    apply Permutation_map, integer_keyed_perm. }
  split; [exact Hp|]. split.
  - destruct (indexed_entries o) as [Hs Hf]. simpl in Hs, Hf.
    unfold integer_keyed. rewrite map_map.
    apply StronglySorted_map.
    eapply StronglySorted_strengthen with
      (R := fun a b => (fst a <= fst b)%N);
      [| |exact Hs].
    + apply (NoDup_map_inv (fun e => fst (snd e))).
      rewrite <- map_map with (f := snd) (g := fst).
      eapply Permutation_NoDup; [symmetry; exact Hp|].
      apply NoDup_filter; assumption.
    + intros a b Ha Hb Hab Hle. rewrite Forall_forall in Hf.
      pose proof (Hf _ Ha) as Ea. pose proof (Hf _ Hb) as Eb.
      exists (fst a), (fst b). repeat split; try assumption.
      destruct (N.eq_dec (fst a) (fst b)) as [E|E]; [|lia].
      exfalso. rewrite E in Ea.
      pose proof (array_index_inj _ _ _ Ea Eb) as Ek.
      assert (NoDup (map (fun e => fst (snd e))
                       (fold_right
                          (fun p acc =>
                             match array_index (fst p) with
                             | Some i => insert_by_index i p acc
                             | None => acc
                             end) [] o))) as Hnd'.
      { rewrite <- map_map with (f := snd) (g := fst).
        eapply Permutation_NoDup; [symmetry; exact Hp|].
        apply NoDup_filter; assumption. }
      set (l := fold_right _ _ o) in *.
      clearbody l.
      apply in_split in Ha. destruct Ha as (l1 & l2 & ->).
      rewrite map_app in Hnd'. simpl in Hnd'.
      apply NoDup_remove_2 in Hnd'. apply Hnd'.
      rewrite <- map_app. apply in_map_iff. exists b. split; [auto|].
      apply in_app_or in Hb. apply in_or_app.
      destruct Hb as [Hb|[Hb|Hb]]; [left; assumption | | right; assumption].
      contradiction.
  - unfold Object_entries, string_keyed. rewrite map_app.
    rewrite (proj2 (filter_indexed_fst o)). reflexivity.
Qed.

(* ================================================================== *)
(** * The distributions of any page *)
(* ================================================================== *)

Lemma single_valued_series
    (field : SurveyResponse.t -> JsString)
    (derive : list SurveyResponse.t -> list Datum.t)
    (responses : list SurveyResponse.t) :
  In (field, derive) single_valued ->
  derive responses =
  map Dashboard.datum (Object_entries (tally (map field responses))).
Proof.
  intros [E|[E|[E|[]]]]; inversion E; subst;
    unfold Dashboard.getAgeGroupData, Dashboard.getRecommendationData,
      Dashboard.getUsageDurationData;
    rewrite fold_left_through, fold_increment_tally; reflexivity.
Qed.

Lemma datum_name (es : list (JsString * JsValue)) :
  map Datum.name (map Dashboard.datum es) = map fst es.
Proof.
  rewrite map_map. apply map_ext. intros [k v]. reflexivity.
Qed.

Lemma total_skips_text (m : JsString -> bool) (g : JsString -> Z)
    (ks : list JsString) :
  total (map Dashboard.datum
           (map (fun k => (k, if m k then Text else Num (g k))) ks)) =
  total (map (fun k => {| Datum.name := k; Datum.value := Num (g k) |})
           (filter (fun k => negb (m k)) ks)).
Proof.
  induction ks as [|k ks IH]; simpl; [reflexivity|].
  destruct (m k); simpl; rewrite IH; reflexivity.
Qed.

Lemma total_tally (l : list JsString) :
  total (map Dashboard.datum (tally l)) =
  Z.of_nat (length (filter (fun k => negb (inherited k)) l)).
Proof.
  unfold tally.
  rewrite (total_skips_text is_method (fun k => occurrences k l)).
  rewrite total_counts
    by (apply NoDup_filter, NoDup_filter, first_seen_NoDup).
  f_equal. f_equal. apply filter_ext_in. intros k Hk.
  unfold inherited, is_method. rewrite negb_orb.
  destruct (includes (filter _ (filter _ (first_seen l))) k) eqn:E.
  - apply includes_In in E. rewrite !filter_In in E.
    destruct E as [[_ ->] ->]. reflexivity.
  - apply includes_not_In in E. rewrite !filter_In, first_seen_In in E.
    destruct (negb (eqb k proto)), (negb (includes Object_prototype_methods k));
      try reflexivity.
    exfalso. apply E. auto.
Qed.

(** X1.  Whatever strings a page holds in [age_group], [recommend_telegram]
    or [usage_duration], the series derived from that field has distinct
    labels; its labels are the values of the field other than "__proto__";
    an entry holds the number of records with that value, unless the value
    names a method of [Object.prototype], when it holds a text; and the
    counts add up to the number of records whose value is not inherited. *)
Theorem distribution_of_any_page
    (field : SurveyResponse.t -> JsString)
    (derive : list SurveyResponse.t -> list Datum.t)
    (responses : list SurveyResponse.t) :
  In (field, derive) single_valued ->
  let values := map field responses in
  let series := derive responses in
  NoDup (map Datum.name series)
  /\ (forall k,
         In k (map Datum.name series) <-> In k values /\ k <> js "__proto__")
  /\ (forall d,
         In d series ->
         Datum.value d =
         if is_method (Datum.name d) then Text
         else Num (occurrences (Datum.name d) values))
  /\ total series =
     Z.of_nat (length (filter (fun k => negb (inherited k)) values)).
Proof.
  intros H values series. subst series.
  rewrite (single_valued_series _ _ responses H). fold values.
  pose proof (Object_entries_perm (tally values)) as Hp.
  split; [|split; [|split]].
  - rewrite datum_name.
    eapply Permutation_NoDup;
      [symmetry; apply Permutation_map; exact Hp | apply tally_keys_NoDup].
  - intros k. rewrite datum_name, <- tally_key_In. split; intros Hk.
    + eapply Permutation_in; [apply Permutation_map; exact Hp | exact Hk].
    + eapply Permutation_in;
        [symmetry; apply Permutation_map; exact Hp | exact Hk].
  - intros d Hd. apply in_map_iff in Hd. destruct Hd as [[k v] [<- He]].
    apply (Permutation_in _ Hp) in He. unfold tally in He.
    apply in_map_iff in He. destruct He as [k' [E _]]. inversion E; subst.
    reflexivity.
  - rewrite (total_perm _ _ (Permutation_map Dashboard.datum Hp)).
    apply total_tally.
Qed.

Lemma distribution_of_any_page_witness :
  NoDup (map Datum.name (Dashboard.getAgeGroupData Sample.shadowed))
  /\ total (Dashboard.getAgeGroupData Sample.shadowed) = 1%Z.
Proof.
  destruct (distribution_of_any_page SurveyResponse.age_group
              Dashboard.getAgeGroupData Sample.shadowed)
    as (Hn & _ & _ & Ht).
  - left; reflexivity.
  - split; [exact Hn | exact Ht].
Defined.

(** X2.  The order of each of the three series, for any page: first the
    values that read as array indices, by ascending index, then the other
    values in the order in which they first occur in the page. *)
Theorem distribution_order
    (field : SurveyResponse.t -> JsString)
    (derive : list SurveyResponse.t -> list Datum.t)
    (responses : list SurveyResponse.t) :
  In (field, derive) single_valued ->
  let keys :=
    filter (fun k => negb (eqb k (js "__proto__")))
      (first_seen (map field responses)) in
  exists ixs,
    Permutation ixs (filter indexed keys)
    /\ ascending ixs
    /\ map Datum.name (derive responses) =
       ixs ++ filter (fun k => negb (indexed k)) keys.
Proof.
  intros H keys.
  rewrite (single_valued_series _ _ responses H), datum_name.
  destruct (Object_entries_keys (tally (map field responses)))
    as (ixs & Hp & Ha & E).
  { apply tally_keys_NoDup. }
  rewrite tally_keys in Hp, E. exists ixs. auto.
Qed.

Lemma distribution_order_witness :
  exists ixs,
    Permutation ixs [js "2"; js "1"]
    /\ ascending ixs
    /\ map Datum.name (Dashboard.getAgeGroupData Sample.numbered) = ixs ++ [].
Proof.
  apply (distribution_order SurveyResponse.age_group
           Dashboard.getAgeGroupData Sample.numbered).
  left; reflexivity.
Defined.

(* ================================================================== *)
(** * The content chart of answers given through the form *)
(* ================================================================== *)

Lemma option_plain (k : JsString) :
  In k Survey.contentPreferences -> plain k = true.
Proof.
  intros H. pose proof form_values_plain as P.
  rewrite forallb_forall in P. apply P.
  apply in_or_app; right. apply in_or_app; right. apply in_or_app; right.
  exact H.
Qed.

Lemma map_NoDup_within (A B : Type) (g : A -> B) (all l : list A) :
  NoDup (map g all) -> incl l all -> NoDup l -> NoDup (map g l).
Proof.
  intros Hall Hincl Hl.
  assert (forall a b, In a all -> In b all -> g a = g b -> a = b) as Hinj.
  { clear l Hincl Hl. induction all as [|x all IH]; simpl; [tauto|].
    inversion Hall as [|? ? Hx Hall']; subst.
    intros a b [->|Ha] [->|Hb] E; auto.
    - exfalso. apply Hx. rewrite E. apply in_map; assumption.
    - exfalso. apply Hx. rewrite <- E. apply in_map; assumption. }
  induction Hl as [|a l Ha Hl IH]; simpl; constructor.
  - intros Hin. apply in_map_iff in Hin. destruct Hin as [b [E Hb]].
    assert (b = a) by (apply Hinj; auto; apply Hincl; [right|left]; auto).
    subst. contradiction.
  - apply IH. intros x Hx. apply Hincl. right; assumption.
Qed.

Lemma NoDup_computed (l : list JsString) :
  nodup (list_eq_dec N.eq_dec) l = l -> NoDup l.
Proof. intros <-. apply NoDup_nodup. Qed.

Lemma stripped_options_differ :
  NoDup (map replace_leading_token Survey.contentPreferences).
Proof. apply NoDup_computed. vm_compute. reflexivity. Qed.

Lemma strip_name_table (l : list JsString) :
  map Dashboard.strip_name (table l) =
  map (fun k => {| Datum.name := replace_leading_token k;
                   Datum.value := Num (occurrences k l) |})
    (first_seen l).
Proof. unfold table. rewrite map_map. reflexivity. Qed.

Lemma total_stripped (l : list JsString) :
  total (map Dashboard.strip_name (table l)) = total (frequencies l).
Proof.
  rewrite strip_name_table. unfold frequencies.
  induction (first_seen l) as [|k ks IH]; simpl; [reflexivity|].
  rewrite IH. reflexivity.
Qed.

(** X3.  For a page whose content preferences are options of the form, the
    content chart has one bar for every option that occurs: the limit of ten
    cuts none off.  The bars carry the options without their leading symbol,
    under distinct labels, by descending count, and the counts add up to the
    number of options ticked in the page. *)
Theorem content_chart_of_form_answers (responses : list SurveyResponse.t) :
  Forall
    (fun r => incl (SurveyResponse.content_preference r)
                Survey.contentPreferences)
    responses ->
  let ticked := flattened responses in
  let series := Dashboard.getContentPreferenceData responses in
  Permutation series
    (map (fun k => {| Datum.name := replace_leading_token k;
                      Datum.value := Num (occurrences k ticked) |})
       (first_seen ticked))
  /\ descending series
  /\ NoDup (map Datum.name series)
  /\ total series = Z.of_nat (length ticked).
Proof.
  intros H ticked series.
  assert (incl ticked Survey.contentPreferences) as Hincl.
  { unfold ticked, flattened. intros k Hk. apply in_flat_map in Hk.
    destruct Hk as [r [Hr Hk]]. rewrite Forall_forall in H.
    exact (H r Hr k Hk). }
  assert (Forall (fun k => plain k = true) ticked) as Hplain.
  { apply Forall_forall. intros k Hk. apply option_plain, Hincl, Hk. }
  assert (incl (first_seen ticked) Survey.contentPreferences) as Hfs.
  { intros k Hk. apply Hincl. apply (proj1 (first_seen_In _ _)); assumption. }
  assert (series =
          sort Dashboard.by_value_descending
            (map Dashboard.strip_name (table ticked))) as E.
  { unfold series, Dashboard.getContentPreferenceData, slice0.
    rewrite fold_left_flattened. fold ticked.
    rewrite fold_increment_table
      by (eapply Forall_impl; [|exact Hplain]; intros k Hk;
          apply (plain_split k Hk)).
    rewrite Object_entries_plain.
    - apply firstn_all2.
      rewrite <- (Permutation_length (sort_perm _ _ _)).
      rewrite strip_name_table, length_map.
      apply (NoDup_incl_length (first_seen_NoDup ticked)) in Hfs.
      exact Hfs.
    - rewrite table_keys. apply Forall_forall. intros k Hk.
      apply (plain_split k). apply option_plain, Hfs, Hk. }
  assert (Forall numeric (map Dashboard.strip_name (table ticked))) as Hnum.
  { rewrite strip_name_table. apply Forall_forall. intros d Hd.
    apply in_map_iff in Hd. destruct Hd as [k [<- _]].
    eexists; reflexivity. }
  pose proof (sort_perm _ Dashboard.by_value_descending
                (map Dashboard.strip_name (table ticked))) as Hp.
  rewrite E. split; [|split; [|split]].
  - rewrite <- strip_name_table. symmetry. exact Hp.
  - apply sort_descending; assumption.
  - eapply Permutation_NoDup; [apply Permutation_map; exact Hp|].
    rewrite strip_name_table, map_map. simpl.
    apply (map_NoDup_within _ _ replace_leading_token
             Survey.contentPreferences);
      [apply stripped_options_differ | exact Hfs | apply first_seen_NoDup].
  - rewrite <- (total_perm _ _ Hp), total_stripped.
    apply frequencies_distribution.
Qed.

Lemma content_chart_of_form_answers_witness :
  NoDup (map Datum.name (Dashboard.getContentPreferenceData Sample.page))
  /\ total (Dashboard.getContentPreferenceData Sample.page) = 13%Z.
Proof.
  destruct (content_chart_of_form_answers Sample.page) as (_ & _ & Hn & Ht).
  - repeat (apply Forall_cons; [apply incl_computed; reflexivity|]).
    apply Forall_nil.
  - split; [exact Hn | exact Ht].
Defined.

(* ================================================================== *)
(** * The controls of the form *)
(* ================================================================== *)

Lemma toggle_checked (value : JsString) (xs : list JsString) :
  includes (Survey.toggle value xs) value = negb (includes xs value).
Proof.
  unfold Survey.toggle. destruct (includes xs value) eqn:E; simpl.
  - apply includes_not_In. rewrite filter_neq_In. tauto.
  - apply includes_In. apply in_or_app. right. left. reflexivity.
Qed.

Lemma toggle_others (value other : JsString) (xs : list JsString) :
  other <> value ->
  includes (Survey.toggle value xs) other = includes xs other.
Proof.
  intros H. unfold Survey.toggle.
  destruct (includes xs other) eqn:Eo; destruct (includes xs value).
  - apply includes_In. rewrite filter_neq_In. apply includes_In in Eo. tauto.
  - apply includes_In. apply in_or_app. left. apply includes_In; assumption.
  - apply includes_not_In. rewrite filter_neq_In.
    apply includes_not_In in Eo. tauto.
  - apply includes_not_In. intros Hin. apply in_app_or in Hin.
    apply includes_not_In in Eo. destruct Hin as [Hin|[Hin|[]]]; congruence.
Qed.

Lemma filter_idem (A : Type) (g : A -> bool) (l : list A) :
  filter g (filter g l) = filter g l.
Proof.
  induction l as [|x l IH]; simpl; [reflexivity|].
  destruct (g x) eqn:E; simpl; rewrite ?E, IH; reflexivity.
Qed.

Lemma filter_none (xs : list JsString) (value : JsString) :
  ~ In value xs -> filter (fun item => negb (eqb item value)) xs = xs.
Proof.
  intros H. apply filter_all. apply Forall_forall. intros x Hx.
  apply negb_true_iff, eqb_neq. intros ->. contradiction.
Qed.

Lemma toggle_order (value : JsString) (xs : list JsString) :
  filter (fun item => negb (eqb item value)) (Survey.toggle value xs) =
  filter (fun item => negb (eqb item value)) xs.
Proof.
  unfold Survey.toggle. destruct (includes xs value).
  - apply filter_idem.
  - rewrite filter_app. simpl. rewrite eqb_refl. simpl. apply app_nil_r.
Qed.

(** X4.  A click on a checkbox flips that checkbox and no other: the option
    becomes ticked if it was not and the other way round, the other options
    of the group keep their state and their order, a newly ticked option
    goes last, and nothing else in the draft changes. *)
Theorem checkbox_flips_one_option
    (value : JsString) (field : Survey.Field) (prev : FormData.t) :
  let next := Survey.handleMultipleChoice value field prev in
  Survey.checked next field value = negb (Survey.checked prev field value)
  /\ (forall other,
         other <> value ->
         Survey.checked next field other = Survey.checked prev field other)
  /\ filter (fun item => negb (eqb item value)) (Survey.selected next field) =
     filter (fun item => negb (eqb item value)) (Survey.selected prev field)
  /\ (Survey.checked prev field value = false ->
      Survey.selected next field = Survey.selected prev field ++ [value])
  /\ (forall other,
         other <> field ->
         Survey.selected next other = Survey.selected prev other)
  /\ FormData.name next = FormData.name prev
  /\ FormData.age_group next = FormData.age_group prev
  /\ FormData.usage_duration next = FormData.usage_duration prev
  /\ FormData.regular_bots_or_channels next =
     FormData.regular_bots_or_channels prev
  /\ FormData.recommend_telegram next = FormData.recommend_telegram prev
  /\ FormData.improvement_suggestions next =
     FormData.improvement_suggestions prev
  /\ FormData.other_usage_reason next = FormData.other_usage_reason prev.
Proof.
  intros next. subst next.
  split; [destruct field; apply toggle_checked|].
  split; [intros other H; destruct field; apply toggle_others; assumption|].
  split; [destruct field; apply toggle_order|].
  split.
  { destruct field; simpl; unfold Survey.toggle; intros ->; reflexivity. }
  split.
  { intros other H. destruct field, other; try reflexivity; congruence. }
  repeat split.
Qed.

Lemma checkbox_flips_one_option_witness :
  Survey.checked
    (Survey.handleMultipleChoice (js "Other") Survey.usage_reason
       (Sample.draft [js "To chat with friends"] []))
    Survey.usage_reason (js "To chat with friends") = true
  /\ Survey.selected
       (Survey.handleMultipleChoice (js "Other") Survey.usage_reason
          (Sample.draft [js "To chat with friends"] []))
       Survey.usage_reason = [js "To chat with friends"; js "Other"].
Proof.
  destruct (checkbox_flips_one_option (js "Other") Survey.usage_reason
              (Sample.draft [js "To chat with friends"] []))
    as (_ & Hothers & _ & Hlast & _).
  split.
  - rewrite Hothers; [reflexivity | discriminate].
  - apply Hlast. reflexivity.
Defined.

(** X5.  Ticking an option and unticking it again gives the draft back as it
    was.  Unticking a ticked option and ticking it again keeps the same
    options but moves that one to the end of the selection. *)
Theorem checkbox_twice
    (value : JsString) (field : Survey.Field) (prev : FormData.t) :
  let twice :=
    Survey.handleMultipleChoice value field
      (Survey.handleMultipleChoice value field prev) in
  (Survey.checked prev field value = false -> twice = prev)
  /\ (Survey.checked prev field value = true ->
      Survey.selected twice field =
      filter (fun item => negb (eqb item value)) (Survey.selected prev field)
      ++ [value]).
Proof.
  assert (forall xs,
             includes xs value = false ->
             Survey.toggle value (Survey.toggle value xs) = xs) as Hback.
  { intros xs H. unfold Survey.toggle at 2. rewrite H.
    unfold Survey.toggle.
    assert (includes (xs ++ [value]) value = true) as ->.
    { apply includes_In, in_or_app. right; left; reflexivity. }
    rewrite filter_app. simpl. rewrite eqb_refl. simpl. rewrite app_nil_r.
    apply filter_none. apply includes_not_In; assumption. }
  assert (forall xs,
             includes xs value = true ->
             Survey.toggle value (Survey.toggle value xs) =
             filter (fun item => negb (eqb item value)) xs ++ [value]) as Hend.
  { intros xs H. unfold Survey.toggle at 2. rewrite H.
    unfold Survey.toggle.
    assert (includes (filter (fun item => negb (eqb item value)) xs) value
            = false) as ->; [|reflexivity].
    apply includes_not_In. rewrite filter_neq_In. tauto. }
  intros twice. subst twice. split.
  - destruct prev, field; simpl; intros H;
      unfold Survey.handleMultipleChoice; simpl; rewrite Hback by assumption;
      reflexivity.
  - destruct field; simpl; intros H; apply Hend; assumption.
Qed.

Lemma checkbox_twice_witness :
  Survey.handleMultipleChoice Sample.ebooks Survey.content_preference
    (Survey.handleMultipleChoice Sample.ebooks Survey.content_preference
       (Sample.draft [js "Other"] (js "Custom X")))
  = Sample.draft [js "Other"] (js "Custom X")
  /\ Survey.selected
       (Survey.handleMultipleChoice (js "Other") Survey.usage_reason
          (Survey.handleMultipleChoice (js "Other") Survey.usage_reason
             (Sample.draft [js "Other"; js "To chat with friends"] [])))
       Survey.usage_reason
     = [js "To chat with friends"; js "Other"].
Proof.
  split.
  - apply (proj1 (checkbox_twice Sample.ebooks Survey.content_preference
                    (Sample.draft [js "Other"] (js "Custom X")))).
    reflexivity.
  - apply (proj2 (checkbox_twice (js "Other") Survey.usage_reason
                    (Sample.draft [js "Other"; js "To chat with friends"] []))).
    reflexivity.
Defined.

Lemma toggle_incl (value : JsString) (xs all : list JsString) :
  In value all -> incl xs all -> incl (Survey.toggle value xs) all.
Proof.
  intros Hv Hxs k Hk. unfold Survey.toggle in Hk.
  destruct (includes xs value).
  - apply filter_In in Hk. apply Hxs, Hk.
  - apply in_app_or in Hk. destruct Hk as [Hk|[<-|[]]]; auto.
Qed.

(** X6.  Whatever the user does with the controls of the form, starting from
    the blank form, every radio group holds nothing or one of its options,
    and every group of checkboxes holds options of its own, none of them
    twice. *)
Theorem form_keeps_to_its_options (f : FormData.t) :
  Survey.reachable f -> made_of_options f.
Proof.
  induction 1 as [|f e Hf IH Ho].
  - unfold made_of_options; simpl.
    split; [left; reflexivity|]. split; [left; reflexivity|].
    split; [left; reflexivity|].
    split; [constructor|]. split; [intros k []|].
    split; [constructor | intros k []].
  - destruct IH as (Ha & Hd & Hr & Hun & Hui & Hcn & Hci).
    destruct e as [v|v|v|v field|v|v|v|v]; unfold made_of_options;
      unfold Survey.handle, Survey.handleMultipleChoice;
      cbn [FormData.age_group FormData.usage_duration
           FormData.recommend_telegram FormData.usage_reason
           FormData.content_preference];
      cbn [Survey.offered] in Ho;
      try (repeat split; assumption).
    + repeat split; try assumption. right. apply includes_In; assumption.
    + repeat split; try assumption. right. apply includes_In; assumption.
    + destruct field; repeat split; try assumption.
      * apply toggle_NoDup; assumption.
      * apply toggle_incl; [apply includes_In|]; assumption.
      * apply toggle_NoDup; assumption.
      * apply toggle_incl; [apply includes_In|]; assumption.
    + repeat split; try assumption. right. apply includes_In; assumption.
Qed.

Lemma form_keeps_to_its_options_witness :
  made_of_options
    (Survey.handle (Survey.OtherReasonChange (js "Custom X"))
       (Survey.handle (Survey.CheckedChange (js "Other") Survey.usage_reason)
          (Survey.handle (Survey.AgeGroupChange (js "45+")) Survey.blank))).
Proof.
  apply form_keeps_to_its_options.
  repeat (apply Survey.reachable_step; [|reflexivity]).
  apply Survey.reachable_blank.
Defined.

(* ================================================================== *)
(** * What the form submits *)
(* ================================================================== *)

Lemma or_null_not_empty (s : JsString) : or_null s <> Some [].
Proof. unfold or_null. destruct s; simpl; discriminate. Qed.

Lemma finalUsageReasons_nonempty (f : FormData.t) :
  FormData.usage_reason f <> [] -> Survey.finalUsageReasons f <> [].
Proof.
  intros H. unfold Survey.finalUsageReasons.
  destruct (_ && _); [|assumption].
  intros E. apply app_eq_nil in E. destruct E; discriminate.
Qed.

Lemma complete_draft_row (f : FormData.t) :
  Survey.missing_fields f = false ->
  Survey.missing_selections f = false ->
  complete_row (Survey.row f).
Proof.
  intros H1 H2.
  assert (~ (FormData.age_group f = [] \/ FormData.usage_duration f = []
             \/ FormData.recommend_telegram f = [])) as N1.
  { rewrite <- missing_fields_iff. congruence. }
  assert (~ (FormData.usage_reason f = []
             \/ FormData.content_preference f = [])) as N2.
  { rewrite <- missing_selections_iff. congruence. }
  unfold complete_row; simpl.
  repeat split; try tauto; try apply or_null_not_empty.
  apply finalUsageReasons_nonempty. tauto.
Qed.

(** The queries a submit adds to those sent before: none, or the one
    insert. *)
Lemma handleSubmit_sends (W : Type) (supabase : Client W)
    (env : Env Survey.State W) :
  let f := Survey.formData (state env) in
  sent (snd (Survey.handleSubmit supabase env)) =
  sent env ++
  (if Survey.missing_fields f || Survey.missing_selections f then []
   else [Insert telegram_survey (Survey.row f)]).
Proof.
  intros f. subst f.
  destruct (Survey.missing_fields _) eqn:H1.
  - rewrite handleSubmit_missing_fields by assumption. simpl.
    symmetry; apply app_nil_r.
  - destruct (Survey.missing_selections _) eqn:H2.
    + rewrite handleSubmit_missing_selections by assumption. simpl.
      symmetry; apply app_nil_r.
    + rewrite handleSubmit_complete by assumption. simpl.
      destruct (supabase _ _). reflexivity.
Qed.

(** X7.  Whatever the draft, a submit sends one query at most, an insert
    into [telegram_survey], and the row it carries has the three required
    answers and the two required selections, each of them non-empty, and
    optional answers that are absent rather than empty texts. *)
Theorem only_complete_rows_are_inserted
    (W : Type) (supabase : Client W) (env : Env Survey.State W) :
  exists new,
    sent (snd (Survey.handleSubmit supabase env)) = sent env ++ new
    /\ (length new <= 1)%nat
    /\ Forall
         (fun q => exists r, q = Insert telegram_survey r /\ complete_row r)
         new.
Proof.
  eexists. split; [apply handleSubmit_sends|].
  destruct (Survey.missing_fields _) eqn:H1; simpl;
    [split; [lia | constructor]|].
  destruct (Survey.missing_selections _) eqn:H2; simpl;
    [split; [lia | constructor]|].
  split; [lia|]. constructor; [|constructor].
  eexists. split; [reflexivity|]. apply complete_draft_row; assumption.
Qed.

(** X8.  For a draft made of the options of the form, as every draft is
    that the controls of the form bring about, the row a submit inserts
    holds an age group, a usage duration and a recommendation from the
    lists of options, and content preferences that are options, none of them
    twice: values that the charts of the dashboard count under their own
    label. *)
Theorem inserted_rows_hold_options
    (W : Type) (supabase : Client W) (env : Env Survey.State W) :
  made_of_options (Survey.formData (state env)) ->
  exists new,
    sent (snd (Survey.handleSubmit supabase env)) = sent env ++ new
    /\ Forall
         (fun q =>
            exists r,
              q = Insert telegram_survey r
              /\ In (Row.age_group r) Survey.ageGroups
              /\ In (Row.usage_duration r) Survey.usageDurations
              /\ In (Row.recommend_telegram r) Survey.recommendOptions
              /\ NoDup (Row.content_preference r)
              /\ incl (Row.content_preference r) Survey.contentPreferences
              /\ plain (Row.age_group r) = true
              /\ plain (Row.usage_duration r) = true
              /\ plain (Row.recommend_telegram r) = true
              /\ Forall (fun k => plain k = true) (Row.content_preference r))
         new.
Proof.
  intros (Ha & Hd & Hr & _ & _ & Hcn & Hci).
  eexists. split; [apply handleSubmit_sends|].
  destruct (Survey.missing_fields _) eqn:H1; simpl; [constructor|].
  destruct (Survey.missing_selections _) eqn:H2; simpl; [constructor|].
  assert (~ (FormData.age_group (Survey.formData (state env)) = []
             \/ FormData.usage_duration (Survey.formData (state env)) = []
             \/ FormData.recommend_telegram (Survey.formData (state env)) = []))
    as N1.
  { rewrite <- missing_fields_iff. congruence. }
  pose proof form_values_plain as P. rewrite forallb_forall in P.
  assert (In (FormData.age_group (Survey.formData (state env)))
            Survey.ageGroups) as Ia by tauto.
  assert (In (FormData.usage_duration (Survey.formData (state env)))
            Survey.usageDurations) as Id by tauto.
  assert (In (FormData.recommend_telegram (Survey.formData (state env)))
            Survey.recommendOptions) as Ir by tauto.
  constructor; [|constructor].
  eexists. split; [reflexivity|]. simpl.
  repeat split; try assumption.
  - apply P. apply in_or_app. left. assumption.
  - apply P. apply in_or_app. right. apply in_or_app. left. assumption.
  - apply P. apply in_or_app. right. apply in_or_app. right.
    apply in_or_app. left. assumption.
  - apply Forall_forall. intros k Hk. apply option_plain, Hci, Hk.
Qed.

Lemma inserted_rows_hold_options_witness :
  exists new,
    sent (snd (Survey.handleSubmit Store.client
                 (Sample.survey (Sample.draft [js "Other"] (js "Custom X")))))
    = [] ++ new
    /\ Forall
         (fun q =>
            exists r,
              q = Insert telegram_survey r
              /\ In (Row.age_group r) Survey.ageGroups
              /\ In (Row.usage_duration r) Survey.usageDurations
              /\ In (Row.recommend_telegram r) Survey.recommendOptions
              /\ NoDup (Row.content_preference r)
              /\ incl (Row.content_preference r) Survey.contentPreferences
              /\ plain (Row.age_group r) = true
              /\ plain (Row.usage_duration r) = true
              /\ plain (Row.recommend_telegram r) = true
              /\ Forall (fun k => plain k = true) (Row.content_preference r))
         new.
Proof.
  apply (inserted_rows_hold_options _ Store.client
           (Sample.survey (Sample.draft [js "Other"] (js "Custom X")))).
  unfold made_of_options.
  split; [right; apply (proj1 (includes_In _ _)); reflexivity|].
  split; [right; apply (proj1 (includes_In _ _)); reflexivity|].
  split; [right; apply (proj1 (includes_In _ _)); reflexivity|].
  split; [apply NoDup_computed; reflexivity|].
  split; [apply incl_computed; reflexivity|].
  split; [apply NoDup_computed; reflexivity|].
  apply incl_computed; reflexivity.
Defined.

(** X9.  The text of the "other" input reaches the store only while "Other"
    is ticked: with "Other" unticked the submitted reasons are the ticked
    ones, whatever text is left in the hidden input.  The submitted list is
    never empty when a reason is ticked, and it holds the word "Other" only
    when "Other" is ticked and the text is empty or is that very word. *)
Theorem other_text_needs_its_checkbox (f : FormData.t) :
  (~ In (js "Other") (FormData.usage_reason f) ->
   Survey.finalUsageReasons f = FormData.usage_reason f)
  /\ (FormData.usage_reason f <> [] -> Survey.finalUsageReasons f <> [])
  /\ (In (js "Other") (Survey.finalUsageReasons f) ->
      In (js "Other") (FormData.usage_reason f)
      /\ (FormData.other_usage_reason f = []
          \/ FormData.other_usage_reason f = js "Other")).
Proof.
  split; [|split].
  - intros H. unfold Survey.finalUsageReasons.
    apply includes_not_In in H. unfold Survey.Other. rewrite H. reflexivity.
  - apply finalUsageReasons_nonempty.
  - unfold Survey.finalUsageReasons.
    destruct (includes (FormData.usage_reason f) Survey.Other) eqn:Hi; simpl.
    + apply includes_In in Hi.
      destruct (FormData.other_usage_reason f) as [|u s] eqn:Ht; simpl.
      * intros _. auto.
      * intros Hin. split; [exact Hi|]. right.
        apply in_app_or in Hin. destruct Hin as [Hin|[Hin|[]]].
        -- apply filter_neq_In in Hin. destruct Hin as [_ Hin].
           exfalso. apply Hin. reflexivity.
        -- exact Hin.
    + intros Hin. apply includes_not_In in Hi. contradiction.
Qed.

Lemma other_text_needs_its_checkbox_witness :
  Survey.finalUsageReasons
    (Sample.draft [js "To chat with friends"] (js "Custom X")) =
  [js "To chat with friends"].
Proof.
  apply (proj1 (other_text_needs_its_checkbox
                  (Sample.draft [js "To chat with friends"] (js "Custom X")))).
  intros [H|[]]. discriminate.
Defined.

(** X10.  With "Other" ticked and a text typed, the submitted reasons repeat
    no reason exactly when the text is not one of the other ticked reasons:
    a text that spells a ticked option is submitted next to that option. *)
Theorem typed_reason_may_repeat_an_option (f : FormData.t) :
  NoDup (FormData.usage_reason f) ->
  In (js "Other") (FormData.usage_reason f) ->
  FormData.other_usage_reason f <> [] ->
  (NoDup (Survey.finalUsageReasons f) <->
   FormData.other_usage_reason f = js "Other"
   \/ ~ In (FormData.other_usage_reason f) (FormData.usage_reason f)).
Proof.
  intros Hnd Hin Hne.
  unfold Survey.finalUsageReasons.
  apply includes_In in Hin. apply truthy_nonempty in Hne.
  unfold Survey.Other. rewrite Hin, Hne. simpl.
  set (t := FormData.other_usage_reason f).
  set (rest := filter (fun r => negb (eqb r (js "Other")))
                 (FormData.usage_reason f)).
  assert (NoDup rest) as Hrest by (apply NoDup_filter; assumption).
  assert (In t rest <-> In t (FormData.usage_reason f) /\ t <> js "Other")
    as Ht by apply filter_neq_In.
  split.
  - intros H. apply NoDup_remove_2 in H. rewrite app_nil_r in H.
    destruct (list_eq_dec N.eq_dec t (js "Other")); [left; assumption|].
    right. tauto.
  - intros H. apply NoDup_app; [assumption | repeat constructor; intros [] |].
    intros x Hx [<-|[]]. apply Ht in Hx. tauto.
Qed.

Lemma typed_reason_may_repeat_an_option_witness :
  ~ NoDup
      (Survey.finalUsageReasons
         (Sample.draft [js "To chat with friends"; js "Other"]
            (js "To chat with friends"))).
Proof.
  intros H.
  apply (typed_reason_may_repeat_an_option
           (Sample.draft [js "To chat with friends"; js "Other"]
              (js "To chat with friends"))) in H.
  - destruct H as [H|H]; [discriminate|]. apply H. left; reflexivity.
  - apply NoDup_computed; reflexivity.
  - right; left; reflexivity.
  - discriminate.
Defined.

(** X11.  However the store answers and whatever the draft, the submit
    handler returns normally, reports exactly one notice, leaves
    [isSubmitting] false once the draft has passed the checks (and as it was
    otherwise), and leaves the draft as it was or blank. *)
Theorem submit_always_settles
    (W : Type) (supabase : Client W) (env : Env Survey.State W) :
  let f := Survey.formData (state env) in
  let result := Survey.handleSubmit supabase env in
  let after := snd result in
  fst result = Normal tt
  /\ (exists notice, toasts after = toasts env ++ [notice])
  /\ Survey.isSubmitting (state after) =
     (if Survey.missing_fields f || Survey.missing_selections f
      then Survey.isSubmitting (state env) else false)
  /\ (Survey.formData (state after) = f
      \/ Survey.formData (state after) = Survey.blank).
Proof.
  intros f result after. subst result after f.
  destruct (Survey.missing_fields _) eqn:H1.
  - rewrite handleSubmit_missing_fields by assumption. simpl.
    repeat split; eauto.
  - destruct (Survey.missing_selections _) eqn:H2.
    + rewrite handleSubmit_missing_selections by assumption. simpl.
      repeat split; eauto.
    + rewrite handleSubmit_complete by assumption. simpl.
      destruct (supabase _ _) as [reply w]. simpl.
      repeat split; eauto.
      destruct (error reply); auto.
Qed.

(** X12.  Pressing submit a second time.  After a submit that the store
    accepted the form is blank, so the second submit sends nothing and only
    reports the missing fields: no record is inserted twice.  After a submit
    that the store rejected the draft is still there, and the second submit
    sends the same row again. *)
Theorem submit_again
    (W : Type) (supabase : Client W) (env : Env Survey.State W) :
  let f := Survey.formData (state env) in
  let reply :=
    fst (supabase (Insert telegram_survey (Survey.row f)) (world env)) in
  let once := snd (Survey.handleSubmit supabase env) in
  let twice := snd (Survey.handleSubmit supabase once) in
  Survey.missing_fields f = false ->
  Survey.missing_selections f = false ->
  (error reply = None ->
   sent twice = sent env ++ [Insert telegram_survey (Survey.row f)]
   /\ world twice = world once
   /\ toasts twice =
      toasts env ++ [Survey.thank_you_toast; Survey.missing_fields_toast])
  /\ (error reply <> None ->
      sent twice =
      sent env ++
      [ Insert telegram_survey (Survey.row f);
        Insert telegram_survey (Survey.row f) ]).
Proof.
  intros f reply once twice H1 H2. subst twice once reply.
  pose proof (handleSubmit_complete _ supabase env H1 H2) as E1.
  cbv zeta in E1. fold f in E1 |- *.
  destruct (supabase (Insert telegram_survey (Survey.row f)) (world env))
    as [reply w] eqn:E.
  rewrite E1. cbn [fst snd].
  split; intros Hr.
  - rewrite Hr. rewrite handleSubmit_missing_fields by reflexivity.
    cbn [snd sent toasts world state]. rewrite <- app_assoc. auto.
  - destruct (error reply) as [e|] eqn:Ee; [|congruence].
    rewrite handleSubmit_complete by assumption.
    cbn [snd state world Survey.formData]. fold f.
    destruct (supabase (Insert telegram_survey (Survey.row f)) w).
    cbn [sent]. rewrite <- app_assoc. reflexivity.
Qed.

Lemma submit_again_witness :
  sent (snd (Survey.handleSubmit Store.client
               (snd (Survey.handleSubmit Store.client
                       (Sample.survey
                          (Sample.draft [js "Other"] (js "Custom X")))))))
  = [ Insert telegram_survey
        (Survey.row (Sample.draft [js "Other"] (js "Custom X"))) ]
  /\ sent (snd (Survey.handleSubmit Store.offline
                  (snd (Survey.handleSubmit Store.offline
                          (Sample.survey
                             (Sample.draft [js "Other"] (js "Custom X")))))))
     = [ Insert telegram_survey
           (Survey.row (Sample.draft [js "Other"] (js "Custom X")));
         Insert telegram_survey
           (Survey.row (Sample.draft [js "Other"] (js "Custom X"))) ].
Proof.
  split.
  - apply (submit_again _ Store.client
             (Sample.survey (Sample.draft [js "Other"] (js "Custom X"))));
      reflexivity.
  - apply (submit_again _ Store.offline
             (Sample.survey (Sample.draft [js "Other"] (js "Custom X"))));
      [reflexivity | reflexivity | discriminate].
Defined.

(* ================================================================== *)
(** * Optional answers, from the form to the list of responses *)
(* ================================================================== *)

Lemma or_text_or_null (s fallback : JsString) :
  Dashboard.or_text (or_null s) fallback = if truthy s then s else fallback.
Proof.
  unfold or_null. destruct (truthy s) eqn:E; simpl; [rewrite E|]; reflexivity.
Qed.

Lemma and_block_or_null (s : JsString) :
  Dashboard.and_block (or_null s) = or_null s.
Proof.
  unfold or_null. destruct (truthy s) eqn:E; simpl; [rewrite E|]; reflexivity.
Qed.

(** X13.  An optional answer on its way from the form to the dashboard.  A
    record that holds the optional answers of an inserted row is listed
    with the name and the channels as typed, or with "Anonymous" and
    "None specified" when they were left blank, and with a block of
    suggestions only when some were typed.  For any record at all, also one
    that holds an empty text, the name and the channels shown are not
    empty. *)
Theorem optional_answers_as_listed :
  (forall (f : FormData.t) (record : SurveyResponse.t),
      SurveyResponse.name record = Row.name (Survey.row f) ->
      SurveyResponse.regular_bots_or_channels record =
        Row.regular_bots_or_channels (Survey.row f) ->
      SurveyResponse.improvement_suggestions record =
        Row.improvement_suggestions (Survey.row f) ->
      Dashboard.shown_name (Dashboard.card record) =
        (if truthy (FormData.name f) then FormData.name f
         else js "Anonymous")
      /\ Dashboard.shown_bots (Dashboard.card record) =
           (if truthy (FormData.regular_bots_or_channels f)
            then FormData.regular_bots_or_channels f
            else js "None specified")
      /\ Dashboard.shown_suggestions (Dashboard.card record) =
           (if truthy (FormData.improvement_suggestions f)
            then Some (FormData.improvement_suggestions f)
            else None))
  /\ (forall record : SurveyResponse.t,
         Dashboard.shown_name (Dashboard.card record) <> []
         /\ Dashboard.shown_bots (Dashboard.card record) <> []
         /\ Dashboard.shown_suggestions (Dashboard.card record) <> Some []).
Proof.
  split.
  - intros f record Hn Hb Hs. unfold Dashboard.card; simpl.
    rewrite Hn, Hb, Hs. simpl.
    rewrite !or_text_or_null, and_block_or_null. auto.
  - intros record. unfold Dashboard.card; simpl.
    unfold Dashboard.or_text, Dashboard.and_block.
    destruct (SurveyResponse.name record) as [[|? ?]|],
      (SurveyResponse.regular_bots_or_channels record) as [[|? ?]|],
      (SurveyResponse.improvement_suggestions record) as [[|? ?]|];
      simpl; repeat split; discriminate.
Qed.

Lemma optional_answers_as_listed_witness :
  Dashboard.shown_name
    (Dashboard.card
       (Store.stored (Sample.store 3)
          (Survey.row (Sample.draft [js "Other"] (js "Custom X"))))) =
  js "Anonymous".
Proof.
  apply (proj1 optional_answers_as_listed
           (Sample.draft [js "Other"] (js "Custom X"))
           (Store.stored (Sample.store 3)
              (Survey.row (Sample.draft [js "Other"] (js "Custom X")))));
    reflexivity.
Defined.

(* ================================================================== *)
(** * What the dashboard shows after a fetch *)
(* ================================================================== *)

Lemma totalPages_zero (s : Dashboard.State) :
  Dashboard.totalResponses s = 0%Z -> Dashboard.totalPages s = 0%Z.
Proof. intros H. rewrite totalPages_div, H. reflexivity. Qed.

Lemma no_pages_no_bar (s : Dashboard.State) :
  (Dashboard.totalPages s <= 1)%Z ->
  Dashboard.pagination s = [] /\ Dashboard.controls s = [].
Proof.
  intros H. unfold Dashboard.pagination, Dashboard.controls.
  destruct (Z.ltb_spec 1 (Dashboard.totalPages s)); [lia|].
  destruct (_ =? _)%nat; split; reflexivity.
Qed.

(** X14.  A count reply without a count, as the store gives when the count
    query fails, is taken for a count of zero: the total on display is 0 and
    the pagination bar is gone, whatever the page query returns.  The
    failure itself is not looked at: when the page query succeeds no notice
    is reported and its records are put on display. *)
Theorem missing_count_reads_as_zero
    (W : Type) (supabase : Client W) (env : Env Dashboard.State W) :
  let p := Dashboard.currentPage (state env) in
  let first := supabase (SelectCount telegram_survey) (world env) in
  let selected := fst (supabase (Dashboard.page_query p) (snd first)) in
  let after := snd (Dashboard.fetchResponses supabase env) in
  count (fst first) = None ->
  Dashboard.totalResponses (state after) = 0%Z
  /\ Dashboard.pagination (state after) = []
  /\ Dashboard.controls (state after) = []
  /\ (error selected = None ->
      toasts after = toasts env
      /\ Dashboard.responses (state after) =
         Dashboard.or_empty (data selected)).
Proof.
  intros p first selected after Hc. subst after selected first.
  rewrite fetchResponses_run. fold p.
  destruct (supabase (SelectCount telegram_survey) (world env))
    as [counted w1]. cbn [fst snd] in *.
  destruct (supabase (Dashboard.page_query p) w1) as [selected w2].
  cbn [fst snd state toasts Dashboard.totalResponses Dashboard.responses].
  rewrite Hc. cbn [Dashboard.or_zero].
  split; [reflexivity|].
  match goal with
  | |- Dashboard.pagination ?s = [] /\ _ =>
      destruct (no_pages_no_bar s) as [Hp Hk];
        [rewrite totalPages_zero by reflexivity; lia|]
  end.
  split; [exact Hp|]. split; [exact Hk|].
  intros ->. split; reflexivity.
Qed.

Lemma missing_count_reads_as_zero_witness :
  Dashboard.totalResponses
    (state (snd (Dashboard.fetchResponses Store.pages_only
                   (Sample.dashboard 2 25 25)))) = 0%Z
  /\ Dashboard.controls
       (state (snd (Dashboard.fetchResponses Store.pages_only
                      (Sample.dashboard 2 25 25)))) = []
  /\ length
       (Dashboard.responses
          (state (snd (Dashboard.fetchResponses Store.pages_only
                         (Sample.dashboard 2 25 25))))) = 10%nat.
Proof.
  destruct (missing_count_reads_as_zero _ Store.pages_only
              (Sample.dashboard 2 25 25)) as (Ht & _ & Hk & Hr).
  - reflexivity.
  - destruct Hr as [_ Hr]; [reflexivity|].
    split; [exact Ht|]. split; [exact Hk|]. rewrite Hr. reflexivity.
Defined.

Lemma submitted_cells_length (format : JsString -> option JsString)
    (shown : list SurveyResponse.t) (dates : list JsString) :
  Dashboard.submitted_cells format shown = Some dates ->
  length dates = length shown.
Proof.
  revert dates. induction shown as [|r shown IH]; simpl; intros dates H.
  - inversion H; reflexivity.
  - destruct (format (SurveyResponse.submitted_at r)) as [date|];
      [|discriminate].
    destruct (Dashboard.submitted_cells format shown) as [ds|];
      [|discriminate].
    inversion H; subst. simpl. f_equal. apply IH. reflexivity.
Qed.

(** The list can be rendered when every record on display has a time that
    reads as a date, and only then. *)
Lemma submitted_cells_throw (format : JsString -> option JsString)
    (shown : list SurveyResponse.t) :
  Dashboard.submitted_cells format shown = None <->
  Exists (fun r => format (SurveyResponse.submitted_at r) = None) shown.
Proof.
  induction shown as [|r shown IH]; simpl.
  - split; [discriminate | intros H; inversion H].
  - destruct (format (SurveyResponse.submitted_at r)) as [date|] eqn:E.
    + destruct (Dashboard.submitted_cells format shown) as [ds|].
      * split; [discriminate|]. intros H. inversion H; subst.
        -- congruence.
        -- apply IH in H1. discriminate.
      * split; [|reflexivity]. intros _. right. apply IH. reflexivity.
    + split; [|reflexivity]. intros _. left. exact E.
Qed.

Lemma submitted_cells_all (format : JsString -> option JsString)
    (shown : list SurveyResponse.t) :
  Forall (fun r => format (SurveyResponse.submitted_at r) <> None) shown ->
  exists dates,
    Dashboard.submitted_cells format shown = Some dates
    /\ map Some dates =
       map (fun r => format (SurveyResponse.submitted_at r)) shown.
Proof.
  induction 1 as [|r shown Hr _ (dates & Hd & Hm)]; simpl.
  - exists []. split; reflexivity.
  - destruct (format (SurveyResponse.submitted_at r)) as [date|];
      [|congruence].
    rewrite Hd. exists (date :: dates). split; [reflexivity|].
    simpl. f_equal. exact Hm.
Qed.

(** X15.  The first view, [format] being what [date-fns] makes of a text
    read as a date, or nothing when the text is no date and [format] throws.
    Before the first fetch has ended the component shows the loading screen;
    at the end of a fetch, whatever the state it started in, it does not.
    When the page query of the first fetch fails or returns no record, the
    view is the card "No Survey Responses Yet", with an error notice in the
    first case and none in the second.  When it returns records, rendering
    throws if the time of one of them is no date; otherwise the view is the
    report over the records returned, with one card and one date for each. *)
Theorem first_view (format : JsString -> option JsString)
    (W : Type) (supabase : Client W) (w : W) :
  let first := supabase (SelectCount telegram_survey) w in
  let selected := fst (supabase (Dashboard.page_query 1) (snd first)) in
  let total := Dashboard.or_zero (count (fst first)) in
  let shown := Dashboard.mounted supabase w in
  (forall n,
      Dashboard.render format (Dashboard.setTotalResponses n Dashboard.initial)
      = Some Dashboard.LoadingScreen)
  /\ (forall env,
         Dashboard.render format
           (state (snd (Dashboard.fetchResponses supabase env)))
         <> Some Dashboard.LoadingScreen)
  /\ (error selected <> None ->
      Dashboard.render format (state shown)
      = Some (Dashboard.NoResponsesYet total)
      /\ toasts shown = [Dashboard.error_loading_toast])
  /\ (error selected = None ->
      toasts shown = []
      /\ (Dashboard.or_empty (data selected) = [] ->
          Dashboard.render format (state shown)
          = Some (Dashboard.NoResponsesYet total))
      /\ (Dashboard.or_empty (data selected) <> [] ->
          (Exists (fun r => format (SurveyResponse.submitted_at r) = None)
             (Dashboard.or_empty (data selected)) ->
           Dashboard.render format (state shown) = None)
          /\ (Forall (fun r => format (SurveyResponse.submitted_at r) <> None)
                (Dashboard.or_empty (data selected)) ->
              exists report,
                Dashboard.render format (state shown)
                = Some (Dashboard.Results total report)
                /\ Dashboard.cards report =
                   map Dashboard.card (Dashboard.or_empty (data selected))
                /\ map Some (Dashboard.submitted report) =
                   map (fun r => format (SurveyResponse.submitted_at r))
                     (Dashboard.or_empty (data selected))))).
Proof.
  intros first selected total shown.
  subst shown total selected first. unfold Dashboard.mounted.
  split; [intros n; reflexivity|].
  split.
  { intros env. rewrite fetchResponses_run.
    destruct (supabase (SelectCount telegram_survey) (world env))
      as [counted w1]. cbn [fst snd].
    destruct (supabase (Dashboard.page_query _) w1) as [selected w2].
    cbn [fst snd state]. unfold Dashboard.render.
    cbn [Dashboard.loading andb].
    destruct (length _ =? 0)%nat; [discriminate|].
    destruct (Dashboard.submitted_cells format _); discriminate. }
  rewrite fetchResponses_run.
  cbn [state toasts world sent Dashboard.currentPage Dashboard.initial
       Dashboard.responses].
  destruct (supabase (SelectCount telegram_survey) w) as [counted w1].
  cbn [fst snd].
  destruct (supabase (Dashboard.page_query 1) w1) as [selected w2].
  cbn [fst snd state toasts].
  unfold Dashboard.render.
  cbn [Dashboard.loading Dashboard.responses Dashboard.totalResponses andb].
  destruct (error selected) as [e|].
  - split; [intros _; split; reflexivity | intros; congruence].
  - split; [intros; congruence|]. intros _. split; [reflexivity|].
    destruct (Dashboard.or_empty (data selected)) as [|r rs] eqn:Erows;
      split; intros H; try congruence; try reflexivity.
    cbn [length Nat.eqb]. split.
    + intros Hx. apply submitted_cells_throw in Hx. rewrite Hx. reflexivity.
    + intros Hall.
      destruct (submitted_cells_all format (r :: rs) Hall)
        as (dates & -> & Hdates).
      eexists. split; [reflexivity|]. split; [reflexivity | exact Hdates].
Qed.

Lemma first_view_witness :
  Dashboard.render Sample.shown_date
    (state (Dashboard.mounted Store.offline (Sample.store 3)))
  = Some (Dashboard.NoResponsesYet 0)
  /\ Dashboard.render Sample.shown_date
       (state (Dashboard.mounted Store.client (Sample.store 0)))
     = Some (Dashboard.NoResponsesYet 0)
  /\ Dashboard.render Sample.shown_date
       (state (Dashboard.mounted Store.client (Sample.store 3)))
     = None
  /\ exists report,
       Dashboard.render Sample.shown_date
         (state (Dashboard.mounted Store.client Sample.dated))
       = Some (Dashboard.Results 2 report)
       /\ Dashboard.cards report =
          map Dashboard.card (Store.rows Sample.dated)
       /\ Dashboard.submitted report =
          [js "2025-06-02T09:30:00Z"; js "2025-06-01T18:05:00Z"].
Proof.
  destruct (first_view Sample.shown_date _ Store.offline (Sample.store 3))
    as (_ & _ & Hfail & _).
  destruct (first_view Sample.shown_date _ Store.client (Sample.store 0))
    as (_ & _ & _ & Hnone).
  destruct (first_view Sample.shown_date _ Store.client (Sample.store 3))
    as (_ & _ & _ & Hthrows).
  destruct (first_view Sample.shown_date _ Store.client Sample.dated)
    as (_ & _ & _ & Hsome).
  split; [apply Hfail; discriminate|].
  split; [apply Hnone; reflexivity|].
  split.
  - apply Hthrows; [reflexivity | discriminate|].
    left. reflexivity.
  - destruct Hsome as (_ & _ & Hsome); [reflexivity|].
    destruct Hsome as (_ & Hsome); [discriminate|].
    destruct Hsome as (report & Hr & Hc & Hd).
    + repeat (apply Forall_cons; [discriminate|]). apply Forall_nil.
    + exists report. split; [exact Hr|]. split; [exact Hc|].
      apply (f_equal (map (fun o => match o with Some t => t | None => [] end)))
        in Hd.
      rewrite map_map, map_id in Hd. exact Hd.
Defined.

(* ================================================================== *)
(** * The links of the pagination bar *)
(* ================================================================== *)

(** X16.  The page links and the table.  No link leads to an empty page:
    the first offset of every linked page lies within the table.  Every
    page asks for ten offsets, and every offset of the table belongs to the
    range of exactly one linked page. *)
Theorem links_cover_the_table (s : Dashboard.State) :
  (forall p,
      In p (Dashboard.page_numbers s) ->
      (0 <= Dashboard.range_from p < Dashboard.totalResponses s)%Z
      /\ Dashboard.range_to p = (Dashboard.range_from p + 9)%Z)
  /\ (forall i,
         (0 <= i < Dashboard.totalResponses s)%Z ->
         exists p,
           In p (Dashboard.page_numbers s)
           /\ (Dashboard.range_from p <= i <= Dashboard.range_to p)%Z
           /\ forall q,
                In q (Dashboard.page_numbers s) ->
                (Dashboard.range_from q <= i <= Dashboard.range_to q)%Z ->
                q = p).
Proof.
  pose proof (totalPages_ceiling s) as [Hup Hlow].
  unfold Dashboard.range_from, Dashboard.range_to, Dashboard.responsesPerPage.
  split.
  - intros p Hp. apply page_numbers_range in Hp. lia.
  - intros i Hi. exists (i / 10 + 1)%Z.
    pose proof (Z.div_mod i 10 ltac:(lia)).
    pose proof (Z.mod_pos_bound i 10 ltac:(lia)).
    split; [|split].
    + apply page_numbers_range. lia.
    + lia.
    + intros q _ Hq. lia.
Qed.

Lemma links_cover_the_table_witness :
  exists p,
    In p (Dashboard.page_numbers (Sample.showing 1 25))
    /\ (Dashboard.range_from p <= 24 <= Dashboard.range_to p)%Z
    /\ forall q,
         In q (Dashboard.page_numbers (Sample.showing 1 25)) ->
         (Dashboard.range_from q <= 24 <= Dashboard.range_to q)%Z ->
         q = p.
Proof.
  apply (proj2 (links_cover_the_table (Sample.showing 1 25)) 24%Z).
  simpl. lia.
Defined.

Lemma pagination_items (s : Dashboard.State) (i : Dashboard.Item) :
  In i (Dashboard.pagination s) ->
  (1 < Dashboard.totalPages s)%Z
  /\ (i = Dashboard.PreviousItem (Dashboard.currentPage s =? 1)%Z
      \/ (exists p,
             (1 <= p <= Dashboard.totalPages s)%Z
             /\ i = Dashboard.LinkItem p (Dashboard.currentPage s =? p)%Z)
      \/ i = Dashboard.NextItem
               (Dashboard.currentPage s =? Dashboard.totalPages s)%Z).
Proof.
  unfold Dashboard.pagination.
  destruct (Z.ltb_spec 1 (Dashboard.totalPages s)) as [Hlt|Hge]; [|intros []].
  intros H. split; [assumption|].
  destruct H as [<-|H]; [left; reflexivity|].
  apply in_app_or in H. destruct H as [H|[<-|[]]]; [|right; right; reflexivity].
  apply in_map_iff in H. destruct H as [p [<- Hp]].
  right; left. exists p. split; [|reflexivity].
  apply page_numbers_range; assumption.
Qed.

Lemma filter_absent (l : list Z) (x : Z) :
  ~ In x l -> filter (Z.eqb x) l = [].
Proof.
  induction l as [|a l IH]; simpl; [reflexivity|].
  intros H. destruct (Z.eqb_spec x a) as [->|_]; [tauto|]. apply IH. tauto.
Qed.

Lemma filter_single (l : list Z) (x : Z) :
  NoDup l -> In x l -> filter (Z.eqb x) l = [x].
Proof.
  induction 1 as [|a l Ha Hl IH]; simpl; [tauto|].
  intros [->|Hx].
  - rewrite Z.eqb_refl. f_equal. apply filter_absent; assumption.
  - destruct (Z.eqb_spec x a) as [->|_]; [contradiction|]. apply IH; assumption.
Qed.

Lemma NoDup_map_injective (A B : Type) (g : A -> B) (l : list A) :
  (forall a b, g a = g b -> a = b) -> NoDup l -> NoDup (map g l).
Proof.
  intros Hg. induction 1 as [|a l Ha Hl IH]; simpl; constructor; [|exact IH].
  intros H. apply in_map_iff in H. destruct H as [b [E Hb]].
  apply Hg in E. subst. contradiction.
Qed.

Lemma page_numbers_NoDup (s : Dashboard.State) :
  NoDup (Dashboard.page_numbers s).
Proof.
  unfold Dashboard.page_numbers.
  apply NoDup_map_injective; [|apply seq_NoDup].
  intros a b. lia.
Qed.

(** X17.  An item of the pagination bar that is shown as out of use
    ("Previous" on page 1, "Next" on the last page) or as the current page
    does nothing when clicked: no state changes and no query is sent.  Every
    other item changes the page index and fetches that page.  With the page
    index within range, exactly one link is shown as the current page. *)
Theorem idle_items_do_nothing
    (W : Type) (supabase : Client W) (env : Env Dashboard.State W)
    (i : Dashboard.Item) :
  let s := state env in
  let c := Dashboard.item_click i in
  let target := Dashboard.currentPage (Dashboard.onClick c s) in
  In i (Dashboard.pagination s) ->
  (Dashboard.dimmed_item i || Dashboard.active_item i = true ->
   Dashboard.click supabase c env = (Normal tt, env))
  /\ (Dashboard.dimmed_item i || Dashboard.active_item i = false ->
      target <> Dashboard.currentPage s
      /\ sent (snd (Dashboard.click supabase c env)) =
         sent env ++ [SelectCount telegram_survey; Dashboard.page_query target])
  /\ ((1 <= Dashboard.currentPage s <= Dashboard.totalPages s)%Z ->
      filter Dashboard.active_item (Dashboard.pagination s) =
      [Dashboard.LinkItem (Dashboard.currentPage s) true]).
Proof.
  intros s c target Hi.
  destruct (pagination_items _ _ Hi) as [Htp Hshape].
  assert (Dashboard.dimmed_item i || Dashboard.active_item i = true
          <-> target = Dashboard.currentPage s) as Hidle.
  { subst target c.
    destruct Hshape as [ -> | [ (p & Hp & ->) | -> ] ]; simpl;
      rewrite ?orb_false_r, Z.eqb_eq; lia. }
  pose proof (click_run _ supabase env c) as Hrun. simpl in Hrun.
  fold s in Hrun. fold target in Hrun.
  split; [|split].
  - intros H. apply Hidle in H. rewrite Hrun.
    rewrite (proj2 (Z.eqb_eq _ _) (eq_sym H)).
    rewrite onClick_same_page by exact H.
    subst s. destruct env; reflexivity.
  - intros H.
    assert (target <> Dashboard.currentPage s) as Hne.
    { intros E. apply Hidle in E. congruence. }
    split; [exact Hne|]. rewrite Hrun.
    destruct (Z.eqb_spec (Dashboard.currentPage s) target) as [E|_];
      [congruence|].
    rewrite fetchResponses_run. cbn [state world sent]. fold target.
    destruct (supabase _ _) as [counted w1].
    destruct (supabase _ _) as [selected w2]. reflexivity.
  - intros Hp. unfold Dashboard.pagination.
    destruct (Z.ltb_spec 1 (Dashboard.totalPages s)); [|lia].
    simpl. rewrite filter_app. simpl. rewrite app_nil_r.
    assert (forall l,
               filter Dashboard.active_item
                 (map (fun page =>
                         Dashboard.LinkItem page
                           (Dashboard.currentPage s =? page)%Z) l) =
               map (fun page => Dashboard.LinkItem page true)
                 (filter (Z.eqb (Dashboard.currentPage s)) l)) as Hf.
    { induction l as [|a l IH]; simpl; [reflexivity|].
      destruct (Dashboard.currentPage s =? a)%Z; simpl; rewrite IH;
        reflexivity. }
    rewrite Hf, filter_single;
      [reflexivity | apply page_numbers_NoDup | apply page_numbers_range, Hp].
Qed.

Lemma idle_items_do_nothing_witness :
  Dashboard.click Store.client Dashboard.Previous (Sample.dashboard 1 25 25)
    = (Normal tt, Sample.dashboard 1 25 25)
  /\ sent (snd (Dashboard.click Store.client (Dashboard.Link 3)
                  (Sample.dashboard 1 25 25))) =
     [SelectCount telegram_survey; Dashboard.page_query 3]
  /\ filter Dashboard.active_item
       (Dashboard.pagination (Sample.showing 2 25)) =
     [Dashboard.LinkItem 2 true].
Proof.
  split; [|split].
  - apply (idle_items_do_nothing _ Store.client (Sample.dashboard 1 25 25)
             (Dashboard.PreviousItem true)); [left|]; reflexivity.
  - apply (idle_items_do_nothing _ Store.client (Sample.dashboard 1 25 25)
             (Dashboard.LinkItem 3 false)).
    + right. right. right. left. reflexivity.
    + reflexivity.
  - apply (idle_items_do_nothing _ Store.client (Sample.dashboard 2 25 25)
             (Dashboard.PreviousItem false)).
    + left. reflexivity.
    + vm_compute. split; discriminate.
Defined.

(* ================================================================== *)
(** * Browsing a table that stays as it is *)
(* ================================================================== *)

Lemma store_count (w : Store.t) :
  Store.client (SelectCount telegram_survey) w =
  ({| data := None; error := None;
      count := Some (Z.of_nat (length (Store.rows w))) |}, w).
Proof. reflexivity. Qed.

Lemma store_page (p : Z) (w : Store.t) :
  Store.client (Dashboard.page_query p) w =
  ({| data := Some (Store.slice (Dashboard.range_from p)
                      (Dashboard.range_to p) (Store.rows w));
      error := None; count := None |}, w).
Proof. reflexivity. Qed.

Lemma or_zero_length (n : nat) :
  Dashboard.or_zero (Some (Z.of_nat n)) = Z.of_nat n.
Proof.
  unfold Dashboard.or_zero. destruct (Z.eqb_spec (Z.of_nat n) 0); lia.
Qed.

Lemma slice_nonempty (p : Z) (l : list SurveyResponse.t) :
  (0 <= Dashboard.range_from p < Z.of_nat (length l))%Z ->
  Store.slice (Dashboard.range_from p) (Dashboard.range_to p) l <> [].
Proof.
  intros H E. apply (f_equal (@length _)) in E.
  unfold Store.slice in E. rewrite length_firstn, length_skipn in E.
  unfold Dashboard.range_from, Dashboard.range_to,
    Dashboard.responsesPerPage in *.
  simpl in E. lia.
Qed.

(** ** Clicks and replies in any order *)

Lemma on_screen_In (c : Dashboard.Click) (s : Dashboard.State) :
  Dashboard.on_screen c s = true -> In c (Dashboard.controls s).
Proof.
  unfold Dashboard.on_screen. rewrite existsb_exists.
  intros [c' [Hin E]].
  destruct c, c'; try discriminate; try assumption.
  simpl in E. apply Z.eqb_eq in E. subst. assumption.
Qed.

Lemma controls_need_records (s : Dashboard.State) (c : Dashboard.Click) :
  In c (Dashboard.controls s) -> Dashboard.responses s <> [].
Proof.
  unfold Dashboard.controls. intros H E. rewrite E in H. exact H.
Qed.

Lemma nth_error_replaced (A : Type) (P : A -> Prop) (l : list A) (i : nat)
    (mid : list A) :
  Forall P l -> Forall P mid ->
  Forall P (firstn i l ++ mid ++ skipn (S i) l).
Proof.
  intros Hl Hm.
  pose proof Hl as Hl1. rewrite <- (firstn_skipn i l) in Hl1.
  pose proof Hl as Hl2. rewrite <- (firstn_skipn (S i) l) in Hl2.
  apply Forall_app in Hl1, Hl2.
  apply Forall_app. split; [apply Hl1|].
  apply Forall_app. split; [exact Hm | apply Hl2].
Qed.

Lemma nth_error_one (A : Type) (c x : A) (i : nat) :
  nth_error [c] i = Some x -> i = 0%nat /\ x = c.
Proof.
  destruct i as [|i]; simpl.
  - intros H; inversion H; auto.
  - destruct i; discriminate.
Qed.

Lemma pages_of_total (w : Store.t) (s : Dashboard.State) :
  Dashboard.totalResponses s = Z.of_nat (length (Store.rows w)) ->
  Dashboard.totalPages s = pages w.
Proof. intros H. rewrite totalPages_div, H. reflexivity. Qed.

Lemma pages_ceiling (w : Store.t) :
  is_ceiling (Z.of_nat (length (Store.rows w))) 10 (pages w).
Proof.
  unfold is_ceiling, pages.
  pose proof (Z.div_mod (- Z.of_nat (length (Store.rows w))) 10 ltac:(lia)).
  pose proof (Z.mod_pos_bound (- Z.of_nat (length (Store.rows w))) 10
                ltac:(lia)).
  lia.
Qed.

Lemma page_rows_nonempty (w : Store.t) (q : Z) :
  (1 <= q <= pages w)%Z -> page_rows w q <> [].
Proof.
  intros H. apply slice_nonempty.
  pose proof (pages_ceiling w) as [_ Hlow].
  unfold Dashboard.range_from, Dashboard.responsesPerPage. lia.
Qed.

Lemma first_page_rows (w : Store.t) :
  page_rows w 1 = [] \/ (1 <= 1 <= pages w)%Z.
Proof.
  destruct (Store.rows w) as [|r rows] eqn:E.
  - left. unfold page_rows. rewrite E. reflexivity.
  - right. pose proof (pages_ceiling w) as [Hup _]. rewrite E in Hup.
    simpl length in Hup. lia.
Qed.

Lemma client_reads (w : Store.t) (c : Dashboard.Call) :
  snd (Store.client (Dashboard.awaited_query c) w) = w.
Proof.
  unfold Dashboard.awaited_query. destruct (Dashboard.awaited c); reflexivity.
Qed.

Lemma browsing_launched (w : Store.t) :
  browsing w (Dashboard.launched w) /\ in_turn w (Dashboard.launched w).
Proof.
  split.
  - unfold browsing. cbn.
    split; [reflexivity|]. split; [reflexivity|].
    split; [repeat constructor|].
    split; [repeat constructor; intros r H; discriminate|].
    split; [left; reflexivity|].
    split; [|discriminate].
    right. repeat split; try discriminate. repeat constructor.
  - right. eexists. split; reflexivity.
Qed.

(** One event keeps what holds of browsing. *)
Lemma browsing_fire (w : Store.t) (e : Dashboard.Event)
    (l l' : Dashboard.Live Store.t) :
  Dashboard.fire Store.client e l = Some l' ->
  browsing w l -> browsing w l'.
Proof.
  intros Hf (Hw & Hts & Hs & Hc & Hp & Hd & Hl).
  destruct e as [c|i|i]; cbn [Dashboard.fire] in Hf.
  - (* a click *)
    destruct (Dashboard.on_screen c (state (Dashboard.live l))) eqn:Hon;
      [|discriminate].
    apply on_screen_In in Hon.
    pose proof (controls_need_records _ _ Hon) as Hne.
    destruct (controls_shown _ _ Hon) as [Htp Hlink].
    destruct Hd as [(Ht & Hr)|(_ & Hr & _)]; [|contradiction].
    rewrite (pages_of_total w _ Ht) in *.
    set (target := Dashboard.currentPage
                     (Dashboard.onClick c (state (Dashboard.live l)))) in *.
    assert (1 <= target <= pages w)%Z as Htarget.
    { subst target. destruct c; simpl.
      - lia.
      - exact Hlink.
      - rewrite (pages_of_total w _ Ht). lia. }
    assert (Dashboard.totalResponses
              (Dashboard.onClick c (state (Dashboard.live l))) =
            Dashboard.totalResponses (state (Dashboard.live l))
            /\ Dashboard.responses
                 (Dashboard.onClick c (state (Dashboard.live l))) =
               Dashboard.responses (state (Dashboard.live l))
            /\ Dashboard.loading
                 (Dashboard.onClick c (state (Dashboard.live l))) =
               Dashboard.loading (state (Dashboard.live l)))
      as (Et & Er & El) by (destruct c; repeat split; reflexivity).
    cbn [Dashboard.live state update snd] in Hf.
    fold target in Hf.
    destruct (Z.eqb_spec (Dashboard.currentPage (state (Dashboard.live l)))
                target) as [E|E]; inversion Hf; subst l'; clear Hf;
      unfold browsing;
      cbn [Dashboard.live Dashboard.in_progress Dashboard.start
           Dashboard.send state toasts sent world update snd
           Dashboard.setLoading Dashboard.totalResponses Dashboard.responses
           Dashboard.currentPage Dashboard.loading];
      fold target; rewrite ?Et, ?Er, ?El;
      refine (conj Hw (conj Hts (conj _ (conj _ (conj _ (conj _ _)))))).
    + exact Hs.
    + exact Hc.
    + right. exact Htarget.
    + left. split; assumption.
    + exact Hl.
    + apply Forall_app. split; [assumption | repeat constructor].
    + apply Forall_app. split; [assumption|].
      constructor; [|constructor]. split; [right; exact Htarget|].
      intros r H. discriminate.
    + right. exact Htarget.
    + left. split; assumption.
    + intros H. apply app_eq_nil in H. destruct H; discriminate.
  - (* the service answers *)
    destruct (nth_error (Dashboard.in_progress l) i) as [c|] eqn:Hn;
      [|discriminate].
    destruct (Dashboard.reply c) eqn:Hr; [discriminate|].
    unfold Dashboard.answer in Hf. rewrite Hw in Hf.
    pose proof (client_reads w c) as Hsame.
    destruct (Store.client (Dashboard.awaited_query c) w) as [r w'] eqn:Hq.
    cbn [snd] in Hsame. subst w'.
    inversion Hf; subst l'; clear Hf.
    pose proof (nth_error_In _ _ Hn) as Hin.
    assert (fitting_call w c) as [Hcp _]
        by (rewrite Forall_forall in Hc; apply Hc; exact Hin).
    unfold browsing.
    cbn [Dashboard.live Dashboard.in_progress state toasts sent world].
    refine (conj eq_refl (conj Hts (conj Hs (conj _ (conj Hp (conj _ _)))))).
    + apply (nth_error_replaced _ _ _ _ [_] Hc).
      constructor; [|constructor]. split; [exact Hcp|].
      cbn [Dashboard.reply]. intros r' H. inversion H; subst.
      unfold Dashboard.awaited_query in *.
      cbn [Dashboard.awaited Dashboard.closure_page]. rewrite Hq. reflexivity.
    + destruct Hd as [Hd|(Ht & Hrs & Hp1 & Hne & Hall)]; [left; exact Hd|].
      right. split; [exact Ht|]. split; [exact Hrs|]. split; [exact Hp1|].
      split.
      * intros H. apply app_eq_nil in H. destruct H; discriminate.
      * apply (nth_error_replaced _ _ _ _ [_] Hall).
        constructor; [|constructor]. cbn [Dashboard.awaited].
        rewrite Forall_forall in Hall. apply Hall. exact Hin.
    + intros H. apply app_eq_nil in H. destruct H; discriminate.
  - (* a call receives its reply *)
    destruct (nth_error (Dashboard.in_progress l) i) as [c|] eqn:Hn;
      [|discriminate].
    destruct (Dashboard.reply c) as [r|] eqn:Hr; [|discriminate].
    pose proof (nth_error_In _ _ Hn) as Hin.
    assert (fitting_call w c) as [Hcp Hrep]
        by (rewrite Forall_forall in Hc; apply Hc; exact Hin).
    specialize (Hrep r Hr).
    unfold Dashboard.resume, Dashboard.awaited_query in *.
    destruct (Dashboard.awaited c) eqn:Ha.
    + (* the count *)
      rewrite store_count in Hrep. cbn [fst] in Hrep. subst r.
      cbn [count] in Hf. rewrite or_zero_length in Hf.
      inversion Hf; subst l'; clear Hf.
      unfold browsing.
      cbn [Dashboard.live Dashboard.in_progress Dashboard.send state toasts
           sent world update snd Dashboard.setTotalResponses
           Dashboard.totalResponses Dashboard.responses
           Dashboard.currentPage Dashboard.loading].
      refine (conj Hw (conj Hts (conj _ (conj _ (conj Hp (conj _ _)))))).
      * apply Forall_app. split; [assumption | repeat constructor].
      * apply (nth_error_replaced _ _ _ _ [_] Hc).
        constructor; [|constructor]. split; [exact Hcp|].
        intros r H. discriminate.
      * left. split; [reflexivity|].
        destruct Hd as [(_ & Hd)|(_ & Hrs & _)]; [exact Hd | left; exact Hrs].
      * intros H. apply app_eq_nil in H. destruct H; discriminate.
    + (* the page *)
      rewrite store_page in Hrep. cbn [fst] in Hrep. subst r.
      cbn [error data Dashboard.or_empty] in Hf.
      inversion Hf; subst l'; clear Hf.
      destruct Hd as [(Ht & _)|(_ & _ & _ & _ & Hall)].
      2:{ rewrite Forall_forall in Hall. rewrite (Hall c Hin) in Ha.
          discriminate. }
      unfold browsing.
      cbn [Dashboard.live Dashboard.in_progress state toasts sent world
           update snd Dashboard.setResponses Dashboard.setLoading
           Dashboard.totalResponses Dashboard.responses
           Dashboard.currentPage Dashboard.loading].
      refine (conj Hw (conj Hts (conj Hs (conj _ (conj Hp (conj _ _)))))).
      * apply (nth_error_replaced _ _ _ _ [] Hc). constructor.
      * left. split; [exact Ht|].
        fold (page_rows w (Dashboard.closure_page c)).
        destruct Hcp as [->|Hcp].
        -- destruct (first_page_rows w) as [E|E]; [left; exact E|].
           right. exists 1%Z. split; [exact E | reflexivity].
        -- right. exists (Dashboard.closure_page c).
           split; [exact Hcp | reflexivity].
      * intros _. reflexivity.
Qed.

(** When no click is made while a call is in progress, one event keeps the
    page on display in step with the page index. *)
Lemma in_turn_fire (w : Store.t) (e : Dashboard.Event)
    (l l' : Dashboard.Live Store.t) :
  Dashboard.fire Store.client e l = Some l' ->
  match e with
  | Dashboard.Clicks _ => Dashboard.in_progress l = []
  | _ => True
  end ->
  browsing w l -> in_turn w l -> in_turn w l'.
Proof.
  intros Hf Hwait (Hw & _ & _ & Hc & _) Hj.
  destruct e as [c|i|i]; cbn [Dashboard.fire] in Hf.
  - destruct (Dashboard.on_screen c (state (Dashboard.live l)));
      [|discriminate].
    destruct Hj as [(_ & Hrows)|(c0 & Hone & _)]; [|congruence].
    cbn [Dashboard.live state update snd] in Hf.
    destruct (Z.eqb_spec
                (Dashboard.currentPage (state (Dashboard.live l)))
                (Dashboard.currentPage
                   (Dashboard.onClick c (state (Dashboard.live l)))))
      as [E|E]; inversion Hf; subst l'; clear Hf.
    + left. cbn [Dashboard.live Dashboard.in_progress state].
      rewrite onClick_same_page by congruence. split; assumption.
    + right. unfold Dashboard.start.
      cbn [Dashboard.live Dashboard.in_progress state update snd
           Dashboard.send]. rewrite Hwait.
      eexists. split; reflexivity.
  - destruct (nth_error (Dashboard.in_progress l) i) as [c|] eqn:Hn;
      [|discriminate].
    destruct (Dashboard.reply c) eqn:Hr; [discriminate|].
    unfold Dashboard.answer in Hf.
    destruct (Store.client (Dashboard.awaited_query c)
                (world (Dashboard.live l))) as [r w'].
    inversion Hf; subst l'; clear Hf.
    destruct Hj as [(Hnone & _)|(c0 & Hone & Hpage)].
    + rewrite Hnone in Hn. destruct i; discriminate.
    + rewrite Hone in Hn. apply nth_error_one in Hn.
      destruct Hn as [-> ->].
      right. cbn [Dashboard.live Dashboard.in_progress state].
      rewrite Hone. eexists. split; [reflexivity | exact Hpage].
  - destruct (nth_error (Dashboard.in_progress l) i) as [c|] eqn:Hn;
      [|discriminate].
    destruct (Dashboard.reply c) as [r|] eqn:Hr; [|discriminate].
    pose proof (nth_error_In _ _ Hn) as Hin.
    assert (fitting_call w c) as [_ Hrep]
        by (rewrite Forall_forall in Hc; apply Hc; exact Hin).
    specialize (Hrep r Hr).
    destruct Hj as [(Hnone & _)|(c0 & Hone & Hpage)].
    { rewrite Hnone in Hn. destruct i; discriminate. }
    rewrite Hone in Hn. apply nth_error_one in Hn. destruct Hn as [-> ->].
    unfold Dashboard.resume, Dashboard.awaited_query in *.
    destruct (Dashboard.awaited c0) eqn:Ha.
    + inversion Hf; subst l'; clear Hf. right.
      cbn [Dashboard.live Dashboard.in_progress Dashboard.send state update
           snd]. rewrite Hone. eexists. split; [reflexivity | exact Hpage].
    + rewrite store_page in Hrep. cbn [fst] in Hrep. subst r.
      cbn [error data Dashboard.or_empty] in Hf.
      inversion Hf; subst l'; clear Hf. left.
      cbn [Dashboard.live Dashboard.in_progress state update snd
           Dashboard.setResponses Dashboard.setLoading Dashboard.responses
           Dashboard.currentPage].
      rewrite Hone. split; [reflexivity|]. rewrite <- Hpage. reflexivity.
Qed.

Lemma browsing_play (w : Store.t) (events : list Dashboard.Event)
    (l l' : Dashboard.Live Store.t) :
  Dashboard.play Store.client events l = Some l' ->
  browsing w l ->
  browsing w l'
  /\ (Dashboard.waits Store.client events l = true ->
      in_turn w l -> in_turn w l').
Proof.
  revert l. induction events as [|e events IH]; intros l Hplay Hb.
  - inversion Hplay; subst. split; [exact Hb | intros _ H; exact H].
  - cbn [Dashboard.play] in Hplay.
    destruct (Dashboard.fire Store.client e l) as [l1|] eqn:Hf;
      [|discriminate].
    pose proof (browsing_fire w e l l1 Hf Hb) as Hb1.
    destruct (IH l1 Hplay Hb1) as [Hb' Hj'].
    split; [exact Hb'|].
    cbn [Dashboard.waits]. rewrite Hf. intros Hwaits Hj.
    apply andb_true_iff in Hwaits. destruct Hwaits as [Hnow Hlater].
    apply Hj'; [exact Hlater|].
    apply (in_turn_fire w e l l1 Hf); try assumption.
    destruct e; [|exact I|exact I].
    destruct (Dashboard.in_progress l); [reflexivity | discriminate].
Qed.

(** One call of [fetchResponses], taken step by step with nothing in
    between, is the call taken as a whole. *)
Lemma fetch_step_by_step (W : Type) (supabase : Client W)
    (env : Env Dashboard.State W) :
  Dashboard.play supabase
    [Dashboard.Answers 0; Dashboard.Resumes 0;
     Dashboard.Answers 0; Dashboard.Resumes 0]
    (Dashboard.start
       {| Dashboard.live := env; Dashboard.in_progress := [] |}) =
  Some {| Dashboard.live := snd (Dashboard.fetchResponses supabase env);
          Dashboard.in_progress := [] |}.
Proof.
  rewrite fetchResponses_run. cbn [snd].
  destruct env as [s ts qs w].
  unfold Dashboard.play, Dashboard.fire, Dashboard.start, Dashboard.answer,
    Dashboard.awaited_query.
  cbn [Dashboard.live Dashboard.in_progress nth_error app Dashboard.reply
       Dashboard.awaited Dashboard.closure_page Dashboard.send
       state toasts sent world update snd].
  destruct (supabase (SelectCount telegram_survey) w) as [counted w1].
  cbn [Dashboard.live Dashboard.in_progress nth_error app firstn skipn
       Dashboard.reply Dashboard.resume Dashboard.awaited
       Dashboard.closure_page Dashboard.send state toasts sent world update
       snd Dashboard.setLoading Dashboard.setTotalResponses
       Dashboard.currentPage].
  destruct (supabase (Dashboard.page_query (Dashboard.currentPage s)) w1)
    as [selected w2].
  cbn [Dashboard.live Dashboard.in_progress nth_error app firstn skipn
       Dashboard.reply Dashboard.resume Dashboard.awaited
       Dashboard.closure_page Dashboard.send state toasts sent world update
       toast snd Dashboard.setLoading Dashboard.setTotalResponses
       Dashboard.setResponses Dashboard.currentPage].
  rewrite <- app_assoc.
  destruct (error selected); reflexivity.
Qed.

(** A click that changes the page, followed by the replies to the call it
    makes with nothing in between, is the click taken as a whole. *)
Lemma click_step_by_step (W : Type) (supabase : Client W)
    (env : Env Dashboard.State W) (c : Dashboard.Click) :
  Dashboard.on_screen c (state env) = true ->
  Dashboard.currentPage (Dashboard.onClick c (state env)) <>
  Dashboard.currentPage (state env) ->
  Dashboard.play supabase
    [Dashboard.Clicks c; Dashboard.Answers 0; Dashboard.Resumes 0;
     Dashboard.Answers 0; Dashboard.Resumes 0]
    {| Dashboard.live := env; Dashboard.in_progress := [] |} =
  Some {| Dashboard.live := snd (Dashboard.click supabase c env);
          Dashboard.in_progress := [] |}.
Proof.
  intros Hon Hne.
  pose proof (click_run _ supabase env c) as Hrun. cbv zeta in Hrun.
  rewrite Hrun.
  destruct (Z.eqb_spec (Dashboard.currentPage (state env))
              (Dashboard.currentPage (Dashboard.onClick c (state env))))
    as [E|E]; [congruence|].
  rewrite <- fetch_step_by_step.
  change (Dashboard.play supabase (Dashboard.Clicks c :: ?es) ?l)
    with (match Dashboard.fire supabase (Dashboard.Clicks c) l with
          | Some l' => Dashboard.play supabase es l'
          | None => None
          end).
  cbn [Dashboard.fire Dashboard.live Dashboard.in_progress state update snd].
  rewrite Hon.
  destruct (Z.eqb_spec (Dashboard.currentPage (state env))
              (Dashboard.currentPage (Dashboard.onClick c (state env))))
    as [E'|_]; [congruence|].
  reflexivity.
Qed.

(** X18.  Browsing a table that does not change, clicks and replies coming
    in any order: a click can be made while earlier calls of
    [fetchResponses] are in progress, and their replies arrive in any order.
    Throughout, the table is as it was, no error notice has been reported,
    nothing but counts and range selects has been sent, the page index is
    the first page or a page of the table, the total is zero or the number of
    rows, and the records on display are none or the rows of one of the pages
    of the table.  With no call in progress the loading flag is down and the
    total is the number of rows.  When moreover every click has been made
    with no call in progress, the records on display are the rows of the
    current page, and there are some unless the table is empty. *)
Theorem browsing_with_replies_in_any_order
    (w : Store.t) (events : list Dashboard.Event)
    (l : Dashboard.Live Store.t) :
  Dashboard.play Store.client events (Dashboard.launched w) = Some l ->
  let s := state (Dashboard.live l) in
  let p := Dashboard.currentPage s in
  world (Dashboard.live l) = w
  /\ toasts (Dashboard.live l) = []
  /\ Forall reads (sent (Dashboard.live l))
  /\ (p = 1 \/ 1 <= p <= Dashboard.totalPages s)%Z
  /\ (Dashboard.totalResponses s = 0%Z
      \/ Dashboard.totalResponses s = Z.of_nat (length (Store.rows w)))
  /\ (Dashboard.responses s = []
      \/ exists q,
           (1 <= q <= Dashboard.totalPages s)%Z
           /\ Dashboard.responses s = page_rows w q)
  /\ (Dashboard.in_progress l = [] ->
      Dashboard.loading s = false
      /\ Dashboard.totalResponses s = Z.of_nat (length (Store.rows w))
      /\ (Dashboard.waits Store.client events (Dashboard.launched w) = true ->
          Dashboard.responses s = page_rows w p
          /\ (Store.rows w <> [] -> Dashboard.responses s <> []))).
Proof.
  intros Hplay s p.
  destruct (browsing_launched w) as [Hb0 Hj0].
  destruct (browsing_play w events _ l Hplay Hb0) as [Hb Hj].
  destruct Hb as (Hw & Hts & Hs & Hc & Hp & Hd & Hl).
  fold s in Hp, Hd, Hl. fold p in Hp.
  assert (Dashboard.totalResponses s = Z.of_nat (length (Store.rows w)) ->
          Dashboard.totalPages s = pages w) as Htp
      by apply pages_of_total.
  split; [exact Hw|]. split; [exact Hts|]. split; [exact Hs|].
  split; [|split; [|split]].
  - destruct Hd as [(Ht & _)|(_ & _ & Hp1 & _)].
    + rewrite (Htp Ht). exact Hp.
    + left. exact Hp1.
  - destruct Hd as [(Ht & _)|(Ht & _)]; [right | left]; exact Ht.
  - destruct Hd as [(Ht & Hr)|(_ & Hr & _)]; [|left; exact Hr].
    rewrite (Htp Ht). exact Hr.
  - intros Hnone. split; [apply Hl; exact Hnone|]. split.
    + destruct Hd as [(Ht & _)|(_ & _ & _ & Hne & _)];
        [exact Ht | contradiction].
    + intros Hwaits.
      destruct (Hj Hwaits Hj0) as [(_ & Hshown)|(c & Hone & _)];
        [|congruence].
      fold s in Hshown. fold p in Hshown.
      split; [exact Hshown|]. intros Hrows. rewrite Hshown.
      destruct Hp as [Hp|Hp].
      * rewrite Hp. destruct (first_page_rows w) as [E|E].
        -- unfold page_rows in E. destruct (Store.rows w); [congruence|].
           discriminate.
        -- apply page_rows_nonempty. exact E.
      * apply page_rows_nonempty. exact Hp.
Qed.

Lemma browsing_with_replies_in_any_order_witness :
  (exists l,
      Dashboard.play Store.client Sample.one_at_a_time
        (Dashboard.launched (Sample.store 25)) = Some l
      /\ Dashboard.in_progress l = []
      /\ Dashboard.currentPage (state (Dashboard.live l)) = 3%Z
      /\ Dashboard.responses (state (Dashboard.live l)) =
         page_rows (Sample.store 25) 3)
  /\ (exists l,
         Dashboard.play Store.client Sample.overtaken
           (Dashboard.launched (Sample.store 25)) = Some l
         /\ Dashboard.in_progress l = []
         /\ Dashboard.loading (state (Dashboard.live l)) = false
         /\ Dashboard.currentPage (state (Dashboard.live l)) = 3%Z
         /\ Dashboard.responses (state (Dashboard.live l)) =
            page_rows (Sample.store 25) 2
         /\ length (page_rows (Sample.store 25) 2) = 10%nat
         /\ length (page_rows (Sample.store 25) 3) = 5%nat).
Proof.
  split.
  - eexists. split; [vm_compute; reflexivity|].
    split; [reflexivity|]. split; [reflexivity|].
    apply (browsing_with_replies_in_any_order (Sample.store 25)
             Sample.one_at_a_time); reflexivity.
  - eexists. split; [vm_compute; reflexivity|].
    split; [reflexivity|]. split.
    + apply (browsing_with_replies_in_any_order (Sample.store 25)
               Sample.overtaken); reflexivity.
    + repeat split; reflexivity.
Defined.

(* ================================================================== *)
(** * The colours of the pie charts *)
(* ================================================================== *)

Lemma COLORS_NoDup : NoDup Dashboard.COLORS.
Proof. apply NoDup_computed. vm_compute. reflexivity. Qed.

Lemma NoDup_map_on (A B : Type) (g : A -> B) (l : list A) :
  (forall a b, In a l -> In b l -> g a = g b -> a = b) ->
  NoDup l -> NoDup (map g l).
Proof.
  intros Hg Hl. induction Hl as [|a l Ha Hl IH]; simpl; constructor.
  - intros H. apply in_map_iff in H. destruct H as [b [E Hb]].
    assert (b = a) by (apply Hg; [right | left | ]; auto).
    subst. contradiction.
  - apply IH. intros x y Hx Hy. apply Hg; right; assumption.
Qed.

(** X19.  The slice of index [i] of a pie chart is filled with the colour
    of index [i mod 10] of the palette: a slice always gets a colour, two
    slices get the same colour exactly when their indices differ by a
    multiple of ten, and the slices of a series of ten entries at most all
    differ in colour. *)
Theorem slices_cycle_through_the_palette :
  (forall i, Dashboard.fill i <> None)
  /\ (forall i j,
         Dashboard.fill i = Dashboard.fill j <-> i mod 10 = j mod 10)
  /\ (forall series,
         length (Dashboard.cells series) = length series
         /\ (length series <= 10 -> NoDup (Dashboard.cells series))).
Proof.
  assert (length Dashboard.COLORS = 10) as Hlen by reflexivity.
  assert (forall i j,
             Dashboard.fill i = Dashboard.fill j <-> i mod 10 = j mod 10)
    as Hsame.
  { intros i j. unfold Dashboard.fill. rewrite Hlen. split.
    - apply (proj1 (NoDup_nth_error Dashboard.COLORS) COLORS_NoDup).
      rewrite Hlen. apply Nat.mod_upper_bound. discriminate.
    - intros ->. reflexivity. }
  split; [|split].
  - intros i. unfold Dashboard.fill. apply nth_error_Some.
    rewrite Hlen. apply Nat.mod_upper_bound. discriminate.
  - exact Hsame.
  - intros series. unfold Dashboard.cells. split.
    + rewrite length_map, length_seq. reflexivity.
    + intros H. apply NoDup_map_on; [|apply seq_NoDup].
      intros a b Ha Hb E. apply in_seq in Ha, Hb. apply Hsame in E.
      rewrite !Nat.mod_small in E by lia. exact E.
Qed.

Lemma slices_cycle_through_the_palette_witness :
  NoDup (Dashboard.cells (Dashboard.getAgeGroupData Sample.page)).
Proof.
  apply (proj2 (proj2 slices_cycle_through_the_palette)
           (Dashboard.getAgeGroupData Sample.page)).
  simpl. lia.
Defined.
